(** * SP-STM firmware: bus link, framing, dispatch and sensor parsing

    A shallow embedding of the parts of the SP-STM sensor-processor
    firmware that its specification makes testable statements about:

    - [comm.c]   the two-wire bus link (byte send / receive, message
                 receive loop, message send, message grab);
    - [crc.h]    the CRC-16 routine (only its prototype is in the tree);
    - [core.c]   the dispatch switch of [vCORE_Run];
    - [main.c]   the report slots and [ucMain_FetchData];
    - [STM.c]    the sensor checksum test and the ASCII parser.

    Machine integers are [Z] with the wrap-around written out, arrays
    are lists read and written by index, and a C function that touches
    globals or the pins is a function in a small state monad whose
    result says whether the call returns, waits for ever, or leaves the
    arrays it was given. *)

From stdpp Require Import prelude.
From Stdlib Require Import ZArith Lia.

Open Scope Z_scope.

(** ** Machine integers *)

Definition u8 (x : Z) : Z := x mod 256.
Definition u16 (x : Z) : Z := x mod 65536.
Definition u32 (x : Z) : Z := x mod 4294967296.
(** Conversion to a signed type keeps the low bits (two's complement). *)
Definition s16 (x : Z) : Z :=
  let r := x mod 65536 in if r <? 32768 then r else r - 65536.
Definition s32 (x : Z) : Z :=
  let r := x mod 4294967296 in if r <? 2147483648 then r else r - 4294967296.

(** The port bit masks of the device header: [BITn] is [1 << n]. *)
Definition BIT (n : Z) : Z := Z.shiftl 1 n.
Definition BIT0 : Z := Eval cbv in BIT 0.
Definition BIT1 : Z := Eval cbv in BIT 1.
Definition BIT2 : Z := Eval cbv in BIT 2.

(** [x &= ~m] and [x |= m] on an 8-bit register. *)
Definition bic (x m : Z) : Z := Z.land x (Z.lnot m).
Definition bis (x m : Z) : Z := Z.lor x m.
(** [x & m] used as a C condition. *)
Definition tst (x m : Z) : bool := negb (Z.land x m =? 0).

(** ** Calls that may not return

    [Returns a]: the call returns [a].  [Blocked]: the call waits for
    ever for the peer.  [Undefined]: the call reads or writes outside
    an array, which C leaves undefined. *)

Inductive outcome (A : Type) : Type :=
  | Returns (a : A)
  | Blocked
  | Undefined.
Arguments Returns {A} a.
Arguments Blocked {A}.
Arguments Undefined {A}.

Definition M (St A : Type) : Type := St → outcome (A * St).

Global Instance M_ret {St} : MRet (M St) := λ A a s, Returns (a, s).
Global Instance M_bind {St} : MBind (M St) := λ A B f m s,
  match m s with
  | Returns (a, s') => f a s'
  | Blocked => Blocked
  | Undefined => Undefined
  end.

Definition gets {St A} (f : St → A) : M St A := λ s, Returns (f s, s).
Definition modify {St} (f : St → St) : M St unit := λ s, Returns (tt, f s).
Definition undefined {St A} : M St A := λ _, Undefined.
Definition blocked {St A} : M St A := λ _, Blocked.

(** The value and the final state of a call. *)
Definition value {A St} (o : outcome (A * St)) : outcome A :=
  match o with
  | Returns (a, _) => Returns a
  | Blocked => Blocked
  | Undefined => Undefined
  end.

(** Array read [a[i]] and write [a[i] = v] with a machine index. *)
Definition rd (a : list Z) (i : Z) : option Z :=
  if (0 <=? i) then a !! Z.to_nat i else None.
Definition wr (a : list Z) (i v : Z) : option (list Z) :=
  if (0 <=? i) && (i <? Z.of_nat (length a)) then Some (<[Z.to_nat i := v]> a)
  else None.

(** ** Message layout ([msg.h]) and the CRC interface ([crc.h]) *)

Definition COMMAND_PKT : Z := 0x01.
Definition REPORT_DATA : Z := 0x02.
Definition PROGRAM_CODE : Z := 0x03.
Definition REQUEST_DATA : Z := 0x04.
Definition REQUEST_LABEL : Z := 0x05.
Definition ID_PKT : Z := 0x06.
Definition CONFIRM_COMMAND : Z := 0x07.
Definition REPORT_ERROR : Z := 0x08.
Definition REQUEST_BSL_PW : Z := 0x09.
Definition INTERROGATE : Z := 0x0A.
Definition SET_SERIALNUM : Z := 0x0B.
Definition COMMAND_SENSOR_TYPE : Z := 0x0C.
Definition REQUEST_SENSOR_TYPE : Z := 0x0D.
Definition REPORT_LABEL : Z := 0x0A.

Definition SP_DATAMESSAGE_VERSION : Z := 120.
Definition SP_LABELMESSAGE_VERSION : Z := 102.
Definition MAXMSGLEN : Z := 0x40.
Definition SP_HEADERSIZE : Z := 4.
Definition MSG_TYP_IDX : Z := 0.
Definition MSG_LEN_IDX : Z := 1.
Definition MSG_VER_IDX : Z := 2.
Definition MSG_FLAGS_IDX : Z := 3.
Definition MSG_PAYLD_IDX : Z := 4.

Definition CRC_FOR_MSG_TO_SEND : Z := 1.
Definition CRC_FOR_MSG_TO_REC : Z := 0.
Definition CRC_SZ : Z := 2.

(** Array accesses inside a call: outside the array is [Undefined]. *)
Definition load {St} (a : list Z) (i : Z) : M St Z := λ s,
  match rd a i with
  | Some v => Returns (v, s)
  | None => Undefined
  end.
Definition store {St} (a : list Z) (i v : Z) : M St (list Z) := λ s,
  match wr a i v with
  | Some a' => Returns (a', s)
  | None => Undefined
  end.

(** The CRC routine of [crc.h], of which the tree has the prototype only:
    [ucCRC16_compute_msg_CRC flag buff len] works on the [len] bytes at
    [buff], returns its status byte and the bytes at [buff] afterwards, or
    nothing when it leaves the array. *)
Class CRC16 : Type :=
  ucCRC16_compute_msg_CRC : Z → list Z → Z → option (Z * list Z).

Definition call_CRC `{CRC16} {St} (flag : Z) (buff : list Z) (len : Z)
  : M St (Z * list Z) := λ s,
  match ucCRC16_compute_msg_CRC flag buff len with
  | Some r => Returns (r, s)
  | None => Undefined
  end.

(** ** The bus link ([comm.h], [comm.c]) *)

Module Comm.

Definition SDA_PIN : Z := BIT1.
Definition SCL_PIN : Z := BIT2.

Definition COMM_RUNNING : Z := 0x01.
Definition COMM_TX_BUSY : Z := 0x02.
Definition COMM_RX_BUSY : Z := 0x04.
Definition COMM_PARITY_ERR : Z := 0x08.
Definition COMM_START_CONDITION : Z := 0x10.
Definition SHUTDOWN_BIT : Z := 0x01.

Definition COMM_OK : Z := 0x00.
Definition COMM_BUFFER_UNDERFLOW : Z := 0x01.
Definition COMM_BUFFER_OVERFLOW : Z := 0x02.
Definition COMM_ERROR : Z := 0x04.
Definition COMM_ACK_ERR : Z := 0x10.

(** One clock edge this node waited for: which edge the interrupt was
    armed for, and what this node put on the data line at that moment
    ([None]: the pin is an input, the line is released). *)
Record edge : Type := Edge { falling : bool; sda : option bool }.

Global Instance edge_eq_dec : EqDecision edge.
Proof. solve_decision. Defined.

(** The globals of [comm.c], the port registers it uses, and the peer:
    [P1IN] lists what the successive reads of the input register will
    return (the peer drives the line; a read with nothing left waits for
    a clock edge that never comes), [bus] records the clock edges gone
    by, oldest first. *)
Record machine : Type := Machine {
  g_ucCOMM_Flags : Z;
  g_ucaRXBuffer : list Z;
  g_ucRXBufferIndex : Z;
  P1OUT : Z;
  P1DIR : Z;
  P2IES : Z;
  P2IFG : Z;
  P1IN : list Z;
  bus : list edge;
}.

Definition set_Flags (f : Z → Z) (m : machine) : machine :=
  Machine (f (g_ucCOMM_Flags m)) (g_ucaRXBuffer m) (g_ucRXBufferIndex m)
          (P1OUT m) (P1DIR m) (P2IES m) (P2IFG m) (P1IN m) (bus m).
Definition set_RXBuffer (b : list Z) (m : machine) : machine :=
  Machine (g_ucCOMM_Flags m) b (g_ucRXBufferIndex m)
          (P1OUT m) (P1DIR m) (P2IES m) (P2IFG m) (P1IN m) (bus m).
Definition set_RXBufferIndex (i : Z) (m : machine) : machine :=
  Machine (g_ucCOMM_Flags m) (g_ucaRXBuffer m) i
          (P1OUT m) (P1DIR m) (P2IES m) (P2IFG m) (P1IN m) (bus m).
Definition set_P1OUT (f : Z → Z) (m : machine) : machine :=
  Machine (g_ucCOMM_Flags m) (g_ucaRXBuffer m) (g_ucRXBufferIndex m)
          (f (P1OUT m)) (P1DIR m) (P2IES m) (P2IFG m) (P1IN m) (bus m).
Definition set_P1DIR (f : Z → Z) (m : machine) : machine :=
  Machine (g_ucCOMM_Flags m) (g_ucaRXBuffer m) (g_ucRXBufferIndex m)
          (P1OUT m) (f (P1DIR m)) (P2IES m) (P2IFG m) (P1IN m) (bus m).
Definition set_P2IES (f : Z → Z) (m : machine) : machine :=
  Machine (g_ucCOMM_Flags m) (g_ucaRXBuffer m) (g_ucRXBufferIndex m)
          (P1OUT m) (P1DIR m) (f (P2IES m)) (P2IFG m) (P1IN m) (bus m).
Definition set_P2IFG (f : Z → Z) (m : machine) : machine :=
  Machine (g_ucCOMM_Flags m) (g_ucaRXBuffer m) (g_ucRXBufferIndex m)
          (P1OUT m) (P1DIR m) (P2IES m) (f (P2IFG m)) (P1IN m) (bus m).
Definition set_P1IN (l : list Z) (m : machine) : machine :=
  Machine (g_ucCOMM_Flags m) (g_ucaRXBuffer m) (g_ucRXBufferIndex m)
          (P1OUT m) (P1DIR m) (P2IES m) (P2IFG m) l (bus m).
Definition set_bus (f : list edge → list edge) (m : machine) : machine :=
  Machine (g_ucCOMM_Flags m) (g_ucaRXBuffer m) (g_ucRXBufferIndex m)
          (P1OUT m) (P1DIR m) (P2IES m) (P2IFG m) (P1IN m) (f (bus m)).

(** What this node puts on the data line: the output bit when the pin is
    an output, nothing when it is an input. *)
Definition sda_driven (m : machine) : option bool :=
  if tst (P1DIR m) SDA_PIN then Some (tst (P1OUT m) SDA_PIN) else None.

(** [while (!(P_SCL_IFG & SCL_PIN)); P_SCL_IFG &= ~SCL_PIN;]
    The peer owns the clock: the armed edge arrives, sets the flag, and
    the code clears it. *)
Definition wait_SCL : M machine unit :=
  modify (λ m, set_P2IFG (λ r, bic r SCL_PIN)
                 (set_bus (λ t, t ++ [Edge (tst (P2IES m) SCL_PIN) (sda_driven m)]) m)).

(** A read of [P_SDA_IN]. *)
Definition read_P1IN : M machine Z := λ m,
  match P1IN m with
  | [] => Blocked
  | v :: rest => Returns (v, set_P1IN rest m)
  end.

(** *** [ucCOMM_SendByte] *)

(** [for (ucBitIdx = 0; ucBitIdx < 8; ucBitIdx++)
       ucParityBit ^= ((ucTXChar >> ucBitIdx) & 0x01);]
    with [n] iterations to go. *)
Fixpoint SendByte_parity (n : nat) (ucTXChar ucBitIdx ucParityBit : Z) : Z :=
  match n with
  | O => ucParityBit
  | S n' =>
      SendByte_parity n' ucTXChar (ucBitIdx + 1)
        (Z.lxor ucParityBit (Z.land (Z.shiftr ucTXChar ucBitIdx) 0x01))
  end.

(** The transmission [do { ... } while (ucTXBitsLeft != 0)]; [n] is
    [ucTXBitsLeft] after the decrement in the body. *)
Fixpoint SendByte_loop (n : nat) (uiTXChar : Z) : M machine unit :=
  (if tst uiTXChar 0x01
   then modify (set_P1OUT (λ r, bis r (u8 SDA_PIN)))
   else modify (set_P1OUT (λ r, bic r (u8 SDA_PIN))));;
  wait_SCL;;
  match n with
  | O => mret tt
  | S n' => SendByte_loop n' (Z.shiftr uiTXChar 1)
  end.

Definition ucCOMM_SendByte (ucTXChar : Z) : M machine Z :=
  flags ← gets g_ucCOMM_Flags;
  if tst flags COMM_TX_BUSY then mret COMM_ERROR else
  modify (set_Flags (λ f, bis f COMM_TX_BUSY));;
  let ucSDABit := u8 SDA_PIN in
  let ucSCLBit := u8 SCL_PIN in
  let ucParityBit := SendByte_parity 8 ucTXChar 0 0 in
  let uiTXChar := u16 (Z.lor ucTXChar (Z.shiftl ucParityBit 8)) in
  modify (set_P2IFG (λ r, bic r ucSCLBit));;
  modify (set_P2IES (λ r, bis r ucSCLBit));;
  modify (set_P1DIR (λ r, bis r ucSDABit));;
  SendByte_loop 8 uiTXChar;;
  modify (set_P1DIR (λ r, bic r ucSDABit));;
  modify (set_P2IES (λ r, bic r ucSCLBit));;
  wait_SCL;;
  v ← read_P1IN;
  let ucAck := Z.land v ucSDABit in
  modify (set_P2IES (λ r, bis r ucSCLBit));;
  wait_SCL;;
  modify (set_Flags (λ f, bic f COMM_TX_BUSY));;
  if ucAck =? 1 then mret COMM_ACK_ERR else mret COMM_OK.

(** *** [ucCOMM_ReceiveByte] *)

(** The sampling [do { ... } while (--ucRXBitsLeft != 0)]; [n] is
    [ucRXBitsLeft] after the decrement.  Returns the byte and the count
    of ones. *)
Fixpoint ReceiveByte_loop (n : nat) (ucRXByte ucParityBit : Z) : M machine (Z * Z) :=
  wait_SCL;;
  let ucRXByte := Z.shiftr ucRXByte 1 in
  v ← read_P1IN;
  let '(ucRXByte, ucParityBit) :=
    if tst v SDA_PIN
    then (Z.lor ucRXByte 0x80, u8 (ucParityBit + 1))
    else (bic ucRXByte 0x80, ucParityBit) in
  match n with
  | O => mret (ucRXByte, ucParityBit)
  | S n' => ReceiveByte_loop n' ucRXByte ucParityBit
  end.

(** The local [ucRXByte] is not initialised; [indet] is what it holds on
    entry (8 bits of it). *)
Definition ucCOMM_ReceiveByte (indet : Z) : M machine Z :=
  flags ← gets g_ucCOMM_Flags;
  if tst flags COMM_RX_BUSY then mret COMM_ERROR else
  modify (set_Flags (λ f, bis f COMM_RX_BUSY));;
  modify (set_P2IFG (λ r, bic r SCL_PIN));;
  modify (set_P2IES (λ r, bic r SCL_PIN));;
  modify (set_P1DIR (λ r, bic r SDA_PIN));;
  '(ucRXByte, ucParityBit) ← ReceiveByte_loop 7 (u8 indet) 0;
  wait_SCL;;
  v ← read_P1IN;
  let ucRxParityBit := if tst v SDA_PIN then 1 else 0 in
  modify (set_P2IES (λ r, bis r SCL_PIN));;
  wait_SCL;;
  let ucParityBit := ucParityBit mod 2 in
  (if ucParityBit =? ucRxParityBit
   then modify (set_P1OUT (λ r, bic r SDA_PIN))
   else modify (set_P1OUT (λ r, bis r SDA_PIN)));;
  modify (set_P1DIR (λ r, bis r SDA_PIN));;
  wait_SCL;;
  modify (set_P1DIR (λ r, bic r SDA_PIN));;
  modify (set_Flags (λ f, bic f COMM_RX_BUSY));;
  (if negb (ucParityBit =? ucRxParityBit)
   then modify (set_Flags (λ f, bis f COMM_PARITY_ERR))
   else mret tt);;
  buf ← gets g_ucaRXBuffer;
  idx ← gets g_ucRXBufferIndex;
  buf' ← store buf idx ucRXByte;
  modify (set_RXBuffer buf');;
  modify (set_RXBufferIndex (u8 (idx + 1)));;
  mret COMM_OK.

(** *** [ucCOMM_WaitForMessage] *)

(** The [do { ... } while (g_ucRXBufferIndex != ucRXMessageSize)] loop.
    Every pass stores one byte, and a byte past the end of the 64-byte
    array is [Undefined], so [MAXMSGLEN + 1] passes are never exceeded;
    [n] counts the passes left. *)
Fixpoint WaitForMessage_loop (indet : Z) (n : nat) (ucRXMessageSize : Z)
  : M machine (option Z) :=
  match n with
  | O => undefined
  | S n' =>
      let while_ (ucRXMessageSize : Z) : M machine (option Z) :=
        idx ← gets g_ucRXBufferIndex;
        if negb (idx =? ucRXMessageSize)
        then WaitForMessage_loop indet n' ucRXMessageSize
        else mret None in
      r ← ucCOMM_ReceiveByte indet;
      if negb (r =? 0) then mret (Some COMM_ERROR) else
      idx ← gets g_ucRXBufferIndex;
      if idx =? SP_HEADERSIZE then
        buf ← gets g_ucaRXBuffer;
        len ← load buf MSG_LEN_IDX;
        let ucRXMessageSize := u8 (len + CRC_SZ) in
        if (ucRXMessageSize >? MAXMSGLEN) || (ucRXMessageSize <? SP_HEADERSIZE)
        then mret (Some COMM_ERROR)
        else while_ ucRXMessageSize
      else while_ ucRXMessageSize
  end.

Definition ucCOMM_WaitForMessage (indet : Z) : M machine Z :=
  r ← WaitForMessage_loop indet (S (Z.to_nat MAXMSGLEN)) SP_HEADERSIZE;
  match r with
  | Some e => mret e
  | None =>
      idx ← gets g_ucRXBufferIndex;
      if idx =? 0 then mret COMM_ERROR else mret 0
  end.

(** *** [vCOMM_SendMessage] *)

(** The [for (ucLoopCount = 0; ucLoopCount < ucLength; ucLoopCount++)]
    loop over a byte sender [send]; [p] is how far [pBuff] has moved.
    A pass either sends a byte for good or counts an error, and the
    fifth error leaves the loop, so [ucLength + 5] passes are never
    exceeded; [n] counts the passes left. *)
Fixpoint SendMessage_loop {St} (send : Z → M St Z) (n : nat) (buff : list Z)
    (p ucLoopCount ucErrorCount ucLength : Z) : M St unit :=
  match n with
  | O => undefined
  | S n' =>
      if negb (ucLoopCount <? ucLength) then mret tt else
      b ← load buff p;
      r ← send b;
      let p := p + 1 in
      if negb (r =? COMM_OK) then
        let ucErrorCount := u8 (ucErrorCount + 1) in
        let ucLoopCount := u8 (ucLoopCount - 1) in
        if ucErrorCount =? 5 then mret tt
        else SendMessage_loop send n' buff p (u8 (ucLoopCount + 1)) ucErrorCount ucLength
      else SendMessage_loop send n' buff p (u8 (ucLoopCount + 1)) ucErrorCount ucLength
  end.

(** [vCOMM_SendMessage] over a byte sender; returns the bytes at [pBuff]
    afterwards (the CRC routine writes the trailer into the caller's
    array). *)
Definition vCOMM_SendMessage_over `{CRC16} {St} (send : Z → M St Z)
    (pBuff : list Z) (ucLength : Z) : M St (list Z) :=
  let ucErrorCount := 0 in
  let ucLength := u8 (ucLength + CRC_SZ) in
  '(_, buff) ← call_CRC CRC_FOR_MSG_TO_SEND pBuff ucLength;
  SendMessage_loop send (Z.to_nat ucLength + 5) buff 0 0x00 ucErrorCount ucLength;;
  mret buff.

Definition vCOMM_SendMessage `{CRC16} (pBuff : list Z) (ucLength : Z)
  : M machine (list Z) :=
  vCOMM_SendMessage_over ucCOMM_SendByte pBuff ucLength.

(** *** [ucCOMM_GrabMessageFromBuffer] *)

(** [for (ucLoopCount = 0; ucLoopCount < ucLength; ucLoopCount++)
       *pucBuff++ = g_ucaRXBuffer[ucLoopCount];]
    with [n] passes to go. *)
Fixpoint Grab_copy {St} (n : nat) (src dst : list Z) (ucLoopCount : Z)
  : M St (list Z) :=
  match n with
  | O => mret dst
  | S n' =>
      v ← load src ucLoopCount;
      dst ← store dst ucLoopCount v;
      Grab_copy n' src dst (ucLoopCount + 1)
  end.

(** Returns the status and the bytes at [pucBuff] afterwards. *)
Definition ucCOMM_GrabMessageFromBuffer `{CRC16} (pucBuff : list Z)
  : M machine (Z * list Z) :=
  idx ← gets g_ucRXBufferIndex;
  if idx <? SP_HEADERSIZE then mret (COMM_BUFFER_UNDERFLOW, pucBuff) else
  buf ← gets g_ucaRXBuffer;
  ucLength ← load buf MSG_LEN_IDX;
  if ucLength >? MAXMSGLEN then mret (COMM_BUFFER_UNDERFLOW, pucBuff) else
  len ← load buf MSG_LEN_IDX;
  '(ok, buf) ← call_CRC CRC_FOR_MSG_TO_REC buf (u8 (len + CRC_SZ));
  modify (set_RXBuffer buf);;
  if ok =? 0 then mret (COMM_ERROR, pucBuff) else
  buf ← gets g_ucaRXBuffer;
  dst ← Grab_copy (Z.to_nat ucLength) buf pucBuff 0x00;
  modify (set_RXBufferIndex 0x00);;
  mret (COMM_OK, dst).

(** [vCOMM_Init], as far as the globals go. *)
Definition vCOMM_Init : M machine unit :=
  modify (set_P1DIR (λ r, bic r SDA_PIN));;
  modify (set_RXBuffer (replicate (Z.to_nat MAXMSGLEN) 0xFF));;
  modify (set_RXBufferIndex 0x00);;
  modify (set_Flags (λ _, COMM_RUNNING)).

(** A byte sender for experiments on [vCOMM_SendMessage]: the calls
    return the statuses listed in [answers], one after the other, then
    [COMM_OK]; [handed] records the bytes the calls were given. *)
Record script : Type := Script { answers : list Z; handed : list Z }.

Definition scripted_send (b : Z) : M script Z := λ s,
  match answers s with
  | [] => Returns (COMM_OK, Script [] (handed s ++ [b]))
  | r :: rest => Returns (r, Script rest (handed s ++ [b]))
  end.

End Comm.

(** ** The CRC-16 ([crc.h]) *)

Module CRC.

(** Modelled from the spec: the body of [ucCRC16_compute_msg_CRC]
    ([crc.c]) is missing.  The spec has a 16-bit CRC computed over header
    and payload, appended as a 2-byte trailer by the send mode and
    compared with the trailer by the receive mode, one routine for both.
    This is one shift of the register of the bitwise CRC-16, most
    significant bit first, for a generator [poly]. *)
Definition crc_bit (poly : Z) (r : Z) (b : bool) : Z :=
  let r' := Z.land (Z.shiftl r 1) 0xFFFF in
  if xorb (Z.testbit r 15) b then Z.lxor r' poly else r'.

(** Modelled from the spec: [crc.c] is missing; the eight shifts for one
    byte of the message. *)
Definition crc_byte (poly : Z) (r x : Z) : Z :=
  fold_left (λ r i, crc_bit poly r (Z.testbit x i)) [7; 6; 5; 4; 3; 2; 1; 0] r.

(** Modelled from the spec: [crc.c] is missing; the 16-bit CRC of the
    bytes [msg] from the start value [init]. *)
Definition crc16 (poly init : Z) (msg : list Z) : Z :=
  fold_left (crc_byte poly) msg init.

(** Modelled from the spec: [ucCRC16_compute_msg_CRC] of the missing
    [crc.c].  The length argument counts the trailer, as both callers in
    [comm.c] pass it; the send mode writes the CRC of the bytes before
    the trailer into the trailer, high byte first, the receive mode
    compares and returns 1 on a match, 0 otherwise (the caller in
    [comm.c] takes 0 as the failure). *)
Definition compute_msg_CRC (poly init : Z) (ucMsgFlag : Z) (ucMSGBuff : list Z)
    (ucLength : Z) : option (Z * list Z) :=
  if (ucLength <? CRC_SZ) || (Z.of_nat (length ucMSGBuff) <? ucLength) then None
  else
    let n := Z.to_nat (ucLength - CRC_SZ) in
    let c := crc16 poly init (take n ucMSGBuff) in
    let hi := Z.shiftr c 8 in
    let lo := Z.land c 0xFF in
    if ucMsgFlag =? CRC_FOR_MSG_TO_SEND
    then Some (1, take n ucMSGBuff ++ [hi; lo] ++ drop (n + 2) ucMSGBuff)
    else Some (if bool_decide (ucMSGBuff !! n = Some hi ∧ ucMSGBuff !! S n = Some lo)
               then 1 else 0, ucMSGBuff).

Definition model (poly init : Z) : CRC16 := compute_msg_CRC poly init.

(** The CCITT generator x^16 + x^12 + x^5 + 1 and start value, as one
    instance. *)
Definition ccitt : CRC16 := model 0x1021 0xFFFF.

End CRC.

(** ** The report slots ([main.c]) *)

Module Main.

Definition NUM_TRANSDUCERS : Z := 4.
Definition TYPE_IS_SENSOR : Z := 0x53.
Definition NUMDATGEN : Z := 0x09.
Definition MAXDATALEN : Z := 0x04.
Definition F_NEWDATA : Z := 0x01.

(** One element of [S_Report]. *)
Record report : Type := Report {
  m_ucaData : list Z;
  m_ucLength : Z;
  m_ucFlags : Z;
}.

(** The application state: the array [S_Report[NUMDATGEN]]. *)
Record app : Type := App { S_Report : list report }.

Definition slot {St} (t : list report) (i : Z) : M St report := λ s,
  match (if 0 <=? i then t !! Z.to_nat i else None) with
  | Some r => Returns (r, s)
  | None => Undefined
  end.

Definition vMain_CleanDataStruct : M app unit :=
  modify (λ a, App (replicate (Z.to_nat NUMDATGEN)
                      (Report (replicate (Z.to_nat MAXDATALEN) 0) 0 0))).

(** [uiMain_Test]: fills slot 0. *)
Definition uiMain_Test : M app Z :=
  t ← gets S_Report;
  r ← slot t 0;
  d ← store (m_ucaData r) 0 0xBE;
  d ← store d 1 0xEF;
  modify (λ a, App (<[0%nat := Report d 2 F_NEWDATA]> (S_Report a)));;
  mret 0.

(** The inner loop of [ucMain_FetchData]:
    [for (ucByteCnt = 0; ucByteCnt < m_ucLength; ucByteCnt++)
       *pucBuff++ = m_ucaData[ucByteCnt];]
    with [n] passes to go; [p] is how far [pucBuff] has moved. *)
Fixpoint FetchData_bytes {St} (n : nat) (data : list Z) (ucByteCnt : Z)
    (buff : list Z) (p : Z) : M St (list Z * Z) :=
  match n with
  | O => mret (buff, p)
  | S n' =>
      v ← load data ucByteCnt;
      buff ← store buff p v;
      FetchData_bytes n' data (ucByteCnt + 1) buff (p + 1)
  end.

(** The outer loop, [n] generators to go. *)
Fixpoint FetchData_loop (n : nat) (ucDataGenCnt : Z) (buff : list Z) (p : Z)
    (ucLength : Z) : M app (Z * list Z) :=
  match n with
  | O => mret (ucLength, buff)
  | S n' =>
      t ← gets S_Report;
      r ← slot t ucDataGenCnt;
      if tst (m_ucFlags r) F_NEWDATA then
        buff ← store buff p ucDataGenCnt;
        buff ← store buff (p + 1) (m_ucLength r);
        '(buff, p) ← FetchData_bytes (Z.to_nat (m_ucLength r)) (m_ucaData r) 0
                      buff (p + 2);
        FetchData_loop n' (ucDataGenCnt + 1) buff p
          (u8 (ucLength + (m_ucLength r + 2)))
      else FetchData_loop n' (ucDataGenCnt + 1) buff p ucLength
  end.

(** Returns the length and the bytes at [pucBuff] afterwards. *)
Definition ucMain_FetchData (pucBuff : list Z) : M app (Z * list Z) :=
  FetchData_loop (Z.to_nat NUMDATGEN) 0 pucBuff 0 0.

Definition ucMain_getNumTransducers : Z := NUM_TRANSDUCERS.

Definition ucMain_getTransducerType (ucTransNum : Z) : Z :=
  if (1 <=? ucTransNum) && (ucTransNum <=? 4) then TYPE_IS_SENSOR else 0.

Definition ucMain_getSampleDuration (ucTransNum : Z) : Z := 1.

Definition ucMain_ShutdownAllowed : Z := 1.

End Main.

(** ** The sensor line ([STM.h], [STM.c]) *)

Module STM.

Definition MPS6 : Z := 0x6C.
Definition FIVETM : Z := 0x78.
Definition FIVETE : Z := 0x7A.
Definition RX_BUFFER_SIZE_STM : Z := 20.

(** The globals of [STM.c] the checksum test and the parser use.  Plain
    [char] is unsigned on this target: the bytes and the index are
    [0..255]. *)
Record stm : Type := Stm {
  g_ucaSTM_RXBuffer : list Z;
  g_ucSTM_RXBufferIndex : Z;
  nSTM_Temperature : Z;
  lSTM_Soil : Z;
}.

Definition set_Index (i : Z) (s : stm) : stm :=
  Stm (g_ucaSTM_RXBuffer s) i (nSTM_Temperature s) (lSTM_Soil s).
Definition set_Temperature (t : Z) (s : stm) : stm :=
  Stm (g_ucaSTM_RXBuffer s) (g_ucSTM_RXBufferIndex s) t (lSTM_Soil s).
Definition set_Soil (v : Z) (s : stm) : stm :=
  Stm (g_ucaSTM_RXBuffer s) (g_ucSTM_RXBufferIndex s) (nSTM_Temperature s) v.

(** [g_ucaSTM_RXBuffer[g_ucSTM_RXBufferIndex + k]] *)
Definition at_index (k : Z) : M stm Z :=
  buf ← gets g_ucaSTM_RXBuffer;
  idx ← gets g_ucSTM_RXBufferIndex;
  load buf (idx + k).

(** *** [cSTM_Test_Checksum] *)

(** The [do { ... } while (g_ucaSTM_RXBuffer[g_ucSTM_RXBufferIndex] != 0xD)]
    loop; the test of a pass reads one byte further than the pass before,
    so the array is left after [RX_BUFFER_SIZE_STM] passes at the latest;
    [n] counts the passes left after this one. *)
Fixpoint Test_Checksum_loop (n : nat) (add : Z) : M stm Z :=
  v ← at_index 0;
  let add := s16 (add + v) in
  idx ← gets g_ucSTM_RXBufferIndex;
  modify (set_Index (u8 (idx + 1)));;
  c ← at_index 0;
  if negb (c =? 0xD) then
    match n with
    | O => undefined
    | S n' => Test_Checksum_loop n' add
    end
  else mret add.

Definition cSTM_Test_Checksum : M stm Z :=
  let add := 0 in
  modify (set_Index 0);;
  add ← Test_Checksum_loop (Z.to_nat RX_BUFFER_SIZE_STM) add;
  v ← at_index 0;
  let add := s16 (add + v) in
  v ← at_index 1;
  let add := s16 (add + v) in
  let add := s16 (Z.rem add 64 + 32) in
  c ← at_index 2;
  if c =? add then mret 0 else mret 1.

(** *** [cSTM_ReadValue] *)

(** [x += ((g_ucaSTM_RXBuffer[g_ucSTM_RXBufferIndex] - 48) * ulMult)]
    the product and the sum are taken in [uint32], the type of [ulMult]. *)
Definition accum (x c ulMult : Z) : Z := u32 (x + u32 (u32 (c - 48) * ulMult)).

(** The search for the carriage return, [n] passes to go. *)
Fixpoint ReadValue_find (n : nat) (ucSensorType : Z) : M stm Z :=
  match n with
  | O => mret ucSensorType
  | S n' =>
      c ← at_index 0;
      if c =? 0x0D then at_index 1
      else
        idx ← gets g_ucSTM_RXBufferIndex;
        modify (set_Index (u8 (idx + 1)));;
        ReadValue_find n' ucSensorType
  end.

(** [while (g_ucaSTM_RXBuffer[--g_ucSTM_RXBufferIndex] != 0x20
            && g_ucSTM_RXBufferIndex != 0) { nSTM_Temperature += ...; ulMult *= 10; }]
    The index goes down by one in every pass and wraps to 255, outside
    the array, below 0: 256 passes are never exceeded.  Returns [ulMult]. *)
Fixpoint ReadValue_temperature (n : nat) (ulMult : Z) : M stm Z :=
  match n with
  | O => undefined
  | S n' =>
      idx ← gets g_ucSTM_RXBufferIndex;
      modify (set_Index (u8 (idx - 1)));;
      c ← at_index 0;
      idx ← gets g_ucSTM_RXBufferIndex;
      if negb (c =? 0x20) && negb (idx =? 0) then
        c ← at_index 0;
        t ← gets nSTM_Temperature;
        modify (set_Temperature (s16 (accum t c ulMult)));;
        ReadValue_temperature n' (u32 (ulMult * 10))
      else mret ulMult
  end.

(** [while (g_ucSTM_RXBufferIndex-- != 0) { lSTM_Soil += ...; ulMult *= 10; }] *)
Fixpoint ReadValue_soil (n : nat) (ulMult : Z) : M stm Z :=
  match n with
  | O => undefined
  | S n' =>
      idx ← gets g_ucSTM_RXBufferIndex;
      modify (set_Index (u8 (idx - 1)));;
      if negb (idx =? 0) then
        c ← at_index 0;
        v ← gets lSTM_Soil;
        modify (set_Soil (s32 (accum v c ulMult)));;
        ReadValue_soil n' (u32 (ulMult * 10))
      else mret ulMult
  end.

(** [while (g_ucaSTM_RXBuffer[g_ucSTM_RXBufferIndex--] != 0x20
            && g_ucSTM_RXBufferIndex != 0);] *)
Fixpoint ReadValue_skip (n : nat) : M stm unit :=
  match n with
  | O => undefined
  | S n' =>
      c ← at_index 0;
      idx ← gets g_ucSTM_RXBufferIndex;
      modify (set_Index (u8 (idx - 1)));;
      idx ← gets g_ucSTM_RXBufferIndex;
      if negb (c =? 0x20) && negb (idx =? 0) then ReadValue_skip n'
      else mret tt
  end.

(** The temperature loop of the MPS6 case. *)
Fixpoint ReadValue_temperature_MPS6 (n : nat) (ulMult : Z) : M stm Z :=
  match n with
  | O => undefined
  | S n' =>
      idx ← gets g_ucSTM_RXBufferIndex;
      modify (set_Index (u8 (idx - 1)));;
      c ← at_index 0;
      idx ← gets g_ucSTM_RXBufferIndex;
      if negb (c =? 0x20) && negb (idx =? 0) then
        c ← at_index 0;
        if c =? 0x2E then ReadValue_temperature_MPS6 n' ulMult else
        t ← gets nSTM_Temperature;
        modify (set_Temperature (s16 (accum t c ulMult)));;
        let ulMult := u32 (ulMult * 10) in
        c ← at_index 0;
        (if c =? 0x2D
         then t ← gets nSTM_Temperature; modify (set_Temperature (s16 (-1 * t)))
         else mret tt);;
        ReadValue_temperature_MPS6 n' ulMult
      else mret ulMult
  end.

(** The soil loop of the MPS6 case. *)
Fixpoint ReadValue_soil_MPS6 (n : nat) (ulMult : Z) : M stm Z :=
  match n with
  | O => undefined
  | S n' =>
      idx ← gets g_ucSTM_RXBufferIndex;
      modify (set_Index (u8 (idx - 1)));;
      c ← at_index 0;
      if negb (c =? 0x2D) then
        c ← at_index 0;
        if c =? 0x2E then ReadValue_soil_MPS6 n' ulMult else
        v ← gets lSTM_Soil;
        modify (set_Soil (s32 (accum v c ulMult)));;
        ReadValue_soil_MPS6 n' (u32 (ulMult * 10))
      else mret ulMult
  end.

(** The local [ucSensorType] is not initialised; [indet] is what it
    holds when the search finds no carriage return. *)
Definition cSTM_ReadValue (indet : Z) : M stm unit :=
  modify (set_Index 0);;
  ucSensorType ← ReadValue_find (Z.to_nat RX_BUFFER_SIZE_STM) (u8 indet);
  if ucSensorType =? FIVETM then
    modify (set_Temperature 0);;
    modify (set_Soil 0);;
    ReadValue_temperature 256 1;;
    idx ← gets g_ucSTM_RXBufferIndex;
    modify (set_Index (u8 (idx - 2)));;
    ReadValue_soil 256 1;;
    mret tt
  else if ucSensorType =? FIVETE then
    modify (set_Temperature 0);;
    modify (set_Soil 0);;
    ReadValue_temperature 256 1;;
    ReadValue_skip 256;;
    ReadValue_soil 256 1;;
    mret tt
  else if ucSensorType =? MPS6 then
    modify (set_Soil 0);;
    modify (set_Temperature 0);;
    ReadValue_temperature_MPS6 256 1;;
    idx ← gets g_ucSTM_RXBufferIndex;
    modify (set_Index (u8 (idx - 1)));;
    ReadValue_soil_MPS6 256 1;;
    v ← gets lSTM_Soil;
    modify (set_Soil (s32 (v * -1)))
  else mret tt.

Definition lSTM_GetSoil : M stm Z := gets lSTM_Soil.
Definition iSTM_GetTemp : M stm Z := gets nSTM_Temperature.

End STM.

(** ** The dispatch switch ([core.c]) *)

Module Core.

(** [flash.h] *)
Definition BSLPWDLEN : Z := 0x20.
(** Modelled from the spec: [core.h], which defines the label length, is
    missing; the spec has a fixed 16-byte label. *)
Definition TRANSDUCER_LABEL_LEN : Z := 16.
(** [changeable_core_header.h] *)
Definition ID_PKT_BYTES : list Z := [0x53; 0x54; 0x4D; 0x00; 0x00; 0x00; 0x00; 0x00].

(** What [vCORE_Run] calls outside [core.c]: the message sender of
    [comm.c], the application layer declared in
    [changeable_core_header.h], and the flash routines.  A routine that
    is handed a pointer returns the bytes at the pointer afterwards. *)
Class Collaborators (St : Type) : Type := {
  vCOMM_SendMessage : list Z → Z → M St (list Z);
  ucMain_FetchData : list Z → M St (Z * list Z);
  vMain_FetchLabel : Z → list Z → M St (list Z);
  uiMainDispatch : Z → Z → list Z → M St Z;
  ucMAIN_ReturnSensorType : Z → M St Z;
  vMAIN_RequestSensorType : Z → M St unit;
  ucMain_getNumTransducers : M St Z;
  ucMain_getSampleDuration : Z → M St Z;
  ucMain_getTransducerType : Z → M St Z;
  ucMain_ShutdownAllowed : M St Z;
  vFlash_GetBSLPW : list Z → M St (list Z);
  ucFlash_SetHID : list Z → M St Z;
  vFlash_GetHID : list Z → M St (list Z);
}.

(** The variables of [vCORE_Run] that live from one message to the next,
    and the global [uiHID]. *)
Record locals : Type := Locals {
  ucaMsg_Buff : list Z;
  unTransducerReturn : Z;
  ucParam : list Z;
  uiHID : list Z;
}.

Definition set_Msg_Buff (b : list Z) (l : locals) : locals :=
  Locals b (unTransducerReturn l) (ucParam l) (uiHID l).

(** [if (ucMain_ShutdownAllowed() == 1) ucaMsg_Buff[MSG_FLAGS_IDX] |= SHUTDOWN_BIT;
     else ucaMsg_Buff[MSG_FLAGS_IDX] = 0;] *)
Definition shutdown_flag {St : Type} `{!Collaborators St} (buf : list Z) : M St (list Z) :=
  r ← ucMain_ShutdownAllowed;
  if r =? 1 then
    f ← load buf MSG_FLAGS_IDX;
    store buf MSG_FLAGS_IDX (bis f Comm.SHUTDOWN_BIT)
  else store buf MSG_FLAGS_IDX 0.

(** Writes [vs] at [buf[i]], [buf[i+1]], ... *)
Fixpoint store_seq {St} (buf : list Z) (i : Z) (vs : list Z) : M St (list Z) :=
  match vs with
  | [] => mret buf
  | v :: vs' => buf ← store buf i v; store_seq buf (i + 1) vs'
  end.

(** [vCORE_Send_ConfirmPKT]; [fresh] is what its own array holds on
    entry. *)
Definition vCORE_Send_ConfirmPKT {St : Type} `{!Collaborators St} (fresh : list Z) : M St unit :=
  buf ← store fresh MSG_TYP_IDX CONFIRM_COMMAND;
  buf ← store buf MSG_LEN_IDX SP_HEADERSIZE;
  buf ← store buf MSG_VER_IDX SP_DATAMESSAGE_VERSION;
  buf ← store buf MSG_FLAGS_IDX 0;
  len ← load buf MSG_LEN_IDX;
  vCOMM_SendMessage buf len;;
  mret tt.

(** [vCORE_Send_ErrorMsg] *)
Definition vCORE_Send_ErrorMsg {St : Type} `{!Collaborators St} (fresh : list Z) (ucErrMsg : Z)
  : M St unit :=
  buf ← store fresh MSG_TYP_IDX REPORT_ERROR;
  buf ← store buf MSG_LEN_IDX 5;
  buf ← store buf MSG_VER_IDX SP_DATAMESSAGE_VERSION;
  buf ← store buf MSG_FLAGS_IDX 0;
  buf ← store buf MSG_PAYLD_IDX ucErrMsg;
  len ← load buf MSG_LEN_IDX;
  vCOMM_SendMessage buf len;;
  mret tt.

(** [for (ucParamCount = 0; ucParamCount < ucCmdParamLen; ucParamCount++)
       ucParam[ucParamCount] = ucaMsg_Buff[ucMsgBuffIdx++];]
    with [n] passes to go. *)
Fixpoint Command_params {St} (n : nat) (buf par : list Z) (ucParamCount idx : Z)
  : M St (list Z * Z) :=
  match n with
  | O => mret (par, idx)
  | S n' =>
      v ← load buf idx;
      par ← store par ucParamCount v;
      Command_params n' buf par (ucParamCount + 1) (u8 (idx + 1))
  end.

(** [for (ucMsgBuffIdx = MSG_PAYLD_IDX; ucMsgBuffIdx < ucaMsg_Buff[MSG_LEN_IDX];)]
    every pass reads at least two bytes of the 64-byte array at rising
    indices: 64 passes are never exceeded. *)
Fixpoint Command_loop {St : Type} `{!Collaborators St} (n : nat) (buf par : list Z) (idx ret : Z)
  : M St (list Z * Z) :=
  match n with
  | O => undefined
  | S n' =>
      len ← load buf MSG_LEN_IDX;
      if negb (idx <? len) then mret (par, ret) else
      ucCmdTransNum ← load buf idx;
      let idx := u8 (idx + 1) in
      ucCmdParamLen ← load buf idx;
      let idx := u8 (idx + 1) in
      '(par, idx) ← Command_params (Z.to_nat ucCmdParamLen) buf par 0 idx;
      r ← uiMainDispatch ucCmdTransNum ucCmdParamLen par;
      Command_loop n' buf par idx (u16 (Z.lor ret r))
  end.

Definition case_COMMAND_PKT {St : Type} `{!Collaborators St} (fresh : list Z) (l : locals)
  : M St locals :=
  vCORE_Send_ConfirmPKT fresh;;
  '(par, ret) ← Command_loop 64 (ucaMsg_Buff l) (ucParam l) MSG_PAYLD_IDX 0;
  mret (Locals (ucaMsg_Buff l) ret par (uiHID l)).

Definition case_REQUEST_DATA {St : Type} `{!Collaborators St} (l : locals) : M St locals :=
  buf ← store (ucaMsg_Buff l) MSG_TYP_IDX REPORT_DATA;
  buf ← (if negb (unTransducerReturn l =? 0)
         then store buf MSG_TYP_IDX REPORT_ERROR else mret buf);
  buf ← store buf MSG_VER_IDX SP_DATAMESSAGE_VERSION;
  buf ← shutdown_flag buf;
  '(n, payload) ← ucMain_FetchData (drop (Z.to_nat MSG_PAYLD_IDX) buf);
  let buf := take (Z.to_nat MSG_PAYLD_IDX) buf ++ payload in
  buf ← store buf MSG_LEN_IDX (u8 (SP_HEADERSIZE + n));
  len ← load buf MSG_LEN_IDX;
  buf ← vCOMM_SendMessage buf len;
  mret (set_Msg_Buff buf l).

Definition case_REQUEST_LABEL {St : Type} `{!Collaborators St} (l : locals) : M St locals :=
  buf ← store (ucaMsg_Buff l) MSG_TYP_IDX REPORT_LABEL;
  buf ← store buf MSG_LEN_IDX (SP_HEADERSIZE + TRANSDUCER_LABEL_LEN);
  buf ← store buf MSG_VER_IDX SP_LABELMESSAGE_VERSION;
  buf ← shutdown_flag buf;
  t ← load buf MSG_PAYLD_IDX;
  label ← vMain_FetchLabel t (drop (Z.to_nat MSG_PAYLD_IDX) buf);
  let buf := take (Z.to_nat MSG_PAYLD_IDX) buf ++ label in
  len ← load buf MSG_LEN_IDX;
  buf ← vCOMM_SendMessage buf len;
  mret (set_Msg_Buff buf l).

Definition case_REQUEST_BSL_PW {St : Type} `{!Collaborators St} (l : locals) : M St locals :=
  buf ← store (ucaMsg_Buff l) MSG_TYP_IDX REQUEST_BSL_PW;
  buf ← store buf MSG_LEN_IDX (SP_HEADERSIZE + BSLPWDLEN);
  buf ← store buf MSG_VER_IDX SP_DATAMESSAGE_VERSION;
  buf ← shutdown_flag buf;
  pw ← vFlash_GetBSLPW (drop (Z.to_nat MSG_PAYLD_IDX) buf);
  let buf := take (Z.to_nat MSG_PAYLD_IDX) buf ++ pw in
  len ← load buf MSG_LEN_IDX;
  buf ← vCOMM_SendMessage buf len;
  mret (set_Msg_Buff buf l).

(** [for (ucTransIdx = 1; ucTransIdx <= ucMain_getNumTransducers(); ucTransIdx++)]
    every pass writes two bytes of the 64-byte array at rising indices:
    64 passes are never exceeded. *)
Fixpoint Interrogate_loop {St : Type} `{!Collaborators St} (n : nat) (buf : list Z)
    (ucTransIdx idx : Z) : M St (list Z * Z) :=
  match n with
  | O => undefined
  | S n' =>
      k ← ucMain_getNumTransducers;
      if negb (ucTransIdx <=? k) then mret (buf, idx) else
      t ← ucMain_getTransducerType ucTransIdx;
      buf ← store buf idx t;
      let idx := u8 (idx + 1) in
      d ← ucMain_getSampleDuration ucTransIdx;
      buf ← store buf idx d;
      let idx := u8 (idx + 1) in
      Interrogate_loop n' buf (u8 (ucTransIdx + 1)) idx
  end.

Definition case_INTERROGATE {St : Type} `{!Collaborators St} (l : locals) : M St locals :=
  buf ← store (ucaMsg_Buff l) MSG_TYP_IDX INTERROGATE;
  k ← ucMain_getNumTransducers;
  buf ← store buf MSG_LEN_IDX (u8 (2 * k + 13));
  buf ← store buf MSG_VER_IDX SP_DATAMESSAGE_VERSION;
  buf ← shutdown_flag buf;
  let idx := MSG_PAYLD_IDX in
  k ← ucMain_getNumTransducers;
  buf ← store buf idx k;
  let idx := u8 (idx + 1) in
  '(buf, idx) ← Interrogate_loop 64 buf 1 idx;
  buf ← store_seq buf idx ID_PKT_BYTES;
  len ← load buf MSG_LEN_IDX;
  buf ← vCOMM_SendMessage buf len;
  mret (set_Msg_Buff buf l).

(** [(uint8) w] and [(uint8) (w >> 8)] for the four words of the HID. *)
Definition HID_bytes (hid : list Z) : list Z :=
  flat_map (λ w, [u8 w; u8 (Z.shiftr w 8)]) hid.

(** [uiHID[k] = (uint16) lo; uiHID[k] = uiHID[k] | (uint16) (hi << 8);] *)
Definition HID_word (lo hi : Z) : Z := Z.lor (u16 lo) (u16 (Z.shiftl hi 8)).

Definition case_SET_SERIALNUM {St : Type} `{!Collaborators St} (l : locals) : M St locals :=
  let buf := ucaMsg_Buff l in
  b0 ← load buf 4; b1 ← load buf 5; b2 ← load buf 6; b3 ← load buf 7;
  b4 ← load buf 8; b5 ← load buf 9; b6 ← load buf 10; b7 ← load buf 11;
  let hid := [HID_word b0 b1; HID_word b2 b3; HID_word b4 b5; HID_word b6 b7] in
  buf ← store buf MSG_TYP_IDX SET_SERIALNUM;
  buf ← store buf MSG_LEN_IDX (SP_HEADERSIZE + 8);
  buf ← store buf MSG_VER_IDX SP_DATAMESSAGE_VERSION;
  buf ← shutdown_flag buf;
  r ← ucFlash_SetHID hid;
  '(buf, hid) ←
    (if negb (r =? 0) then
       buf ← store buf MSG_TYP_IDX REPORT_ERROR;
       buf ← store buf MSG_LEN_IDX SP_HEADERSIZE;
       mret (buf, hid)
     else
       hid ← vFlash_GetHID hid;
       buf ← store_seq buf MSG_PAYLD_IDX (HID_bytes hid);
       mret (buf, hid));
  len ← load buf MSG_LEN_IDX;
  buf ← vCOMM_SendMessage buf len;
  mret (Locals buf (unTransducerReturn l) (ucParam l) hid).

Definition case_COMMAND_SENSOR_TYPE {St : Type} `{!Collaborators St} (l : locals) : M St locals :=
  vMAIN_RequestSensorType 1;;
  vMAIN_RequestSensorType 2;;
  vMAIN_RequestSensorType 3;;
  vMAIN_RequestSensorType 4;;
  mret l.

Definition case_REQUEST_SENSOR_TYPE {St : Type} `{!Collaborators St} (l : locals) : M St locals :=
  buf ← store (ucaMsg_Buff l) MSG_TYP_IDX 0x0D;
  buf ← store buf MSG_LEN_IDX (SP_HEADERSIZE + 2);
  buf ← store buf MSG_VER_IDX SP_DATAMESSAGE_VERSION;
  buf ← shutdown_flag buf;
  t1 ← ucMAIN_ReturnSensorType 1;
  t2 ← ucMAIN_ReturnSensorType 2;
  t3 ← ucMAIN_ReturnSensorType 3;
  t4 ← ucMAIN_ReturnSensorType 4;
  buf ← store_seq buf SP_HEADERSIZE [t1; t2; t3; t4];
  len ← load buf MSG_LEN_IDX;
  buf ← vCOMM_SendMessage buf len;
  mret (set_Msg_Buff buf l).

Definition case_default {St : Type} `{!Collaborators St} (l : locals) : M St locals :=
  buf ← store (ucaMsg_Buff l) MSG_TYP_IDX REPORT_ERROR;
  buf ← store buf MSG_LEN_IDX SP_HEADERSIZE;
  buf ← store buf MSG_VER_IDX SP_DATAMESSAGE_VERSION;
  buf ← shutdown_flag buf;
  len ← load buf MSG_LEN_IDX;
  buf ← vCOMM_SendMessage buf len;
  mret (set_Msg_Buff buf l).

(** The [switch (ucaMsg_Buff[MSG_TYP_IDX])] of [vCORE_Run], entered when
    [ucCOMM_GrabMessageFromBuffer] has returned [COMM_OK]. *)
Definition vCORE_Run_switch {St : Type} `{!Collaborators St} (fresh : list Z) (l : locals)
  : M St locals :=
  t ← load (ucaMsg_Buff l) MSG_TYP_IDX;
  if t =? COMMAND_PKT then case_COMMAND_PKT fresh l
  else if t =? REQUEST_DATA then case_REQUEST_DATA l
  else if t =? REQUEST_LABEL then case_REQUEST_LABEL l
  else if t =? REQUEST_BSL_PW then case_REQUEST_BSL_PW l
  else if t =? INTERROGATE then case_INTERROGATE l
  else if t =? SET_SERIALNUM then case_SET_SERIALNUM l
  else if t =? COMMAND_SENSOR_TYPE then case_COMMAND_SENSOR_TYPE l
  else if t =? REQUEST_SENSOR_TYPE then case_REQUEST_SENSOR_TYPE l
  else case_default l.

(** The message types the switch has a case for. *)
Definition dispatched (t : Z) : bool :=
  bool_decide (t ∈ [COMMAND_PKT; REQUEST_DATA; REQUEST_LABEL; REQUEST_BSL_PW;
                    INTERROGATE; SET_SERIALNUM; COMMAND_SENSOR_TYPE;
                    REQUEST_SENSOR_TYPE]).

(** A stand-in for the collaborators that records what is handed to
    [vCOMM_SendMessage] and answers [ucMain_ShutdownAllowed] from the
    state; the other routines do nothing. *)
Record probe : Type := Probe {
  allowed : Z;
  sent : list (list Z * Z);
}.

Definition probe_collaborators : Collaborators probe := {|
  vCOMM_SendMessage := λ b n s, Returns (b, Probe (allowed s) (sent s ++ [(b, n)]));
  ucMain_FetchData := λ b, mret (0, b);
  vMain_FetchLabel := λ _ b, mret b;
  uiMainDispatch := λ _ _ _, mret 0;
  ucMAIN_ReturnSensorType := λ _, mret 0x52;
  vMAIN_RequestSensorType := λ _, mret tt;
  ucMain_getNumTransducers := mret Main.ucMain_getNumTransducers;
  ucMain_getSampleDuration := λ t, mret (Main.ucMain_getSampleDuration t);
  ucMain_getTransducerType := λ t, mret (Main.ucMain_getTransducerType t);
  ucMain_ShutdownAllowed := gets allowed;
  vFlash_GetBSLPW := λ b, mret b;
  ucFlash_SetHID := λ _, mret 0;
  vFlash_GetHID := λ h, mret h;
|}.

End Core.
(** ** What the peer sees and says

    Words for the statements below: the byte and the parity the receiver
    makes of the samples of the data line, and the state of the machine
    after clock edges. *)

Module Wire.
Import Comm.

(** One sample of the data line shifted into the byte: the body of the
    sampling loop of [ucCOMM_ReceiveByte]. *)
Definition rx_step (ucRXByte v : Z) : Z :=
  if tst v SDA_PIN then Z.lor (Z.shiftr ucRXByte 1) 0x80
  else bic (Z.shiftr ucRXByte 1) 0x80.

Definition par_step (ucParityBit v : Z) : Z :=
  if tst v SDA_PIN then u8 (ucParityBit + 1) else ucParityBit.

(** The byte and the parity computed from the eight data samples. *)
Definition rx_byte (samples : list Z) : Z := fold_left rx_step samples 0.
Definition rx_parity (samples : list Z) : Z := fold_left par_step samples 0 mod 2.

(** The parity bit the peer sent: the ninth sample. *)
Definition rx_sent_parity (v : Z) : Z := if tst v SDA_PIN then 1 else 0.

(** The machine after one wait for the clock, and after a wait and a
    sample. *)
Definition waited (m : machine) : machine :=
  set_P2IFG (λ r, bic r SCL_PIN)
    (set_bus (λ t, t ++ [Edge (tst (P2IES m) SCL_PIN) (sda_driven m)]) m).
Definition sampled (m : machine) : machine := set_P1IN (tail (P1IN m)) (waited m).

(** The samples that carry byte [b] with parity bit [p], all other pins of
    the port low: bit 0 first. *)
Definition frame (b : Z) (p : bool) : list Z :=
  map (λ i, if Z.testbit b (Z.of_nat i) then SDA_PIN else 0) (seq 0 8)
  ++ [if p then SDA_PIN else 0].

(** Even parity of a byte. *)
Definition even_parity (b : Z) : bool := Z.odd (SendByte_parity 8 b 0 0).

(** The samples of a whole message sent with correct parity. *)
Definition frames (msg : list Z) : list Z :=
  flat_map (λ b, frame b (even_parity b)) msg.

(** A machine as [vCOMM_Init] leaves it, with the peer about to send
    [samples]. *)
Definition listening (samples : list Z) : machine :=
  Machine COMM_RUNNING (replicate (Z.to_nat MAXMSGLEN) 0xFF) 0 0 0 0 0 samples [].

(** The machine after [k] samples of the data line. *)
Definition after_samples (k : nat) (m : machine) : machine :=
  Machine (g_ucCOMM_Flags m) (g_ucaRXBuffer m) (g_ucRXBufferIndex m)
          (P1OUT m) (P1DIR m) (P2IES m) (bic (P2IFG m) SCL_PIN)
          (drop k (P1IN m))
          (bus m ++ replicate k (Edge (tst (P2IES m) SCL_PIN) (sda_driven m))).

(** A machine ready to receive: not in the middle of a byte, and the
    array has its 64 bytes. *)
Definition ready (m : machine) : Prop :=
  tst (g_ucCOMM_Flags m) COMM_RX_BUSY = false ∧
  length (g_ucaRXBuffer m) = Z.to_nat MAXMSGLEN.

(** The bit sequence the transmission loop of [ucCOMM_SendByte] puts on
    the line for the 16-bit word [ui]: bit 0 first, [k] bits. *)
Fixpoint tx_bits (k : nat) (ui : Z) : list bool :=
  match k with
  | O => []
  | S k' => tst ui 0x01 :: tx_bits k' (Z.shiftr ui 1)
  end.

(** The output register after the bits [bs] have been driven. *)
Definition driven (bs : list bool) (o : Z) : Z :=
  fold_left (λ o (b : bool), if b then bis o SDA_PIN else bic o SDA_PIN) bs o.

(** The word [ucCOMM_SendByte] shifts out for a byte. *)
Definition tx_word (ucTXChar : Z) : Z :=
  u16 (Z.lor ucTXChar (Z.shiftl (SendByte_parity 8 ucTXChar 0 0) 8)).

(** The number of one bits among the low [k] bits. *)
Fixpoint ones (k : nat) (x : Z) : Z :=
  match k with
  | O => 0
  | S k' => (if Z.testbit x 0 then 1 else 0) + ones k' (Z.shiftr x 1)
  end.

(** The message used in the examples: a six-byte error report in a
    64-byte array. *)
Definition trial : list Z := [REPORT_ERROR; 6; 120; 0; 0xAA; 0xBB] ++ replicate 58 0.

End Wire.

(** ** Vocabulary for the report slots *)

Module Reports.
Import Main.

(** One group of a data report: generator id, length, data bytes. *)
Definition group (i : Z) (r : report) : list Z :=
  i :: m_ucLength r :: take (Z.to_nat (m_ucLength r)) (m_ucaData r).

(** The groups of the flagged slots among [rs], numbered from [i]. *)
Fixpoint payload_from (i : Z) (rs : list report) : list Z :=
  match rs with
  | [] => []
  | r :: rs =>
      (if tst (m_ucFlags r) F_NEWDATA then group i r else []) ++ payload_from (i + 1) rs
  end.

(** A slot as the struct declares it: [MAXDATALEN] data bytes, a length
    within them. *)
Definition well_formed (r : report) : Prop :=
  length (m_ucaData r) = Z.to_nat MAXDATALEN ∧ 0 <= m_ucLength r <= MAXDATALEN.

(** Nine slots, 2 and 5 flagged. *)
Definition two_flagged : app :=
  App [Report [0; 0; 0; 0] 0 0; Report [0; 0; 0; 0] 0 0;
       Report [0x11; 0x22; 0; 0] 2 F_NEWDATA;
       Report [0; 0; 0; 0] 0 0; Report [0; 0; 0; 0] 0 0;
       Report [0x33; 0; 0; 0] 1 F_NEWDATA;
       Report [0; 0; 0; 0] 0 0; Report [0; 0; 0; 0] 0 0; Report [0; 0; 0; 0] 0 0].

End Reports.

(** ** Vocabulary for the sensor line *)

Module SensorLine.
Import STM.

Definition total (l : list Z) : Z := foldr Z.add 0 l.

(** A receive buffer: the bytes before the carriage return, the carriage
    return, the type byte, the checksum byte, and what follows. *)
Definition line (body : list Z) (ty ck : Z) (rest : list Z) : list Z :=
  body ++ [0x0D; ty; ck] ++ rest.

Definition checksum (body : list Z) (ty : Z) : Z :=
  (total body + 0x0D + ty) mod 64 + 32.

Definition byte_list (l : list Z) : Prop := Forall (λ x, 0 <= x < 256) l.

(** The verdict of the checksum test on a buffer; 0 accepts. *)
Definition tested (buf : list Z) (idx t v : Z) : outcome Z :=
  value (cSTM_Test_Checksum (Stm buf idx t v)).

(** The characters of [1234 567] and of [1234 0 567]. *)
Definition two_fields : list Z := [0x31; 0x32; 0x33; 0x34; 0x20; 0x35; 0x36; 0x37].
Definition three_fields : list Z :=
  [0x31; 0x32; 0x33; 0x34; 0x20; 0x30; 0x20; 0x35; 0x36; 0x37].

End SensorLine.

(** ** Vocabulary for the CRC trailer *)

Module Trailer.
Import CRC.




End Trailer.

(** ** Vocabulary for the two ends of the link *)

Module Link.
Import Comm Wire.

(** What a node reads on the data line, all other pins of the port low,
    when the peer drives the bits [bits]. *)
Definition samples_of (bits : list bool) : list Z :=
  map (λ b : bool, if b then SDA_PIN else 0) bits.

(** The bits a node drove on the clock edges [t]. *)
Definition driven_bits (t : list edge) : list bool := omap sda t.

End Link.

(** ** The transducer handlers ([main.c]) *)

Module Board.
Import Main STM.

(** What [main.c] takes from the sensor driver: the measurement
    [cSTM_Measure] and [vSTM_Initialize] of [STM.c] work the timer and
    the sensor pins and are taken as they come; the two error codes are
    those of [FiveTM.h], 0x01 and 0x02 there, and the handlers are
    stated for whatever the header gives them. *)
Record driver : Type := Driver {
  cSTM_Measure : Z → M stm Z;
  vSTM_Initialize : M stm unit;
  STM_ERROR_CODE_1 : Z;
  STM_ERROR_CODE_2 : Z;
}.

(** [cSTM_Measure] ([STM.c]) from the end of the reception on.  What
    comes before, the timer, the pins and the sleep in which the
    interrupt routine fills the receive array, is [receive]: it returns
    what [timeoutcounter] holds then.  [indet] is what the uninitialised
    local of [cSTM_ReadValue] holds. *)
Definition cSTM_Measure_after (receive : Z → M stm Z) (indet : Z) (ucChannel : Z)
  : M stm Z :=
  timeoutcounter ← receive ucChannel;
  if timeoutcounter >=? 10 then mret 2 else
  r ← cSTM_Test_Checksum;
  if negb (r =? 0) then mret 1 else
  cSTM_ReadValue indet;;
  mret 0.

(** The globals the handlers work on: [S_Report], [cSTM_Initialized] and
    the globals of [STM.c]. *)
Record board : Type := Mk_board {
  reports : app;
  cSTM_Initialized : Z;
  sensor : stm;
}.

(** A call into [STM.c], and one on the report slots. *)
Definition on_sensor {A} (c : M stm A) : M board A := λ b,
  match c (sensor b) with
  | Returns (a, s) => Returns (a, Mk_board (reports b) (cSTM_Initialized b) s)
  | Blocked => Blocked
  | Undefined => Undefined
  end.
Definition on_reports {A} (c : M app A) : M board A := λ b,
  match c (reports b) with
  | Returns (a, r) => Returns (a, Mk_board r (cSTM_Initialized b) (sensor b))
  | Blocked => Blocked
  | Undefined => Undefined
  end.

(** Reads and writes of [S_Report[i]]. *)
Definition get_report (i : Z) : M app report :=
  t ← gets S_Report; slot t i.
Definition put_report (i : Z) (r : report) : M app unit :=
  t ← gets S_Report;
  if (0 <=? i) && (i <? Z.of_nat (length t))
  then modify (λ _, App (<[Z.to_nat i := r]> t))
  else undefined.

(** [S_Report[i].m_ucLength = v], [S_Report[i].m_ucFlags = v] and
    [S_Report[i].m_ucaData[k] = v]. *)
Definition set_Length (i v : Z) : M app unit :=
  r ← get_report i; put_report i (Report (m_ucaData r) v (m_ucFlags r)).
Definition set_ReportFlags (i v : Z) : M app unit :=
  r ← get_report i; put_report i (Report (m_ucaData r) (m_ucLength r) v).
Definition set_Data (i k v : Z) : M app unit :=
  r ← get_report i;
  d ← store (m_ucaData r) k v;
  put_report i (Report d (m_ucLength r) (m_ucFlags r)).

(** [S_Report[i].m_ucLength--] *)
Definition dec_Length (i : Z) : M app unit :=
  r ← get_report i; set_Length i (u8 (m_ucLength r - 1)).

(** The branch of a handler for [cResult == 0]: the soil value goes to
    slot [soil] without its leading zero bytes, the temperature to slot
    [temp]. *)
Definition STM_report_values (soil temp lSoil iTemperature : Z) : M app unit :=
  set_Length soil 4;;
  (if Z.land (u32 lSoil) 0xFF800000 =? 0 then
     dec_Length soil;;
     if Z.land lSoil 0x00FF8000 =? 0 then
       dec_Length soil;;
       if Z.land lSoil 0x0000FF80 =? 0 then dec_Length soil else mret tt
     else mret tt
   else mret tt);;
  r ← get_report soil;
  let lSoil := s32 (Z.shiftl lSoil (8 * (4 - m_ucLength r))) in
  set_Data soil 0 (u8 (Z.shiftr lSoil 24));;
  set_Data soil 1 (u8 (Z.shiftr lSoil 16));;
  set_Data soil 2 (u8 (Z.shiftr lSoil 8));;
  set_Data soil 3 (u8 lSoil);;
  set_Data temp 0 (u8 (Z.shiftr iTemperature 8));;
  set_Data temp 1 (u8 iTemperature);;
  set_Length temp 2.

(** The branches for [cResult == 1] and [cResult == 2]. *)
Definition STM_report_error (soil temp code : Z) : M app unit :=
  set_Data soil 0 (u8 code);;
  set_Length soil 1;;
  set_Data temp 0 (u8 code);;
  set_Length temp 1.

(** The four handlers [uiMain_STM1] to [uiMain_STM4] are the same text
    for the channels 1 to 4, with the slots [2 * channel - 1] for the
    soil value and [2 * channel] for the temperature. *)
Definition uiMain_STM (drv : driver) (channel : Z) (ucParam : list Z) : M board Z :=
  let soil := 2 * channel - 1 in
  let temp := 2 * channel in
  init ← gets cSTM_Initialized;
  (if init =? 0 then
     on_sensor (vSTM_Initialize drv);;
     modify (λ b, Mk_board (reports b) 1 (sensor b))
   else mret tt);;
  r ← on_sensor (cSTM_Measure drv channel);
  let cResult := u8 r in
  (if cResult =? 0 then
     v ← on_sensor lSTM_GetSoil;
     let lSoil := s32 v in
     t ← on_sensor iSTM_GetTemp;
     let iTemperature := s16 t in
     on_reports (STM_report_values soil temp lSoil iTemperature)
   else if cResult =? 1 then
     on_reports (STM_report_error soil temp (STM_ERROR_CODE_1 drv))
   else if cResult =? 2 then
     on_reports (STM_report_error soil temp (STM_ERROR_CODE_2 drv))
   else mret tt);;
  on_reports (set_ReportFlags soil F_NEWDATA;; set_ReportFlags temp F_NEWDATA);;
  mret 0.

Definition uiMain_STM1 (drv : driver) := uiMain_STM drv 1.
Definition uiMain_STM2 (drv : driver) := uiMain_STM drv 2.
Definition uiMain_STM3 (drv : driver) := uiMain_STM drv 3.
Definition uiMain_STM4 (drv : driver) := uiMain_STM drv 4.

(** [uiMainDispatch]: the result goes through the [uint8] local
    [ucRetVal]. *)
Definition uiMainDispatch (drv : driver) (ucCmdTransNum ucCmdParamLen : Z)
    (ucParam : list Z) : M board Z :=
  if ucCmdTransNum =? 0 then r ← on_reports uiMain_Test; mret (u8 r)
  else if ucCmdTransNum =? 1 then r ← uiMain_STM1 drv ucParam; mret (u8 r)
  else if ucCmdTransNum =? 2 then r ← uiMain_STM2 drv ucParam; mret (u8 r)
  else if ucCmdTransNum =? 3 then r ← uiMain_STM3 drv ucParam; mret (u8 r)
  else if ucCmdTransNum =? 4 then r ← uiMain_STM4 drv ucParam; mret (u8 r)
  else mret 1.

(** A driver for examples: the measurement leaves the values [soil] and
    [temp] and returns [result]; the error codes are those of
    [FiveTM.h]. *)
Definition stub (result soil temp : Z) : driver := {|
  cSTM_Measure := λ _, modify (set_Soil soil);; modify (set_Temperature temp);; mret result;
  vSTM_Initialize := mret tt;
  STM_ERROR_CODE_1 := 0x01;
  STM_ERROR_CODE_2 := 0x02;
|}.

(** A reception for examples: the bytes of [line] are stored from the
    start of the receive array, the index is left behind the last of
    them and [tc] is what [timeoutcounter] holds.  The wait loop of
    [cSTM_Measure] is left before its tenth pass only when the byte
    before the index is 0x0A. *)
Definition heard (tc : Z) (line : list Z) (ucChannel : Z) : M stm Z :=
  modify (λ s, Stm (line ++ drop (length line) (g_ucaSTM_RXBuffer s))
                   (Z.of_nat (length line)) (nSTM_Temperature s) (lSTM_Soil s));;
  mret tc.

(** Bytes read back as a number, most significant byte first: unsigned,
    and in two's complement. *)
Definition be_unsigned (l : list Z) : Z := fold_left (λ acc b, acc * 256 + b) l 0.
Definition be_signed (l : list Z) : Z :=
  let u := be_unsigned l in
  let w := 8 * Z.of_nat (length l) in
  if 2 ^ (w - 1) <=? u then u - 2 ^ w else u.

(** The length and the bytes a handler stores for a soil value, and the
    bytes for a temperature. *)
Definition soil_length (lSoil : Z) : Z :=
  if Z.land (u32 lSoil) 0xFF800000 =? 0 then
    if Z.land lSoil 0x00FF8000 =? 0 then
      if Z.land lSoil 0x0000FF80 =? 0 then 1 else 2
    else 3
  else 4.
Definition soil_bytes (lSoil : Z) : list Z :=
  let w := s32 (Z.shiftl lSoil (8 * (4 - soil_length lSoil))) in
  [u8 (Z.shiftr w 24); u8 (Z.shiftr w 16); u8 (Z.shiftr w 8); u8 w].
Definition temp_bytes (iTemperature : Z) : list Z :=
  [u8 (Z.shiftr iTemperature 8); u8 iTemperature].

(** What a handler leaves in its soil slot and in its temperature slot
    after a measurement that returned [cResult] and left the sensor
    globals [s]. *)
Definition error_slot (code : Z) (r : report) : report :=
  Report (<[0%nat := u8 code]> (m_ucaData r)) 1 F_NEWDATA.
Definition soil_slot (drv : driver) (cResult : Z) (s : stm) (r : report) : report :=
  if cResult =? 0 then
    Report (soil_bytes (s32 (lSTM_Soil s))) (soil_length (s32 (lSTM_Soil s))) F_NEWDATA
  else if cResult =? 1 then error_slot (STM_ERROR_CODE_1 drv) r
  else if cResult =? 2 then error_slot (STM_ERROR_CODE_2 drv) r
  else Report (m_ucaData r) (m_ucLength r) F_NEWDATA.
Definition temp_slot (drv : driver) (cResult : Z) (s : stm) (r : report) : report :=
  if cResult =? 0 then
    Report (temp_bytes (s16 (nSTM_Temperature s)) ++ drop 2 (m_ucaData r)) 2 F_NEWDATA
  else if cResult =? 1 then error_slot (STM_ERROR_CODE_1 drv) r
  else if cResult =? 2 then error_slot (STM_ERROR_CODE_2 drv) r
  else Report (m_ucaData r) (m_ucLength r) F_NEWDATA.

(** The sensor globals a handler measures on: [vSTM_Initialize] runs
    first while [cSTM_Initialized] is 0. *)
Definition initialized (drv : driver) (b : board) : outcome (unit * stm) :=
  if cSTM_Initialized b =? 0 then vSTM_Initialize drv (sensor b)
  else Returns (tt, sensor b).

(** The array as [main.c] declares it: [S_Report[NUMDATGEN]], each slot
    with [m_ucaData[MAXDATALEN]]. *)
Definition declared (t : list report) : Prop :=
  length t = Z.to_nat NUMDATGEN ∧
  Forall (λ r, length (m_ucaData r) = Z.to_nat MAXDATALEN) t.

(** The slots as [vMain_CleanDataStruct] leaves them. *)
Definition clean : app :=
  App (replicate (Z.to_nat NUMDATGEN) (Report (replicate (Z.to_nat MAXDATALEN) 0) 0 0)).

End Board.

(** ** Vocabulary for the sensor readings *)

Module Reading.
Import STM.

(** The number a string of characters stands for when each character is
    taken as the digit [c - 48], the first one the most significant. *)
Definition dec (l : list Z) : Z := fold_left (λ acc c, acc * 10 + (c - 48)) l 0.

(** The characters [0] to [9]. *)
Definition digits (l : list Z) : Prop := Forall (λ c, 48 <= c <= 57) l.

(** A receive buffer with a first field [sd], two characters [x] and [y],
    a space, a last field [td], the carriage return and the type byte. *)
Definition reading (sd : list Z) (x y : Z) (td : list Z) (ty : Z) (rest : list Z)
  : list Z :=
  sd ++ [x; y; 0x20] ++ td ++ [0x0D; ty] ++ rest.

(** The characters [0] to [9] and the decimal point, and the number of
    such a field with the point left out. *)
Definition pointed (l : list Z) : Prop := Forall (λ c, 48 <= c <= 57 ∨ c = 0x2E) l.
Definition number (l : list Z) : Z := dec (filter (λ c, c ≠ 0x2E) l).

(** A receive buffer of the MPS6: anything, a minus sign, a field [sd],
    one character [x], a space, a last field [td], the carriage return
    and the type byte. *)
Definition reading_MPS6 (pre sd : list Z) (x : Z) (td rest : list Z) : list Z :=
  pre ++ [0x2D] ++ sd ++ [x; 0x20] ++ td ++ [0x0D; MPS6] ++ rest.

End Reading.

(** ** Vocabulary for command packets *)

Module Commands.
Import Core.

(** The payload of a command packet: for every command the transducer
    number, the number of parameters and the parameters. *)
Definition encode (cmds : list (Z * list Z)) : list Z :=
  flat_map (λ c, fst c :: Z.of_nat (length (snd c)) :: snd c) cmds.

(** The commands dispatched one after the other: the parameters of a
    command lie at the start of [ucParam], over what was there, and the
    results are or-ed into the 16-bit [unTransducerReturn]. *)
Fixpoint dispatch_all {St : Type} `{!Collaborators St} (cmds : list (Z * list Z))
    (par : list Z) (ret : Z) : M St (list Z * Z) :=
  match cmds with
  | [] => mret (par, ret)
  | c :: cmds' =>
      let par := snd c ++ drop (length (snd c)) par in
      r ← uiMainDispatch (fst c) (Z.of_nat (length (snd c))) par;
      dispatch_all cmds' par (u16 (Z.lor ret r))
  end.

End Commands.

(** ** The core linked with the application layer *)

Module System.
Import Main STM Board Core.

(** What lies outside the report slots and the sensor globals: the
    message sender of [comm.c], the label table, the sensor type
    routines of [STM.c] and the flash routines, on a state [W] of their
    own. *)
Record periphery (W : Type) : Type := Periphery {
  send : list Z → Z → M W (list Z);
  fetch_label : Z → list Z → M W (list Z);
  return_type : Z → M W Z;
  request_type : Z → M W unit;
  get_pw : list Z → M W (list Z);
  set_hid : list Z → M W Z;
  get_hid : list Z → M W (list Z);
}.
Arguments send {W}.
Arguments fetch_label {W}.
Arguments return_type {W}.
Arguments request_type {W}.
Arguments get_pw {W}.
Arguments set_hid {W}.
Arguments get_hid {W}.

(** A call on the board, and one on the periphery. *)
Definition on_board {W A} (c : M board A) : M (board * W) A := λ s,
  match c (fst s) with
  | Returns (a, b) => Returns (a, (b, snd s))
  | Blocked => Blocked
  | Undefined => Undefined
  end.
Definition on_world {W A} (c : M W A) : M (board * W) A := λ s,
  match c (snd s) with
  | Returns (a, w) => Returns (a, (fst s, w))
  | Blocked => Blocked
  | Undefined => Undefined
  end.

(** The functions of [main.c] behind the calls of [vCORE_Run]. *)
Definition linked {W} (drv : driver) (p : periphery W) : Collaborators (board * W) := {|
  vCOMM_SendMessage := λ b n, on_world (send p b n);
  ucMain_FetchData := λ b, on_board (on_reports (Main.ucMain_FetchData b));
  vMain_FetchLabel := λ t b, on_world (fetch_label p t b);
  uiMainDispatch := λ n len par, on_board (Board.uiMainDispatch drv n len par);
  ucMAIN_ReturnSensorType := λ c, on_world (return_type p c);
  vMAIN_RequestSensorType := λ c, on_world (request_type p c);
  ucMain_getNumTransducers := mret Main.ucMain_getNumTransducers;
  ucMain_getSampleDuration := λ t, mret (Main.ucMain_getSampleDuration t);
  ucMain_getTransducerType := λ t, mret (Main.ucMain_getTransducerType t);
  ucMain_ShutdownAllowed := mret Main.ucMain_ShutdownAllowed;
  vFlash_GetBSLPW := λ b, on_world (get_pw p b);
  ucFlash_SetHID := λ h, on_world (set_hid p h);
  vFlash_GetHID := λ h, on_world (get_hid p h);
|}.

(** A periphery for examples: the sender records what it is handed. *)
Definition recorder : periphery (list (list Z * Z)) := {|
  send := λ b n, modify (λ w, w ++ [(b, n)]);; mret b;
  fetch_label := λ _ b, mret b;
  return_type := λ _, mret 0x52;
  request_type := λ _, mret tt;
  get_pw := λ b, mret b;
  set_hid := λ _, mret 0;
  get_hid := λ h, mret h;
|}.

End System.

(** * Facts *)

(** ** Running a call one step at a time *)

Lemma run_ret {St A B} (a : A) (k : A → M St B) s : (mret a ≫= k) s = k a s.
Proof. reflexivity. Qed.
Lemma run_gets {St A B} (f : St → A) (k : A → M St B) s : (gets f ≫= k) s = k (f s) s.
Proof. reflexivity. Qed.
Lemma run_modify {St B} (f : St → St) (k : unit → M St B) s :
  (modify f ≫= k) s = k tt (f s).
Proof. reflexivity. Qed.
Lemma run_Returns {St A B} (c : M St A) (k : A → M St B) s a s' :
  c s = Returns (a, s') → (c ≫= k) s = k a s'.
Proof. intros H. unfold mbind, M_bind. by rewrite H. Qed.
Lemma run_Undefined {St A B} (c : M St A) (k : A → M St B) s :
  c s = Undefined → (c ≫= k) s = Undefined.
Proof. intros H. unfold mbind, M_bind. by rewrite H. Qed.
Lemma run_load {St B} (a : list Z) i v (k : Z → M St B) s :
  rd a i = Some v → (load a i ≫= k) s = k v s.
Proof. intros H. unfold mbind, M_bind, load. by rewrite H. Qed.
Lemma run_store {St B} (a : list Z) i v a' (k : list Z → M St B) s :
  wr a i v = Some a' → (store a i v ≫= k) s = k a' s.
Proof. intros H. unfold mbind, M_bind, store. by rewrite H. Qed.
Lemma run_store_None {St B} (a : list Z) i v (k : list Z → M St B) s :
  wr a i v = None → (store a i v ≫= k) s = Undefined.
Proof. intros H. unfold mbind, M_bind, store. by rewrite H. Qed.

Lemma u8_add_l x y : u8 (u8 x + y) = u8 (x + y).
Proof. unfold u8. by rewrite Zplus_mod_idemp_l. Qed.

Lemma u8_small x : 0 <= x < 256 → u8 x = x.
Proof. intros Hx. unfold u8. by apply Z.mod_small. Qed.

Lemma rd_lookup (a : list Z) (k : nat) : rd a (Z.of_nat k) = a !! k.
Proof. unfold rd. by rewrite (proj2 (Z.leb_le 0 _)), Nat2Z.id by lia. Qed.

Lemma wr_insert (a : list Z) (k : nat) v :
  (k < length a)%nat → wr a (Z.of_nat k) v = Some (<[k:=v]> a).
Proof.
  intros Hk. unfold wr.
  by rewrite (proj2 (Z.leb_le 0 _)), (proj2 (Z.ltb_lt _ _)), Nat2Z.id by lia.
Qed.
Module CommFacts.
Import Comm Wire.

Ltac run :=
  unfold mbind, M_bind, mret, M_ret, gets, modify, undefined, blocked,
    wait_SCL, read_P1IN, load, store, call_CRC in *.

Lemma snoc_app {A} (l m : list A) a : (l ++ [a]) ++ m = l ++ a :: m.
Proof. by rewrite <- app_assoc. Qed.

Lemma tail_drop {A} (l : list A) : ∀ k, tail (drop k l) = drop (S k) l.
Proof. induction l as [|x l IH]; intros [|k]; simpl; try done. Qed.

Lemma bic_idem x m : bic (bic x m) m = bic x m.
Proof. unfold bic. by rewrite <- Z.land_assoc, Z.land_diag. Qed.

Lemma tst_bic x m : tst (bic x m) m = false.
Proof.
  unfold tst, bic. replace (Z.land (Z.land x (Z.lnot m)) m) with 0; [done|].
  symmetry. apply Z.bits_inj'. intros i Hi.
  rewrite !Z.land_spec, Z.lnot_spec, Z.bits_0 by done.
  destruct (Z.testbit x i), (Z.testbit m i); done.
Qed.

Lemma land_bis x m : Z.land (bis x m) m = m.
Proof.
  unfold bis. apply Z.bits_inj'. intros i Hi.
  rewrite Z.land_spec, Z.lor_spec.
  destruct (Z.testbit x i), (Z.testbit m i); done.
Qed.

Lemma tst_bis x m : m ≠ 0 → tst (bis x m) m = true.
Proof.
  intros Hm. unfold tst. rewrite land_bis.
  destruct (m =? 0) eqn:E; [apply Z.eqb_eq in E; done | done].
Qed.

Lemma tst_bis_SCL x : tst (bis x SCL_PIN) SCL_PIN = true.
Proof. by apply tst_bis. Qed.
Lemma tst_bis_SDA x : tst (bis x SDA_PIN) SDA_PIN = true.
Proof. by apply tst_bis. Qed.

(** Setting or clearing other bits does not change a test. *)
Lemma tst_bic_other x m k : Z.land m k = 0 → tst (bic x m) k = tst x k.
Proof.
  intros H. unfold tst, bic. f_equal. f_equal.
  apply Z.bits_inj'. intros i Hi.
  rewrite !Z.land_spec, Z.lnot_spec by done.
  assert (Hb := f_equal (λ z, Z.testbit z i) H). simpl in Hb.
  rewrite Z.land_spec, Z.bits_0 in Hb.
  destruct (Z.testbit x i), (Z.testbit m i), (Z.testbit k i); done.
Qed.

Lemma tst_bis_other x m k : Z.land m k = 0 → tst (bis x m) k = tst x k.
Proof.
  intros H. unfold tst, bis. f_equal. f_equal.
  apply Z.bits_inj'. intros i Hi.
  rewrite !Z.land_spec, Z.lor_spec by done.
  assert (Hb := f_equal (λ z, Z.testbit z i) H). simpl in Hb.
  rewrite Z.land_spec, Z.bits_0 in Hb.
  destruct (Z.testbit x i), (Z.testbit m i), (Z.testbit k i); done.
Qed.

(** The byte does not depend on what the local held on entry. *)
Lemma rx_step_agree j rx rx' v :
  (∀ i, j <= i → Z.testbit rx i = Z.testbit rx' i) →
  ∀ i, 0 <= i → j - 1 <= i → Z.testbit (rx_step rx v) i = Z.testbit (rx_step rx' v) i.
Proof.
  intros H i Hi Hj. unfold rx_step, bic.
  destruct (tst v SDA_PIN).
  - rewrite !Z.lor_spec, !Z.shiftr_spec by done. f_equal. apply H. lia.
  - rewrite !Z.land_spec, !Z.shiftr_spec by done. f_equal. apply H. lia.
Qed.

Lemma rx_fold_agree samples : ∀ j rx rx',
  (∀ i, j <= i → Z.testbit rx i = Z.testbit rx' i) →
  ∀ i, 0 <= i → j - Z.of_nat (length samples) <= i →
    Z.testbit (fold_left rx_step samples rx) i
    = Z.testbit (fold_left rx_step samples rx') i.
Proof.
  induction samples as [|v l IH]; intros j rx rx' H i Hi Hj; simpl in *.
  - apply H. lia.
  - destruct (decide (0 <= j - 1)) as [Hj1|Hj1].
    + apply (IH (j - 1)); [|done|lia].
      intros i' Hi'. apply (rx_step_agree j); [done|lia|lia].
    + apply (IH 0); [|done|lia].
      intros i' Hi'. apply (rx_step_agree j); [done|lia|lia].
Qed.

Lemma rx_byte_indet indet samples :
  length samples = 8%nat →
  fold_left rx_step samples (u8 indet) = rx_byte samples.
Proof.
  intros Hlen. unfold rx_byte. apply Z.bits_inj'. intros i Hi.
  apply (rx_fold_agree samples 8); [|done|lia].
  intros k Hk. rewrite Z.bits_0.
  unfold u8. change 256 with (2 ^ 8).
  apply Z.mod_pow2_bits_high. lia.
Qed.

(** Running a call one step at a time. *)
Lemma run_wait {B} (k : unit → M machine B) m : (wait_SCL ≫= k) m = k tt (waited m).
Proof. reflexivity. Qed.
Lemma run_read {B} (k : Z → M machine B) m v rest :
  P1IN m = v :: rest → (read_P1IN ≫= k) m = k v (set_P1IN rest m).
Proof. intros H. unfold mbind, M_bind, read_P1IN. by rewrite H. Qed.

(** State bookkeeping: setters and projections on an explicit record. *)
Ltac norm :=
  cbv beta iota zeta delta [g_ucCOMM_Flags g_ucaRXBuffer g_ucRXBufferIndex P1OUT P1DIR P2IES P2IFG P1IN bus
       set_Flags set_RXBuffer set_RXBufferIndex set_P1OUT set_P1DIR set_P2IES
       set_P2IFG set_P1IN set_bus waited sampled sda_driven tail].

Ltac step :=
  first [ rewrite run_gets | rewrite run_modify | rewrite run_wait | rewrite run_ret ];
  cbv beta iota zeta; norm.

Lemma after_samples_S k m :
  after_samples (S k) m = after_samples k (sampled m).
Proof.
  destruct m as [fl buf idx o d ies ifg inp tr]. unfold after_samples. norm.
  rewrite bic_idem. f_equal.
  - destruct inp; simpl; [by destruct k | done].
  - by rewrite snoc_app.
Qed.

Lemma ReceiveByte_loop_spec n : ∀ rx par m,
  (n < length (P1IN m))%nat →
  ReceiveByte_loop n rx par m =
    Returns ((fold_left rx_step (take (S n) (P1IN m)) rx,
              fold_left par_step (take (S n) (P1IN m)) par),
             after_samples (S n) m).
Proof.
  induction n as [|n IH]; intros rx par m Hlen;
    destruct m as [fl buf idx o d ies ifg inp tr];
    destruct inp as [|v inp]; try (simpl in Hlen; lia).
  - cbn [ReceiveByte_loop]. rewrite run_wait.
    erewrite run_read by reflexivity. cbv beta zeta.
    unfold after_samples. norm.
    cbn [take fold_left drop replicate]. unfold rx_step, par_step.
    destruct (tst v SDA_PIN); reflexivity.
  - cbn [ReceiveByte_loop]. rewrite run_wait.
    erewrite run_read by reflexivity. cbv beta zeta.
    rewrite after_samples_S. norm.
    cbn [take fold_left]. fold (take (S n) inp).
    specialize (IH (rx_step rx v) (par_step par v)
      (Machine fl buf idx o d ies (bic ifg SCL_PIN) inp
         (tr ++ [Edge (tst ies SCL_PIN) (if tst d SDA_PIN then Some (tst o SDA_PIN) else None)]))).
    cbn [P1IN] in IH. simpl in Hlen. specialize (IH ltac:(lia)).
    unfold rx_step, par_step in *.
    destruct (tst v SDA_PIN); exact IH.
Qed.

Lemma ReceiveByte_spec indet m f rest :
  tst (g_ucCOMM_Flags m) COMM_RX_BUSY = false →
  P1IN m = f ++ rest → length f = 9%nat →
  let byte := rx_byte (take 8 f) in
  let bad := negb (rx_parity (take 8 f) =? rx_sent_parity (nth 8 f 0)) in
  let fl := bic (bis (g_ucCOMM_Flags m) COMM_RX_BUSY) COMM_RX_BUSY in
  match wr (g_ucaRXBuffer m) (g_ucRXBufferIndex m) byte with
  | None => ucCOMM_ReceiveByte indet m = Undefined
  | Some buf' =>
      ∃ m', ucCOMM_ReceiveByte indet m = Returns (COMM_OK, m') ∧
        g_ucaRXBuffer m' = buf' ∧
        g_ucRXBufferIndex m' = u8 (g_ucRXBufferIndex m + 1) ∧
        g_ucCOMM_Flags m' = (if bad then bis fl COMM_PARITY_ERR else fl) ∧
        P1IN m' = rest ∧
        bus m' = bus m ++ replicate 9 (Edge false None)
                   ++ [Edge true None; Edge true (Some bad)]
  end.
Proof.
  intros Hbusy Hin Hlen.
  destruct m as [fl buf idx o d ies ifg inp tr]. norm. cbn [P1IN] in Hin. subst inp.
  cbn [g_ucCOMM_Flags] in Hbusy.
  do 9 (destruct f as [|? f]; [simpl in Hlen; lia|]).
  destruct f; [|simpl in Hlen; lia]. clear Hlen.
  cbn [take nth].
  remember (rx_byte _) as byte eqn:Hbyte.
  remember (rx_parity _ =? rx_sent_parity _) as ok eqn:Hok.
  cbv zeta.
  unfold ucCOMM_ReceiveByte.
  step. rewrite Hbusy. cbv beta iota.
  do 4 step.
  erewrite run_Returns by (apply ReceiveByte_loop_spec; simpl; lia).
  unfold after_samples. norm. cbn [app take drop replicate].
  rewrite (rx_byte_indet indet) by done. rewrite <- Hbyte.
  unfold rx_parity, rx_sent_parity in Hok.
  cbv beta iota zeta.
  step. erewrite run_read by reflexivity. cbv beta zeta. norm.
  rewrite <- Hok. clear Hok Hbyte.
  do 2 step.
  rewrite ?bic_idem, ?tst_bic, ?tst_bis_SCL.
  destruct ok; cbv beta iota zeta; do 5 step; unfold negb; cbv iota; do 3 step;
    rewrite ?tst_bis_SDA, ?tst_bis_SCL, ?tst_bic;
    (destruct (wr buf idx byte) as [buf'|] eqn:Ewr;
     [ erewrite run_store by exact Ewr; do 2 step;
       eexists; split; [reflexivity|]; norm; repeat split;
       rewrite <- !app_assoc; reflexivity
     | by erewrite run_store_None by exact Ewr ]).
Qed.

Lemma rx_step_range rx v :
  0 <= rx < 256 → 0 <= rx_step rx v < 256.
Proof.
  intros [H0 H1].
  assert (Hhi : ∀ l, 8 <= l → Z.testbit rx l = false)
    by (apply (Z.bounded_iff_bits_nonneg 8 rx); lia).
  assert (Hs : 0 <= Z.shiftr rx 1) by (by apply Z.shiftr_nonneg).
  change 256 with (2 ^ 8).
  unfold rx_step, bic. destruct (tst v SDA_PIN).
  - apply Z.bounded_iff_bits_nonneg'; [lia|apply Z.lor_nonneg; lia|].
    intros l Hl. rewrite Z.lor_spec, Z.shiftr_spec, Hhi by lia. simpl.
    apply (Z.bounded_iff_bits_nonneg 8 128); lia.
  - apply Z.bounded_iff_bits_nonneg'; [lia|apply Z.land_nonneg; lia|].
    intros l Hl. by rewrite Z.land_spec, Z.shiftr_spec, Hhi by lia.
Qed.

Lemma rx_fold_range samples : ∀ rx,
  0 <= rx < 256 → 0 <= fold_left rx_step samples rx < 256.
Proof.
  induction samples as [|v l IH]; intros rx H; simpl; [done|].
  apply IH. by apply rx_step_range.
Qed.

Lemma rx_byte_range samples : 0 <= rx_byte samples < 256.
Proof. apply rx_fold_range. lia. Qed.

(** One byte received in range. *)
Lemma ReceiveByte_ok indet m :
  ready m → (9 <= length (P1IN m))%nat →
  0 <= g_ucRXBufferIndex m < MAXMSGLEN →
  ∃ m', ucCOMM_ReceiveByte indet m = Returns (COMM_OK, m') ∧ ready m' ∧
    g_ucaRXBuffer m' = <[Z.to_nat (g_ucRXBufferIndex m) := rx_byte (take 8 (P1IN m))]>
                         (g_ucaRXBuffer m) ∧
    g_ucRXBufferIndex m' = g_ucRXBufferIndex m + 1 ∧
    P1IN m' = drop 9 (P1IN m).
Proof.
  intros [Hbusy Hlen] Hin Hidx.
  pose proof (ReceiveByte_spec indet m (take 9 (P1IN m)) (drop 9 (P1IN m)) Hbusy
                ltac:(by rewrite take_drop) ltac:(rewrite length_take; lia)) as H.
  cbv zeta in H. rewrite take_take in H. change (8 `min` 9)%nat with 8%nat in H.
  unfold wr in H. rewrite Hlen in H.
  replace (0 <=? g_ucRXBufferIndex m) with true in H by (symmetry; apply Z.leb_le; lia).
  replace (g_ucRXBufferIndex m <? Z.of_nat (Z.to_nat MAXMSGLEN)) with true in H
    by (symmetry; apply Z.ltb_lt; unfold MAXMSGLEN in *; lia).
  cbn [andb] in H. destruct H as (m' & Hrun & Hbuf & Hi & Hfl & Hrest & _).
  exists m'. split; [done|]. repeat split; try done.
  - rewrite Hfl. destruct (negb _).
    + rewrite tst_bis_other by done. apply tst_bic.
    + apply tst_bic.
  - rewrite Hbuf, length_insert. done.
  - rewrite Hi. unfold u8, MAXMSGLEN in *. rewrite Z.mod_small; lia.
Qed.

(** One pass of the receive loop, the byte received. *)
Lemma WaitForMessage_loop_pass indet n size m m' :
  ucCOMM_ReceiveByte indet m = Returns (COMM_OK, m') →
  WaitForMessage_loop indet (S n) size m =
    if g_ucRXBufferIndex m' =? SP_HEADERSIZE then
      match rd (g_ucaRXBuffer m') MSG_LEN_IDX with
      | None => Undefined
      | Some len =>
          let size := u8 (len + CRC_SZ) in
          if (size >? MAXMSGLEN) || (size <? SP_HEADERSIZE)
          then Returns (Some COMM_ERROR, m')
          else if negb (g_ucRXBufferIndex m' =? size)
               then WaitForMessage_loop indet n size m'
               else Returns (None, m')
      end
    else if negb (g_ucRXBufferIndex m' =? size)
         then WaitForMessage_loop indet n size m'
         else Returns (None, m').
Proof.
  intros H. cbn [WaitForMessage_loop]. cbv zeta.
  erewrite run_Returns by exact H. cbv beta.
  change (COMM_OK =? 0) with true. cbv iota beta delta [negb].
  rewrite run_gets.
  destruct (g_ucRXBufferIndex m' =? SP_HEADERSIZE).
  - rewrite run_gets.
    destruct (rd (g_ucaRXBuffer m') MSG_LEN_IDX) as [len|] eqn:E.
    + erewrite run_load by exact E. cbv zeta.
      destruct (_ || _); [reflexivity|].
      rewrite run_gets. by destruct (g_ucRXBufferIndex m' =? _).
    + unfold mbind, M_bind, load. by rewrite E.
  - rewrite run_gets. by destruct (g_ucRXBufferIndex m' =? _).
Qed.

(** The passes after the header: from index [i] to [size], none of them
    at the header boundary. *)
Lemma WaitForMessage_loop_rest indet k : ∀ n m size,
  ready m → SP_HEADERSIZE <= g_ucRXBufferIndex m →
  g_ucRXBufferIndex m + Z.of_nat (S k) = size → size <= MAXMSGLEN →
  (9 * S k <= length (P1IN m))%nat → (k < n)%nat →
  ∃ m', WaitForMessage_loop indet n size m = Returns (None, m') ∧ ready m' ∧
    g_ucRXBufferIndex m' = size ∧ P1IN m' = drop (9 * S k) (P1IN m) ∧
    take (Z.to_nat (g_ucRXBufferIndex m)) (g_ucaRXBuffer m')
    = take (Z.to_nat (g_ucRXBufferIndex m)) (g_ucaRXBuffer m).
Proof.
  induction k as [|k IH]; intros n m size Hr Hi Hsz Hmax Hin Hn;
    (destruct n as [|n]; [lia|]);
    destruct (ReceiveByte_ok indet m Hr ltac:(lia) ltac:(unfold SP_HEADERSIZE in *; lia))
      as (m1 & Hrun & Hr1 & Hb1 & Hi1 & Hin1);
    rewrite (WaitForMessage_loop_pass _ _ _ _ _ Hrun), Hi1;
    (replace (g_ucRXBufferIndex m + 1 =? SP_HEADERSIZE) with false
       by (symmetry; apply Z.eqb_neq; lia)).
  - replace (g_ucRXBufferIndex m + 1 =? size) with true
      by (symmetry; apply Z.eqb_eq; lia).
    exists m1. repeat split; try apply Hr1; try done; try lia.
    rewrite Hb1. apply take_insert_ge. lia.
  - replace (g_ucRXBufferIndex m + 1 =? size) with false
      by (symmetry; apply Z.eqb_neq; lia).
    cbn [negb].
    destruct (IH n m1 size Hr1 ltac:(lia) ltac:(lia) Hmax
                ltac:(rewrite Hin1, length_drop; lia) ltac:(lia))
      as (m' & Hrun' & Hr' & Hi' & Hin' & Hb').
    exists m'. repeat split; try apply Hr'; try done.
    + rewrite Hin', Hin1, drop_drop. f_equal. lia.
    + rewrite Hi1 in Hb'.
      apply (f_equal (take (Z.to_nat (g_ucRXBufferIndex m)))) in Hb'.
      rewrite !take_take in Hb'.
      rewrite Nat.min_l in Hb' by lia. rewrite Hb', Hb1.
      apply take_insert_ge. lia.
Qed.

(** The four passes of the header: the length byte is the second byte
    received. *)
Lemma WaitForMessage_loop_header indet n m :
  ready m → g_ucRXBufferIndex m = 0 → (36 <= length (P1IN m))%nat →
  ∃ m4, ready m4 ∧ g_ucRXBufferIndex m4 = SP_HEADERSIZE ∧
    P1IN m4 = drop 36 (P1IN m) ∧
    WaitForMessage_loop indet (S (S (S (S n)))) SP_HEADERSIZE m =
      let size := u8 (rx_byte (take 8 (drop 9 (P1IN m))) + CRC_SZ) in
      if (size >? MAXMSGLEN) || (size <? SP_HEADERSIZE)
      then Returns (Some COMM_ERROR, m4)
      else if negb (SP_HEADERSIZE =? size)
           then WaitForMessage_loop indet n size m4
           else Returns (None, m4).
Proof.
  intros Hr Hi Hin.
  destruct (ReceiveByte_ok indet m Hr ltac:(lia) ltac:(rewrite Hi; done))
    as (m1 & Hrun1 & Hr1 & Hb1 & Hi1 & Hin1).
  destruct (ReceiveByte_ok indet m1 Hr1 ltac:(rewrite Hin1, length_drop; lia)
              ltac:(rewrite Hi1, Hi; done))
    as (m2 & Hrun2 & Hr2 & Hb2 & Hi2 & Hin2).
  destruct (ReceiveByte_ok indet m2 Hr2 ltac:(rewrite Hin2, Hin1, !length_drop; lia)
              ltac:(rewrite Hi2, Hi1, Hi; done))
    as (m3 & Hrun3 & Hr3 & Hb3 & Hi3 & Hin3).
  destruct (ReceiveByte_ok indet m3 Hr3
              ltac:(rewrite Hin3, Hin2, Hin1, !length_drop; lia)
              ltac:(rewrite Hi3, Hi2, Hi1, Hi; done))
    as (m4 & Hrun4 & Hr4 & Hb4 & Hi4 & Hin4).
  rewrite Hi in *. rewrite Hi1 in *. rewrite Hi2 in *. rewrite Hi3 in *.
  exists m4. split; [done|]. split; [by rewrite Hi4|].
  split; [by rewrite Hin4, Hin3, Hin2, Hin1, !drop_drop|].
  rewrite (WaitForMessage_loop_pass _ _ _ _ _ Hrun1), Hi1.
  change (0 + 1 =? SP_HEADERSIZE) with false. cbv iota.
  change (negb (0 + 1 =? SP_HEADERSIZE)) with true. cbv iota.
  rewrite (WaitForMessage_loop_pass _ _ _ _ _ Hrun2), Hi2.
  change (0 + 1 + 1 =? SP_HEADERSIZE) with false. cbv iota.
  change (negb (0 + 1 + 1 =? SP_HEADERSIZE)) with true. cbv iota.
  rewrite (WaitForMessage_loop_pass _ _ _ _ _ Hrun3), Hi3.
  change (0 + 1 + 1 + 1 =? SP_HEADERSIZE) with false. cbv iota.
  change (negb (0 + 1 + 1 + 1 =? SP_HEADERSIZE)) with true. cbv iota.
  rewrite (WaitForMessage_loop_pass _ _ _ _ _ Hrun4), Hi4.
  change (0 + 1 + 1 + 1 + 1 =? SP_HEADERSIZE) with true. cbv iota.
  assert (Hrd : rd (g_ucaRXBuffer m4) MSG_LEN_IDX
                = Some (rx_byte (take 8 (drop 9 (P1IN m))))).
  { unfold rd, MSG_LEN_IDX. change (0 <=? 1) with true. cbv iota.
    rewrite Hb4, Hb3, Hb2, Hin1.
    change (Z.to_nat (0 + 1 + 1 + 1)) with 3%nat.
    change (Z.to_nat (0 + 1 + 1)) with 2%nat.
    change (Z.to_nat (0 + 1)) with 1%nat. change (Z.to_nat 1) with 1%nat.
    rewrite list_lookup_insert_ne, list_lookup_insert_ne by done.
    apply list_lookup_insert_eq.
    destruct Hr1 as [_ ->]. unfold MAXMSGLEN. simpl. lia. }
  rewrite Hrd. reflexivity.
Qed.

(** The declared length decides the outcome of the receive loop. *)
Lemma WaitForMessage_outcome indet m :
  ready m → g_ucRXBufferIndex m = 0 → (36 <= length (P1IN m))%nat →
  let L := rx_byte (take 8 (drop 9 (P1IN m))) in
  (2 <= L <= 62 → (9 * Z.to_nat (L + 2) <= length (P1IN m))%nat) →
  (2 <= L <= 62 →
     ∃ m', ucCOMM_WaitForMessage indet m = Returns (0, m') ∧
           g_ucRXBufferIndex m' = L + 2 ∧
           P1IN m' = drop (9 * Z.to_nat (L + 2)) (P1IN m)) ∧
  (¬ 2 <= L <= 62 →
     ∃ m', ucCOMM_WaitForMessage indet m = Returns (COMM_ERROR, m') ∧
           g_ucRXBufferIndex m' = SP_HEADERSIZE ∧
           P1IN m' = drop 36 (P1IN m)).
Proof.
  intros Hr Hi Hin L Henough.
  pose proof (rx_byte_range (take 8 (drop 9 (P1IN m)))) as HL. fold L in HL.
  destruct (WaitForMessage_loop_header indet 61 m Hr Hi Hin)
    as (m4 & Hr4 & Hi4 & Hin4 & Hloop).
  fold L in Hloop. cbv zeta in Hloop.
  unfold ucCOMM_WaitForMessage.
  change (S (Z.to_nat MAXMSGLEN)) with (S (S (S (S 61)))).
  unfold u8, CRC_SZ, MAXMSGLEN, SP_HEADERSIZE in *.
  split; intros HLr.
  - assert (Hsz : (L + 2) mod 256 = L + 2) by (apply Z.mod_small; lia).
    rewrite Hsz in Hloop.
    replace ((L + 2 >? 64) || (L + 2 <? 4)) with false in Hloop
      by (rewrite Z.gtb_ltb;
          destruct (Z.ltb_spec 64 (L + 2)), (Z.ltb_spec (L + 2) 4); simpl; try done; lia).
    destruct (decide (L = 2)) as [->|Hne].
    + change (negb (4 =? 2 + 2)) with false in Hloop. cbv iota in Hloop.
      exists m4. erewrite run_Returns by exact Hloop. cbv beta iota.
      rewrite run_gets, Hi4. repeat split; done.
    + replace (negb (4 =? L + 2)) with true in Hloop
        by (symmetry; apply negb_true_iff, Z.eqb_neq; lia).
      cbv iota in Hloop.
      destruct (WaitForMessage_loop_rest indet (Z.to_nat (L - 3)) 61 m4 (L + 2) Hr4
                  ltac:(rewrite Hi4; done) ltac:(rewrite Hi4; lia)
                  ltac:(unfold MAXMSGLEN; lia)
                  ltac:(rewrite Hin4, length_drop; specialize (Henough HLr); lia)
                  ltac:(lia))
        as (m' & Hrun & Hr' & Hi' & Hin' & _).
      rewrite Hrun in Hloop.
      exists m'. erewrite run_Returns by exact Hloop. cbv beta iota.
      rewrite run_gets, Hi'.
      replace (L + 2 =? 0) with false by (symmetry; apply Z.eqb_neq; lia).
      repeat split; try done.
      rewrite Hin', Hin4, drop_drop. f_equal. lia.
  - replace (((L + 2) mod 256 >? 64) || ((L + 2) mod 256 <? 4)) with true in Hloop.
    + exists m4. erewrite run_Returns by exact Hloop. done.
    + symmetry. rewrite Z.gtb_ltb. apply orb_true_iff.
      destruct (decide (L < 2)) as [?|?];
        [right; rewrite Z.mod_small by lia; apply Z.ltb_lt; lia|].
      destruct (decide (L <= 253)) as [?|?];
        [left; rewrite Z.mod_small by lia; apply Z.ltb_lt; lia|].
      right. replace ((L + 2) mod 256) with (L + 2 - 256); [apply Z.ltb_lt; lia|].
      apply Z.mod_unique with 1; lia.
Qed.

(** *** [ucCOMM_SendByte] *)

Lemma SendByte_loop_spec n : ∀ ui m,
  tst (P1DIR m) SDA_PIN = true → tst (P2IES m) SCL_PIN = true →
  SendByte_loop n ui m =
    Returns (tt, Machine (g_ucCOMM_Flags m) (g_ucaRXBuffer m) (g_ucRXBufferIndex m)
                   (driven (tx_bits (S n) ui) (P1OUT m)) (P1DIR m) (P2IES m)
                   (bic (P2IFG m) SCL_PIN) (P1IN m)
                   (bus m ++ map (λ b, Edge true (Some b)) (tx_bits (S n) ui))).
Proof.
  unfold driven.
  induction n as [|n IH]; intros ui m Hd He;
    destruct m as [fl buf idx o d ies ifg inp tr];
    cbn [P1DIR P2IES] in Hd, He.
  - cbn [SendByte_loop]. unfold u8, SDA_PIN, BIT1. change (2 mod 256) with SDA_PIN.
    destruct (tst ui 1) eqn:E; step; step; norm; rewrite He, Hd;
      cbn [tx_bits fold_left map]; rewrite E, ?tst_bis_SDA, ?tst_bic; reflexivity.
  - cbn [SendByte_loop]. unfold u8, SDA_PIN, BIT1. change (2 mod 256) with SDA_PIN.
    change (tx_bits (S (S n)) ui) with (tst ui 1 :: tx_bits (S n) (Z.shiftr ui 1)).
    destruct (tst ui 1) eqn:E; step; step; norm; rewrite He, Hd;
      rewrite IH by done; norm;
      cbn [fold_left map]; rewrite ?tst_bis_SDA, ?tst_bic, bic_idem;
      rewrite <- app_assoc; reflexivity.
Qed.

(** [P1IN & BIT1] is 0 or 2, never 1. *)
Lemma land_SDA_ne_1 v : (Z.land v (u8 SDA_PIN) =? 1) = false.
Proof.
  apply Z.eqb_neq. intros H.
  apply (f_equal (λ z, Z.testbit z 0)) in H. rewrite Z.land_spec in H.
  change (Z.testbit (u8 SDA_PIN) 0) with false in H.
  change (Z.testbit 1 0) with true in H.
  by rewrite andb_false_r in H.
Qed.

(** What a call of [ucCOMM_SendByte] does when no send is in progress and
    the peer answers with the sample [v]. *)
Lemma SendByte_spec c m v rest :
  tst (g_ucCOMM_Flags m) COMM_TX_BUSY = false → P1IN m = v :: rest →
  ∃ m', ucCOMM_SendByte c m = Returns (COMM_OK, m') ∧
    bus m' = bus m ++ map (λ b, Edge true (Some b)) (tx_bits 9 (tx_word c))
               ++ [Edge false None; Edge true None] ∧
    g_ucCOMM_Flags m' = bic (bis (g_ucCOMM_Flags m) COMM_TX_BUSY) COMM_TX_BUSY ∧
    g_ucaRXBuffer m' = g_ucaRXBuffer m ∧
    g_ucRXBufferIndex m' = g_ucRXBufferIndex m ∧
    P1IN m' = rest.
Proof.
  intros Hbusy Hin.
  destruct m as [fl buf idx o d ies ifg inp tr]. cbn [P1IN g_ucCOMM_Flags] in *. subst inp.
  unfold ucCOMM_SendByte. step. rewrite Hbusy. cbv iota.
  change (u8 SDA_PIN) with SDA_PIN. change (u8 SCL_PIN) with SCL_PIN.
  fold (tx_word c).
  do 4 step.
  erewrite run_Returns
    by (apply SendByte_loop_spec; norm; [apply tst_bis_SDA | apply tst_bis_SCL]).
  norm. do 3 step. erewrite run_read by reflexivity. cbv beta zeta. norm.
  do 3 step.
  change SDA_PIN with (u8 SDA_PIN) at 1. rewrite land_SDA_ne_1. cbv iota.
  eexists. split; [reflexivity|]. norm.
  rewrite ?tst_bic, ?tst_bis_SCL.
  repeat split. rewrite <- !app_assoc. reflexivity.
Qed.

Lemma SendByte_busy c m :
  tst (g_ucCOMM_Flags m) COMM_TX_BUSY = true →
  ucCOMM_SendByte c m = Returns (COMM_ERROR, m).
Proof. intros H. unfold ucCOMM_SendByte. rewrite run_gets, H. reflexivity. Qed.

Lemma SendByte_blocked c m :
  tst (g_ucCOMM_Flags m) COMM_TX_BUSY = false → P1IN m = [] →
  ucCOMM_SendByte c m = Blocked.
Proof.
  intros Hbusy Hin.
  destruct m as [fl buf idx o d ies ifg inp tr]. cbn [P1IN g_ucCOMM_Flags] in *. subst inp.
  unfold ucCOMM_SendByte. step. rewrite Hbusy. cbv iota.
  do 4 step.
  erewrite run_Returns
    by (apply SendByte_loop_spec; norm; [apply tst_bis_SDA | apply tst_bis_SCL]).
  norm. do 3 step. reflexivity.
Qed.

(** *** [ucCOMM_GrabMessageFromBuffer] *)

Lemma Grab_copy_spec {St} n : ∀ (src dst : list Z) (k : nat) (s : St),
  (k + n <= length src)%nat → (k <= length dst)%nat →
  Grab_copy n src dst (Z.of_nat k) s =
    if decide (k + n <= length dst)%nat
    then Returns (take k dst ++ take n (drop k src) ++ drop (k + n) dst, s)
    else Undefined.
Proof.
  induction n as [|n IH]; intros src dst k s Hsrc Hdst.
  - cbn [Grab_copy]. rewrite decide_True by lia. rewrite Nat.add_0_r.
    change (take 0 (drop k src)) with (@nil Z). cbn [app].
    by rewrite take_drop.
  - cbn [Grab_copy].
    destruct (src !! k) as [v|] eqn:Ev; [|apply lookup_ge_None in Ev; lia].
    erewrite run_load
      by (unfold rd; rewrite (proj2 (Z.leb_le 0 _)), Nat2Z.id by lia; exact Ev).
    destruct (decide (k < length dst)%nat) as [Hlt|Hge].
    + erewrite run_store
        by (unfold wr; rewrite (proj2 (Z.leb_le 0 _)), (proj2 (Z.ltb_lt _ _)) by lia;
            reflexivity).
      rewrite Nat2Z.id.
      replace (Z.of_nat k + 1) with (Z.of_nat (S k)) by lia.
      rewrite IH by (rewrite ?length_insert; lia).
      rewrite length_insert.
      destruct (decide (k + S n <= length dst)%nat);
        [rewrite decide_True by lia|by rewrite decide_False by lia].
      f_equal. f_equal.
      rewrite (take_S_r _ _ v) by (rewrite list_lookup_insert_eq; [done|lia]).
      rewrite take_insert_ge by lia. rewrite <- app_assoc. f_equal.
      rewrite (drop_S src v k) by done.
      change (take (S n) (v :: drop (S k) src)) with (v :: take n (drop (S k) src)).
      cbn [app]. f_equal. f_equal.
      rewrite drop_insert_lt by lia. f_equal. lia.
    + rewrite decide_False by lia.
      apply run_store_None. unfold wr.
      destruct (Z.of_nat k <? Z.of_nat (length dst)) eqn:E; [apply Z.ltb_lt in E; lia|].
      by rewrite andb_false_r.
Qed.

(** Every path of [ucCOMM_GrabMessageFromBuffer]. *)
Lemma Grab_paths `{CRC16} pucBuff m :
  let idx := g_ucRXBufferIndex m in
  let buf := g_ucaRXBuffer m in
  ucCOMM_GrabMessageFromBuffer pucBuff m =
    if idx <? SP_HEADERSIZE then Returns ((COMM_BUFFER_UNDERFLOW, pucBuff), m) else
    match rd buf MSG_LEN_IDX with
    | None => Undefined
    | Some len =>
        if len >? MAXMSGLEN then Returns ((COMM_BUFFER_UNDERFLOW, pucBuff), m) else
        match ucCRC16_compute_msg_CRC CRC_FOR_MSG_TO_REC buf (u8 (len + CRC_SZ)) with
        | None => Undefined
        | Some (ok, buf') =>
            if ok =? 0 then Returns ((COMM_ERROR, pucBuff), set_RXBuffer buf' m) else
            match Grab_copy (Z.to_nat len) buf' pucBuff 0 (set_RXBuffer buf' m) with
            | Returns (dst, m') => Returns ((COMM_OK, dst), set_RXBufferIndex 0 m')
            | Blocked => Blocked
            | Undefined => Undefined
            end
        end
    end.
Proof.
  cbv zeta. unfold ucCOMM_GrabMessageFromBuffer.
  rewrite run_gets. destruct (_ <? SP_HEADERSIZE); [reflexivity|].
  rewrite run_gets.
  destruct (rd (g_ucaRXBuffer m) MSG_LEN_IDX) as [len|] eqn:E;
    [|by apply run_Undefined; unfold load; rewrite E].
  erewrite run_load by exact E.
  destruct (len >? MAXMSGLEN); [reflexivity|].
  erewrite run_load by exact E.
  unfold call_CRC.
  destruct (ucCRC16_compute_msg_CRC _ _ _) as [[ok buf']|] eqn:Ec;
    [|by apply run_Undefined].
  erewrite run_Returns by reflexivity. cbv beta iota.
  rewrite run_modify. destruct (ok =? 0); [reflexivity|].
  rewrite run_gets. unfold mbind, M_bind at 1.
  cbn [g_ucaRXBuffer set_RXBuffer].
  destruct (Grab_copy _ _ _ _ _) as [[dst m']| |]; reflexivity.
Qed.

(** The copy loop does not touch the machine. *)
Lemma Grab_copy_state {St} n : ∀ (src dst : list Z) i (s : St) dst' s',
  Grab_copy n src dst i s = Returns (dst', s') → s' = s.
Proof.
  induction n as [|n IH]; intros src dst i s dst' s'; cbn [Grab_copy].
  - unfold mret, M_ret. congruence.
  - unfold mbind, M_bind, load, store.
    destruct (rd src i); [|done]. destruct (wr dst i z); [|done]. apply IH.
Qed.

(** The copy loop reads and writes the two arrays only. *)
Lemma Grab_copy_any_state {St} n : ∀ (src dst : list Z) i (s s0 : St),
  Grab_copy n src dst i s =
    match Grab_copy n src dst i s0 with
    | Returns (d, _) => Returns (d, s)
    | Blocked => Blocked
    | Undefined => Undefined
    end.
Proof.
  induction n as [|n IH]; intros src dst i s s0; cbn [Grab_copy]; [done|].
  unfold mbind, M_bind, load, store.
  destruct (rd src i); [|done]. destruct (wr dst i z); [|done]. apply IH.
Qed.

(** The status flags play no part in [ucCOMM_GrabMessageFromBuffer]. *)
Lemma Grab_flags_irrelevant `{CRC16} pucBuff m f :
  ucCOMM_GrabMessageFromBuffer pucBuff (set_Flags f m) =
    match ucCOMM_GrabMessageFromBuffer pucBuff m with
    | Returns (r, m') => Returns (r, set_Flags f m')
    | Blocked => Blocked
    | Undefined => Undefined
    end.
Proof.
  rewrite !Grab_paths. cbv zeta.
  destruct m as [fl buf idx o d ies ifg inp tr]. norm.
  destruct (idx <? SP_HEADERSIZE); [done|].
  destruct (rd buf MSG_LEN_IDX) as [len|]; [|done].
  destruct (len >? MAXMSGLEN); [done|].
  destruct (ucCRC16_compute_msg_CRC _ _ _) as [[ok buf']|]; [|done].
  destruct (ok =? 0); [done|].
  rewrite (Grab_copy_any_state _ _ _ _ _ (Machine fl buf' idx o d ies ifg inp tr)).
  destruct (Grab_copy _ _ _ _ _) as [[dst m']| |] eqn:E; try done.
  apply Grab_copy_state in E. by subst m'.
Qed.

(** ** The claims about the bus link *)

(** C1 (as amended).  Started with the receive index at 0, where
    [vCOMM_Init] and a successful [ucCOMM_GrabMessageFromBuffer] leave
    it and which the loop itself does not restore, with the peer
    sending at least the header and, for an accepted length, the whole
    message, [ucCOMM_WaitForMessage] returns 0 exactly when the declared
    length [L] (the second byte) has [2 <= L <= 62], that is when
    [L + CRC_SZ] taken as a byte lies in [SP_HEADERSIZE, MAXMSGLEN]; for
    every other [L] it returns [COMM_ERROR] with the index at the header
    size and nothing read after the four header bytes. *)
Theorem WaitForMessage_length_window indet m :
  ready m → g_ucRXBufferIndex m = 0 → (36 <= length (P1IN m))%nat →
  let L := rx_byte (take 8 (drop 9 (P1IN m))) in
  (2 <= L <= 62 → (9 * Z.to_nat (L + 2) <= length (P1IN m))%nat) →
  (value (ucCOMM_WaitForMessage indet m) = Returns 0 ↔ 2 <= L <= 62) ∧
  (¬ 2 <= L <= 62 →
     ∃ m', ucCOMM_WaitForMessage indet m = Returns (COMM_ERROR, m') ∧
           g_ucRXBufferIndex m' = SP_HEADERSIZE ∧
           P1IN m' = drop 36 (P1IN m)).
Proof.
  intros Hr Hi Hin L Henough.
  destruct (WaitForMessage_outcome indet m Hr Hi Hin Henough) as [Hok Herr].
  split; [|exact Herr]. split.
  - intros Hv. destruct (decide (2 <= L <= 62)) as [?|Hn]; [done|].
    destruct (Herr Hn) as (m' & Hrun & _). fold L in Hrun.
    rewrite Hrun in Hv. discriminate Hv.
  - intros HL. destruct (Hok HL) as (m' & Hrun & _). by rewrite Hrun.
Qed.

(** A six-byte message is within the window. *)
Lemma WaitForMessage_length_window_witness :
  let m := listening (frames [COMMAND_PKT; 6; 120; 0; 0xAA; 0xBB; 0x12; 0x34]) in
  ready m ∧ rx_byte (take 8 (drop 9 (P1IN m))) = 6 ∧
  (value (ucCOMM_WaitForMessage 0 m) = Returns 0
   ↔ 2 <= rx_byte (take 8 (drop 9 (P1IN m))) <= 62).
Proof.
  intros m. split; [split; reflexivity|]. split; [reflexivity|].
  refine (proj1 (WaitForMessage_length_window 0 m _ _ _ _)).
  - split; reflexivity.
  - reflexivity.
  - vm_compute. lia.
  - intros _. vm_compute. lia.
Defined.

(** C1, the claim as stated fails: a well-formed message that declares
    64 bytes is refused with [COMM_ERROR], one that declares 3 bytes is
    taken, and the error is not one of the buffer codes. *)
Lemma WaitForMessage_length_64_refused :
  4 <= 64 <= 64 ∧ ¬ 4 <= 3 <= 64 ∧
  value (ucCOMM_WaitForMessage 0
           (listening (frames ([COMMAND_PKT; 64; 120; 0] ++ replicate 62 0))))
    = Returns COMM_ERROR ∧
  value (ucCOMM_WaitForMessage 0
           (listening (frames [COMMAND_PKT; 3; 120; 0; 0x55])))
    = Returns 0 ∧
  COMM_ERROR ≠ COMM_BUFFER_UNDERFLOW ∧ COMM_ERROR ≠ COMM_BUFFER_OVERFLOW.
Proof. repeat split; try lia; try done; vm_compute; reflexivity. Qed.

(** C8.  A byte that arrives with the wrong parity bit, the receiver not
    busy and the index inside the array: [ucCOMM_ReceiveByte] returns
    [COMM_OK], has set [COMM_PARITY_ERR], has stored the byte at the
    index and moved the index on.  The flag stays set through later
    bytes, whatever their parity, and
    [ucCOMM_GrabMessageFromBuffer] gives the same status and the same
    bytes whatever the flags are. *)
Theorem ReceiveByte_parity_mismatch `{CRC16} indet m f rest :
  ready m → 0 <= g_ucRXBufferIndex m < MAXMSGLEN →
  P1IN m = f ++ rest → length f = 9%nat →
  rx_parity (take 8 f) ≠ rx_sent_parity (nth 8 f 0) →
  (∃ m', ucCOMM_ReceiveByte indet m = Returns (COMM_OK, m') ∧
     tst (g_ucCOMM_Flags m') COMM_PARITY_ERR = true ∧
     g_ucaRXBuffer m' = <[Z.to_nat (g_ucRXBufferIndex m) := rx_byte (take 8 f)]>
                          (g_ucaRXBuffer m) ∧
     g_ucaRXBuffer m' !! Z.to_nat (g_ucRXBufferIndex m) = Some (rx_byte (take 8 f)) ∧
     g_ucRXBufferIndex m' = g_ucRXBufferIndex m + 1) ∧
  (∀ m1 m2 g rest', tst (g_ucCOMM_Flags m1) COMM_PARITY_ERR = true →
     tst (g_ucCOMM_Flags m1) COMM_RX_BUSY = false →
     P1IN m1 = g ++ rest' → length g = 9%nat →
     ucCOMM_ReceiveByte indet m1 = Returns (COMM_OK, m2) →
     tst (g_ucCOMM_Flags m2) COMM_PARITY_ERR = true) ∧
  (∀ pucBuff m1 fl,
     value (ucCOMM_GrabMessageFromBuffer pucBuff (set_Flags fl m1))
     = value (ucCOMM_GrabMessageFromBuffer pucBuff m1)).
Proof.
  intros [Hbusy Hlen] Hidx Hin Hf Hpar. split; [|split].
  - pose proof (ReceiveByte_spec indet m f rest Hbusy Hin Hf) as Hs.
    cbv zeta in Hs. unfold wr in Hs. rewrite Hlen in Hs.
    rewrite (proj2 (Z.leb_le 0 _)), (proj2 (Z.ltb_lt _ _)) in Hs
      by (unfold MAXMSGLEN in *; lia).
    cbn [andb] in Hs. destruct Hs as (m' & Hrun & Hbuf & Hi & Hfl & _).
    exists m'. split; [done|].
    rewrite (proj2 (Z.eqb_neq _ _) Hpar) in Hfl. cbn [negb] in Hfl.
    repeat split.
    + rewrite Hfl. by apply tst_bis.
    + by rewrite Hbuf.
    + rewrite Hbuf. apply list_lookup_insert_eq.
      rewrite Hlen. unfold MAXMSGLEN in *. lia.
    + rewrite Hi. unfold u8, MAXMSGLEN in *. rewrite Z.mod_small; lia.
  - intros m1 m2 g rest' Hset Hb1 Hin1 Hg Hrun.
    pose proof (ReceiveByte_spec indet m1 g rest' Hb1 Hin1 Hg) as Hs.
    cbv zeta in Hs. destruct (wr _ _ _); [|congruence].
    destruct Hs as (m' & Hrun' & _ & _ & Hfl & _).
    rewrite Hrun in Hrun'. injection Hrun' as <-. rewrite Hfl.
    destruct (negb _); [by apply tst_bis|].
    rewrite tst_bic_other, tst_bis_other by done. exact Hset.
  - intros pucBuff m1 fl. rewrite Grab_flags_irrelevant.
    by destruct (ucCOMM_GrabMessageFromBuffer pucBuff m1) as [[r m']| |].
Qed.

(** The byte 0xA5 sent with the parity bit of an odd byte. *)
Lemma ReceiveByte_parity_mismatch_witness :
  let m := listening (frame 0xA5 true) in
  rx_parity (take 8 (frame 0xA5 true)) ≠ rx_sent_parity (nth 8 (frame 0xA5 true) 0) ∧
  ∃ m', ucCOMM_ReceiveByte 0 m = Returns (COMM_OK, m') ∧
     tst (g_ucCOMM_Flags m') COMM_PARITY_ERR = true ∧
     g_ucaRXBuffer m' !! 0%nat = Some 0xA5 ∧
     g_ucRXBufferIndex m' = 1.
Proof.
  intros m. split; [vm_compute; discriminate|].
  destruct (proj1 (ReceiveByte_parity_mismatch (H := CRC.ccitt) 0 m (frame 0xA5 true) []
              ltac:(split; reflexivity) ltac:(vm_compute; split; [discriminate|reflexivity])
              ltac:(reflexivity) ltac:(reflexivity) ltac:(vm_compute; discriminate)))
    as (m' & Hrun & Hfl & _ & Hbuf & Hi).
  exists m'. repeat split; assumption.
Defined.

(** C10.  [ucCOMM_GrabMessageFromBuffer] on its three failure paths
    returns its error code with the destination and the receive index as
    they were; whenever it returns with the destination or the index
    changed, it returns [COMM_OK], and then the index is 0. *)
Theorem Grab_failure_changes_nothing `{CRC16} pucBuff m :
  length (g_ucaRXBuffer m) = Z.to_nat MAXMSGLEN →
  (g_ucRXBufferIndex m < SP_HEADERSIZE →
     ucCOMM_GrabMessageFromBuffer pucBuff m
     = Returns ((COMM_BUFFER_UNDERFLOW, pucBuff), m)) ∧
  (∀ len, SP_HEADERSIZE <= g_ucRXBufferIndex m →
     g_ucaRXBuffer m !! 1%nat = Some len → MAXMSGLEN < len →
     ucCOMM_GrabMessageFromBuffer pucBuff m
     = Returns ((COMM_BUFFER_UNDERFLOW, pucBuff), m)) ∧
  (∀ len buf', SP_HEADERSIZE <= g_ucRXBufferIndex m →
     g_ucaRXBuffer m !! 1%nat = Some len → len <= MAXMSGLEN →
     ucCRC16_compute_msg_CRC CRC_FOR_MSG_TO_REC (g_ucaRXBuffer m) (u8 (len + CRC_SZ))
     = Some (0, buf') →
     ucCOMM_GrabMessageFromBuffer pucBuff m
     = Returns ((COMM_ERROR, pucBuff), set_RXBuffer buf' m)) ∧
  (∀ r dst m', ucCOMM_GrabMessageFromBuffer pucBuff m = Returns ((r, dst), m') →
     (r ≠ COMM_OK → dst = pucBuff ∧ g_ucRXBufferIndex m' = g_ucRXBufferIndex m) ∧
     (r = COMM_OK → g_ucRXBufferIndex m' = 0)).
Proof.
  intros Hlen. rewrite Grab_paths. cbv zeta.
  unfold rd, MSG_LEN_IDX. change (0 <=? 1) with true. cbv iota.
  change (Z.to_nat 1) with 1%nat.
  split; [|split; [|split]].
  - intros Hi. by rewrite (proj2 (Z.ltb_lt _ _) Hi).
  - intros len Hi Hl Hgt. rewrite (proj2 (Z.ltb_ge _ _) Hi), Hl.
    by rewrite Z.gtb_ltb, (proj2 (Z.ltb_lt _ _) Hgt).
  - intros len buf' Hi Hl Hle Hc. rewrite (proj2 (Z.ltb_ge _ _) Hi), Hl.
    rewrite Z.gtb_ltb, (proj2 (Z.ltb_ge _ _) Hle). by rewrite Hc.
  - intros r dst m' Hrun. split; intros Hr; revert Hrun.
    + destruct (_ <? SP_HEADERSIZE); [by intros [= <- <- <-]|].
      destruct (g_ucaRXBuffer m !! 1%nat) as [len|]; [|done].
      destruct (len >? MAXMSGLEN); [by intros [= <- <- <-]|].
      destruct (ucCRC16_compute_msg_CRC _ _ _) as [[ok buf']|]; [|done].
      destruct (ok =? 0); [by intros [= <- <- <-]|].
      destruct (Grab_copy _ _ _ _ _) as [[d m1]| |]; [|done..].
      intros [= <- <- <-]. done.
    + subst r.
      destruct (_ <? SP_HEADERSIZE); [done|].
      destruct (g_ucaRXBuffer m !! 1%nat) as [len|]; [|done].
      destruct (len >? MAXMSGLEN); [done|].
      destruct (ucCRC16_compute_msg_CRC _ _ _) as [[ok buf']|]; [|done].
      destruct (ok =? 0); [done|].
      destruct (Grab_copy _ _ _ _ _) as [[d m1]| |]; [|done..].
      by intros [= <- <-].
Qed.

(** An index below the header size. *)
Lemma Grab_failure_changes_nothing_witness :
  let m := set_RXBufferIndex 2 (listening []) in
  length (g_ucaRXBuffer m) = Z.to_nat MAXMSGLEN ∧ g_ucRXBufferIndex m < SP_HEADERSIZE ∧
  ucCOMM_GrabMessageFromBuffer (H := CRC.ccitt) (replicate 64 0) m
  = Returns ((COMM_BUFFER_UNDERFLOW, replicate 64 0), m).
Proof.
  intros m. split; [reflexivity|]. split; [reflexivity|].
  apply (proj1 (Grab_failure_changes_nothing (H := CRC.ccitt) (replicate 64 0) m
                  ltac:(reflexivity))).
  reflexivity.
Defined.

(** The nine bits of a byte on the line: its eight bits, bit 0 first,
    then the parity bit, which makes the number of ones even. *)
Lemma tx_bits_word c :
  0 <= c < 256 →
  tx_bits 9 (tx_word c)
  = map (Z.testbit c) [0; 1; 2; 3; 4; 5; 6; 7] ++ [Z.odd (ones 8 c)].
Proof.
  intros Hc.
  assert (Hall : forallb (λ c, bool_decide
            (tx_bits 9 (tx_word c)
             = map (Z.testbit c) [0; 1; 2; 3; 4; 5; 6; 7] ++ [Z.odd (ones 8 c)]))
            (seqZ 0 256) = true) by (vm_compute; reflexivity).
  rewrite forallb_forall in Hall.
  specialize (Hall c).
  eapply bool_decide_eq_true_1, Hall.
  apply list_elem_of_In, elem_of_seqZ. lia.
Qed.

(** The confirmed part of C7: with no send in progress the nine bits go
    out on falling clock edges, bit 0 first, the even-parity bit last,
    then the line is released for the acknowledge; with a send in
    progress the call returns [COMM_ERROR] and nothing reaches the line. *)
Lemma SendByte_bits_then_parity c m v rest :
  0 <= c < 256 →
  (tst (g_ucCOMM_Flags m) COMM_TX_BUSY = false → P1IN m = v :: rest →
   ∃ m', ucCOMM_SendByte c m = Returns (COMM_OK, m') ∧
     bus m' = bus m
       ++ map (λ b, Edge true (Some b))
              (map (Z.testbit c) [0; 1; 2; 3; 4; 5; 6; 7] ++ [Z.odd (ones 8 c)])
       ++ [Edge false None; Edge true None]) ∧
  (tst (g_ucCOMM_Flags m) COMM_TX_BUSY = true →
   ucCOMM_SendByte c m = Returns (COMM_ERROR, m)).
Proof.
  intros Hc. split.
  - intros Hb Hin. destruct (SendByte_spec c m v rest Hb Hin) as (m' & Hrun & Hbus & _).
    exists m'. split; [done|]. by rewrite Hbus, tx_bits_word.
  - apply SendByte_busy.
Qed.

(** C7, where the code goes wrong: [ucCOMM_SendByte] never returns
    [COMM_ACK_ERR].  The acknowledge sample is masked with [SDA_PIN], which
    is [BIT1]: the result is 0 or 2 and the test [ucAck == 1] never
    holds.  With the data line high at the acknowledge (a NACK) the call
    returns [COMM_OK]. *)
Theorem SendByte_never_reports_NACK :
  (∀ c m, value (ucCOMM_SendByte c m) ≠ Returns COMM_ACK_ERR) ∧
  tst SDA_PIN SDA_PIN = true ∧
  value (ucCOMM_SendByte 0xA5 (listening [SDA_PIN])) = Returns COMM_OK.
Proof.
  split; [|split; vm_compute; reflexivity].
  intros c m.
  destruct (tst (g_ucCOMM_Flags m) COMM_TX_BUSY) eqn:Hb.
  - by rewrite SendByte_busy.
  - destruct (P1IN m) as [|v rest] eqn:Hin.
    + by rewrite SendByte_blocked.
    + destruct (SendByte_spec c m v rest Hb Hin) as (m' & -> & _). done.
Qed.

(** *** [vCOMM_SendMessage] *)

(** The byte sender is handed the bytes of the array one after the other:
    whatever the statuses, the pointer moves on after every call. *)
Lemma SendMessage_loop_hands_on n : ∀ buff (p : nat) i e len s s',
  SendMessage_loop scripted_send n buff (Z.of_nat p) i e len s = Returns (tt, s') →
  ∃ k, handed s' = handed s ++ take k (drop p buff).
Proof.
  induction n as [|n IH]; intros buff p i e len s s'; cbn [SendMessage_loop]; [done|].
  destruct (negb (i <? len)).
  { intros [= <-]. exists 0%nat. by rewrite app_nil_r. }
  destruct (buff !! p) as [b|] eqn:Eb.
  2:{ intros Hrun. exfalso. revert Hrun. unfold mbind, M_bind, load, rd.
      rewrite (proj2 (Z.leb_le 0 _)), Nat2Z.id, Eb by lia. done. }
  erewrite run_load by (unfold rd; rewrite (proj2 (Z.leb_le 0 _)), Nat2Z.id by lia; done).
  assert (Hsend : ∃ r s1, scripted_send b s = Returns (r, s1)
                          ∧ handed s1 = handed s ++ [b]).
  { unfold scripted_send. destruct (answers s); eauto. }
  destruct Hsend as (r & s1 & Hsend & Hh1).
  erewrite run_Returns by exact Hsend. cbv beta zeta.
  replace (Z.of_nat p + 1) with (Z.of_nat (S p)) by lia.
  assert (Hk : ∀ k, handed s1 ++ take k (drop (S p) buff)
                    = handed s ++ take (S k) (drop p buff)).
  { intros k. rewrite Hh1, <- app_assoc. f_equal.
    by rewrite (drop_S buff b p Eb). }
  destruct (negb (r =? COMM_OK)).
  - destruct (u8 (e + 1) =? 5).
    + intros [= <-]. exists 1%nat. by rewrite <- (Hk 0%nat), app_nil_r.
    + intros Hrun. destruct (IH _ _ _ _ _ _ _ Hrun) as [k Hk'].
      exists (S k). by rewrite Hk', Hk.
  - intros Hrun. destruct (IH _ _ _ _ _ _ _ Hrun) as [k Hk'].
    exists (S k). by rewrite Hk', Hk.
Qed.

(** C4, where the code goes wrong: after a failed byte the next byte of
    the array is sent, not the same byte again.  With the first call
    failing, the sender is handed the bytes at offsets 0 to 8 in turn: the
    first byte only once, and one byte from beyond the trailer.  In
    general the bytes handed over are an initial stretch of the array. *)
Theorem SendMessage_retry_sends_next_byte :
  (∀ (crc : CRC16) pBuff ucLength answers buff s',
     vCOMM_SendMessage_over scripted_send pBuff ucLength (Script answers [])
     = Returns (buff, s') →
     ∃ k, handed s' = take k buff) ∧
  vCOMM_SendMessage_over (H := CRC.ccitt) scripted_send trial 6 (Script [COMM_ACK_ERR] [])
  = Returns (take 6 trial ++ [0xED; 0x64] ++ replicate 56 0,
             Script [] (take 6 trial ++ [0xED; 0x64; 0])).
Proof.
  split; [|vm_compute; reflexivity].
  intros crc pBuff ucLength answers buff s'.
  unfold vCOMM_SendMessage_over, call_CRC. cbv zeta.
  unfold mbind, M_bind at 1.
  destruct (ucCRC16_compute_msg_CRC _ _ _) as [[r b]|]; [|done].
  unfold mbind, M_bind.
  destruct (SendMessage_loop _ _ _ _ _ _ _ _) as [[[] s1]| |] eqn:E; [|done..].
  intros [= <- <-].
  apply (SendMessage_loop_hands_on _ _ 0%nat) in E. destruct E as [k Hk].
  exists k. by rewrite Hk.
Qed.

(** The error count runs over the whole message: four failed calls and
    the loop still makes its [ucLength + 2] good calls; the fifth failed
    call ends it, whether the five come in a row or one by one. *)
Lemma SendMessage_error_count :
  let run answers :=
    match vCOMM_SendMessage_over (H := CRC.ccitt) scripted_send trial 6
            (Script answers []) with
    | Returns (_, s) => Some (length (handed s))
    | _ => None
    end in
  let E := COMM_ACK_ERR in
  run [] = Some 8%nat ∧
  run [E; E; E; E] = Some 12%nat ∧
  run [E; E; E; E; E] = Some 5%nat ∧
  run [E; 0; E; 0; E; 0; E; 0; E] = Some 9%nat.
Proof. vm_compute. done. Qed.

(** With the byte sender of [comm.c] itself a call fails only while
    [COMM_TX_BUSY] is set, and then every call fails: the loop gives up
    after five calls with nothing on the line. *)
Lemma SendMessage_while_busy :
  let m := set_Flags (λ f, bis f COMM_TX_BUSY) (listening []) in
  vCOMM_SendMessage (H := CRC.ccitt) trial 6 m
  = Returns (take 6 trial ++ [0xED; 0x64] ++ replicate 56 0, m).
Proof. vm_compute. reflexivity. Qed.

End CommFacts.

(** ** Facts about the CRC trailer *)

Module CRCFacts.
Import CRC Trailer.

Section Generator.

(** A 16-bit generator with its constant term, any start value. *)
Variables poly init : Z.
Hypothesis poly_range : 0 <= poly < 2 ^ 16.
Hypothesis poly_odd : Z.testbit poly 0 = true.









(** *** One byte *)











(** *** A run of bytes *)







Lemma compute_receive buff L :
  0 <= L → L + CRC_SZ <= Z.of_nat (length buff) →
  compute_msg_CRC poly init CRC_FOR_MSG_TO_REC buff (L + CRC_SZ)
  = Some (if bool_decide
               (buff !! Z.to_nat L
                = Some (Z.shiftr (crc16 poly init (take (Z.to_nat L) buff)) 8)
                ∧ buff !! S (Z.to_nat L)
                  = Some (Z.land (crc16 poly init (take (Z.to_nat L) buff)) 0xFF))
          then 1 else 0, buff).
Proof.
  intros HL Hlen. unfold compute_msg_CRC, CRC_SZ in *.
  rewrite (proj2 (Z.ltb_ge _ _)), (proj2 (Z.ltb_ge _ _)) by lia. cbn [orb].
  replace (L + 2 - 2) with L by lia. reflexivity.
Qed.




End Generator.


End CRCFacts.

(** ** Facts about the report slots *)

Module MainFacts.
Import Main Reports.

Lemma wr_app (done rest : list Z) x v :
  wr (done ++ x :: rest) (Z.of_nat (length done)) v = Some ((done ++ [v]) ++ rest).
Proof.
  rewrite wr_insert by (rewrite length_app; cbn; lia).
  f_equal. rewrite <- app_assoc. cbn [Datatypes.app].
  replace (length done) with (length done + 0)%nat at 1 by lia.
  by rewrite insert_app_r.
Qed.

Lemma run_slot {St B} (t : list report) (k : nat) r (c : report → M St B) s :
  t !! k = Some r → (slot t (Z.of_nat k) ≫= c) s = c r s.
Proof.
  intros Hk. unfold mbind, M_bind, slot.
  by rewrite (proj2 (Z.leb_le 0 _)), Nat2Z.id, Hk by lia.
Qed.

(** The inner loop copies [n] bytes behind what is written already. *)
Lemma FetchData_bytes_spec {St} n : ∀ data (c : nat) (done rest : list Z) (s : St),
  (c + n ≤ length data)%nat → (n ≤ length rest)%nat →
  FetchData_bytes n data (Z.of_nat c) (done ++ rest) (Z.of_nat (length done)) s
  = Returns ((done ++ take n (drop c data) ++ drop n rest,
              Z.of_nat (length done + n)), s).
Proof.
  induction n as [|n IH]; intros data c done rest s Hc Hn; cbn [FetchData_bytes].
  - change (take 0 (drop c data)) with (@nil Z). cbn [Datatypes.app drop].
    by rewrite Nat.add_0_r.
  - destruct (data !! c) as [v|] eqn:Ev; [|apply lookup_ge_None in Ev; lia].
    destruct rest as [|x rest]; [cbn in Hn; lia|].
    erewrite run_load by (rewrite rd_lookup; exact Ev).
    erewrite run_store by apply wr_app.
    replace (Z.of_nat c + 1) with (Z.of_nat (S c)) by lia.
    replace (Z.of_nat (length done) + 1) with (Z.of_nat (length (done ++ [v])))
      by (rewrite length_app; cbn; lia).
    rewrite IH by (cbn in Hn; lia).
    rewrite length_app. cbn [length].
    rewrite (drop_S data v c Ev), <- app_assoc. cbn [Datatypes.app take drop].
    do 3 f_equal. lia.
Qed.

Lemma group_length i r :
  well_formed r → Z.of_nat (length (group i r)) = m_ucLength r + 2.
Proof.
  intros [Hd Hl]. unfold group. cbn [length]. rewrite length_take.
  unfold MAXDATALEN in *. lia.
Qed.

(** The outer loop appends the groups of the flagged slots, lowest id
    first, adds up their lengths and leaves the slots alone. *)
Lemma FetchData_loop_spec rs : ∀ (i : nat) (done rest : list Z) len a,
  drop i (S_Report a) = rs → Forall well_formed rs →
  (length (payload_from (Z.of_nat i) rs) ≤ length rest)%nat →
  0 <= len < 256 →
  FetchData_loop (length rs) (Z.of_nat i) (done ++ rest) (Z.of_nat (length done)) len a
  = Returns ((u8 (len + Z.of_nat (length (payload_from (Z.of_nat i) rs))),
              done ++ payload_from (Z.of_nat i) rs
                   ++ drop (length (payload_from (Z.of_nat i) rs)) rest), a).
Proof.
  induction rs as [|r rs IH]; intros i done rest len a Hdrop Hwf Hroom Hlen;
    cbn [FetchData_loop length payload_from].
  - cbn [length Datatypes.app drop]. by rewrite Z.add_0_r, u8_small.
  - assert (Hi : S_Report a !! i = Some r).
    { rewrite <- (Nat.add_0_r i), <- lookup_drop, Hdrop. done. }
    assert (Hrest : drop (S i) (S_Report a) = rs).
    { replace (S i) with (i + 1)%nat by lia. by rewrite <- drop_drop, Hdrop. }
    apply Forall_cons in Hwf as [Hr Hwf].
    rewrite run_gets. erewrite run_slot by exact Hi.
    cbn [payload_from] in Hroom.
    replace (Z.of_nat i + 1) with (Z.of_nat (S i)) in * by lia.
    destruct (tst (m_ucFlags r) F_NEWDATA).
    + rewrite length_app in Hroom.
      pose proof (group_length (Z.of_nat i) r Hr) as Hg.
      destruct Hr as [Hd Hl]. unfold MAXDATALEN in *.
      destruct rest as [|x0 [|x1 rest]]; [cbn in Hroom; lia..|].
      erewrite run_store by apply wr_app.
      replace (Z.of_nat (length done) + 1)
        with (Z.of_nat (length (done ++ [Z.of_nat i]))) by (rewrite length_app; cbn; lia).
      erewrite run_store by apply wr_app.
      set (done2 := (done ++ [Z.of_nat i]) ++ [m_ucLength r]).
      replace (Z.of_nat (length done) + 2) with (Z.of_nat (length done2)).
      2:{ unfold done2. rewrite !length_app. cbn. lia. }
      erewrite run_Returns.
      2:{ apply (FetchData_bytes_spec _ _ 0%nat); [lia|].
          unfold group in Hroom. cbn [length] in Hroom.
          rewrite length_take in Hroom. lia. }
      cbv beta iota.
      set (n := Z.to_nat (m_ucLength r)) in *.
      assert (Hn : (n ≤ length (m_ucaData r))%nat) by (unfold n; lia).
      rewrite app_assoc.
      replace (Z.of_nat (length done2 + n))
        with (Z.of_nat (length (done2 ++ take n (drop 0 (m_ucaData r))))).
      2:{ rewrite length_app, length_take, drop_0. lia. }
      rewrite IH; [|done|done| |unfold u8; apply Z.mod_pos_bound; lia].
      2:{ rewrite length_drop. unfold group in Hroom. cbn [length] in Hroom.
          fold n in Hroom. rewrite length_take in Hroom. lia. }
      rewrite u8_add_l.
      replace (len + (m_ucLength r + 2)
               + Z.of_nat (length (payload_from (Z.of_nat (S i)) rs)))
        with (len + Z.of_nat (length (group (Z.of_nat i) r
                                      ++ payload_from (Z.of_nat (S i)) rs)))
        by (rewrite length_app; lia).
      do 3 f_equal.
      rewrite length_app. unfold done2, group. fold n.
      rewrite drop_0, <- !app_assoc. cbn [Datatypes.app length].
      do 4 f_equal. rewrite length_take, drop_drop.
      replace (n `min` length (m_ucaData r))%nat with n by lia.
      cbn [drop plus]. f_equal; lia.
    + cbn [Datatypes.app] in *. by apply IH.
Qed.

(** What [ucMain_FetchData] does, whatever the flags. *)
Lemma FetchData_spec (pucBuff : list Z) a :
  Forall well_formed (S_Report a) →
  length (S_Report a) = Z.to_nat NUMDATGEN →
  (length (payload_from 0 (S_Report a)) ≤ length pucBuff)%nat →
  ucMain_FetchData pucBuff a
  = Returns ((u8 (Z.of_nat (length (payload_from 0 (S_Report a)))),
              payload_from 0 (S_Report a)
                ++ drop (length (payload_from 0 (S_Report a))) pucBuff), a).
Proof.
  intros Hwf Hlen Hroom. unfold ucMain_FetchData. rewrite <- Hlen.
  apply (FetchData_loop_spec (S_Report a) 0%nat [] pucBuff 0 a); [done..|lia].
Qed.

(** The counterexample to C3 as stated: with slots 2 and 5 flagged the
    drain writes the two groups and returns 7, but the flags stay set: a
    second drain right after it returns 7 again, not 0. *)
Lemma FetchData_second_drain_not_empty :
  let buf := replicate 60 0 in
  let out := [2; 2; 0x11; 0x22; 5; 1; 0x33] ++ replicate 53 0 in
  ucMain_FetchData buf two_flagged = Returns ((7, out), two_flagged) ∧
  (ucMain_FetchData buf;; ucMain_FetchData buf) two_flagged
  = Returns ((7, out), two_flagged).
Proof. split; vm_compute; reflexivity. Qed.

(** C3, amended: with exactly slots 2 and 5 of the nine flagged, the drain
    writes the group of slot 2 and then the group of slot 5, each its id,
    its length and its data bytes, and returns the number of bytes
    written; the slots, flags included, are as before, so a second drain
    writes and returns the same. *)
Theorem FetchData_two_slots (a : app) (pucBuff : list Z) (r2 r5 : report) :
  map (λ r, tst (m_ucFlags r) F_NEWDATA) (S_Report a)
  = [false; false; true; false; false; true; false; false; false] →
  Forall well_formed (S_Report a) →
  S_Report a !! 2%nat = Some r2 → S_Report a !! 5%nat = Some r5 →
  (length (group 2 r2 ++ group 5 r5) ≤ length pucBuff)%nat →
  let payload := group 2 r2 ++ group 5 r5 in
  ucMain_FetchData pucBuff a
  = Returns ((Z.of_nat (length payload), payload ++ drop (length payload) pucBuff), a)
  ∧ ∀ again, (length payload ≤ length again)%nat →
      (ucMain_FetchData pucBuff;; ucMain_FetchData again) a
      = Returns ((Z.of_nat (length payload), payload ++ drop (length payload) again), a).
Proof.
  intros Hflags Hwf H2 H5 Hroom payload.
  assert (Hlen : length (S_Report a) = Z.to_nat NUMDATGEN).
  { apply (f_equal length) in Hflags. by rewrite length_map in Hflags. }
  assert (Hpay : payload_from 0 (S_Report a) = payload).
  { destruct a as [rs]. cbn [S_Report] in *.
    destruct rs as [|r0 [|r1 [|r2' [|r3 [|r4 [|r5' [|r6 [|r7 [|r8 [|]]]]]]]]]];
      try discriminate Hlen.
    cbn in H2, H5. injection H2 as ->. injection H5 as ->.
    cbn [map] in Hflags. injection Hflags as E0 E1 E2 E3 E4 E5 E6 E7 E8.
    unfold payload. cbn [payload_from]. rewrite E0, E1, E2, E3, E4, E5, E6, E7, E8.
    cbn [Datatypes.app Z.add Pos.add Pos.succ]. by rewrite app_nil_r. }
  assert (Hsmall : u8 (Z.of_nat (length payload)) = Z.of_nat (length payload)).
  { apply u8_small. unfold payload. rewrite length_app.
    assert (Hw2 : well_formed r2)
      by (eapply (proj1 (Forall_lookup _ _) Hwf); exact H2).
    assert (Hw5 : well_formed r5)
      by (eapply (proj1 (Forall_lookup _ _) Hwf); exact H5).
    pose proof (group_length 2 r2 Hw2). pose proof (group_length 5 r5 Hw5).
    destruct Hw2 as [_ ?], Hw5 as [_ ?]. unfold MAXDATALEN in *. lia. }
  assert (Hrun : ∀ buf, (length payload ≤ length buf)%nat →
            ucMain_FetchData buf a
            = Returns ((Z.of_nat (length payload), payload ++ drop (length payload) buf), a)).
  { intros buf Hbuf. rewrite FetchData_spec by (rewrite ?Hpay; done).
    by rewrite Hpay, Hsmall. }
  split; [by apply Hrun|].
  intros again Hagain. erewrite run_Returns by (by apply Hrun). by apply Hrun.
Qed.

Lemma FetchData_two_slots_witness :
  let payload := [2; 2; 0x11; 0x22; 5; 1; 0x33] in
  let buf := replicate 60 0 in
  map (λ r, tst (m_ucFlags r) F_NEWDATA) (S_Report two_flagged)
  = [false; false; true; false; false; true; false; false; false] ∧
  ucMain_FetchData buf two_flagged
  = Returns ((7, payload ++ drop 7 buf), two_flagged).
Proof.
  intros payload buf. split; [reflexivity|].
  refine (proj1 (FetchData_two_slots two_flagged buf
                   (Report [0x11; 0x22; 0; 0] 2 F_NEWDATA)
                   (Report [0x33; 0; 0; 0] 1 F_NEWDATA)
                   ltac:(reflexivity) _ ltac:(reflexivity) ltac:(reflexivity) _)).
  - repeat (apply Forall_cons; split;
            [split; [reflexivity | vm_compute; split; discriminate]|]).
    apply Forall_nil_2.
  - vm_compute. lia.
Defined.

End MainFacts.

(** ** Facts about the sensor line *)

Module STMFacts.
Import STM SensorLine.

Lemma s16_small x : -32768 <= x < 32768 → s16 x = x.
Proof.
  intros Hx. unfold s16. cbv zeta.
  destruct (Z.ltb_spec (x mod 65536) 32768) as [Hlt|Hge].
  - destruct (Z.lt_ge_cases x 0) as [Hneg|Hpos].
    + rewrite <- (Z.mod_unique x 65536 (-1) (x + 65536)) in Hlt by lia. lia.
    + apply Z.mod_small. lia.
  - destruct (Z.lt_ge_cases x 0) as [Hneg|Hpos].
    + rewrite <- (Z.mod_unique x 65536 (-1) (x + 65536)) by lia. lia.
    + rewrite Z.mod_small in Hge by lia. lia.
Qed.

Lemma run_at_index {B} buf (i : nat) t v (k : nat) x (c : Z → M stm B) :
  buf !! (i + k)%nat = Some x →
  (at_index (Z.of_nat k) ≫= c) (Stm buf (Z.of_nat i) t v) = c x (Stm buf (Z.of_nat i) t v).
Proof.
  intros Hx.
  cbv beta iota delta [mbind M_bind at_index gets load g_ucaSTM_RXBuffer
                       g_ucSTM_RXBufferIndex].
  by rewrite <- Nat2Z.inj_add, rd_lookup, Hx.
Qed.

Lemma total_app l m : total (l ++ m) = total l + total m.
Proof.
  unfold total. induction l as [|x l IH]; cbn [foldr Datatypes.app]; lia.
Qed.

Lemma total_range l : byte_list l → 0 <= total l <= 255 * Z.of_nat (length l).
Proof.
  induction 1 as [|x l Hx _ IH]; cbn [total foldr length]; [lia|].
  unfold total in IH. lia.
Qed.

Lemma lookup_first (pre : list Z) i x rest :
  length pre = i → (pre ++ x :: rest) !! (i + 0)%nat = Some x.
Proof. intros <-. rewrite Nat.add_0_r. apply list_lookup_middle. done. Qed.

Lemma lookup_second (pre : list Z) i x y rest :
  length pre = i → (pre ++ x :: y :: rest) !! (S i + 0)%nat = Some y.
Proof.
  intros <-. rewrite Nat.add_0_r, (cons_middle x pre), app_assoc.
  apply list_lookup_middle. rewrite length_app. cbn. lia.
Qed.

(** The summing loop: from a byte [x] at the index to the carriage
    return, over bytes [post] that are no carriage return. *)
Lemma Test_Checksum_loop_spec post : ∀ n pre i x after add t v,
  length pre = i →
  (length post ≤ n)%nat → (i + length post < 255)%nat →
  0x0D ∉ post →
  byte_list (x :: post) → 0 <= add → add + 255 * Z.of_nat (S (length post)) < 32768 →
  let buf := pre ++ x :: post ++ 0x0D :: after in
  Test_Checksum_loop n add (Stm buf (Z.of_nat i) t v)
  = Returns (add + x + total post, Stm buf (Z.of_nat (i + S (length post))) t v).
Proof.
  induction post as [|y post IH];
    intros n pre i x after add t v Hi Hn Hidx Hcr Hb Hadd Hmax buf;
    apply Forall_cons in Hb as [Hx Hb]; cbn [length] in Hn, Hidx, Hmax.
  - destruct n; cbn [Test_Checksum_loop].
    all: erewrite (run_at_index buf i t v 0) by (by apply lookup_first).
    all: cbv zeta; rewrite run_gets, run_modify.
    all: cbn [set_Index g_ucaSTM_RXBuffer g_ucSTM_RXBufferIndex nSTM_Temperature
              lSTM_Soil].
    all: rewrite u8_small by lia.
    all: replace (Z.of_nat i + 1) with (Z.of_nat (S i)) by lia.
    all: erewrite (run_at_index buf (S i) t v 0 0x0D) by (by apply lookup_second).
    all: cbn [Z.eqb Pos.eqb negb]; unfold mret, M_ret.
    all: rewrite s16_small by lia; cbn [total foldr length].
    all: by rewrite Z.add_0_r, Nat.add_1_r.
  - apply not_elem_of_cons in Hcr as [Hy Hcr].
    destruct n as [|n]; [lia|]. cbn [Test_Checksum_loop].
    erewrite (run_at_index buf i t v 0) by (by apply lookup_first).
    cbv zeta. rewrite run_gets, run_modify.
    cbn [set_Index g_ucaSTM_RXBuffer g_ucSTM_RXBufferIndex nSTM_Temperature lSTM_Soil].
    rewrite u8_small by lia.
    replace (Z.of_nat i + 1) with (Z.of_nat (S i)) by lia.
    erewrite (run_at_index buf (S i) t v 0 y) by (by apply lookup_second).
    rewrite (proj2 (Z.eqb_neq y 0xD)) by (intros E; apply Hy; by rewrite E).
    cbn [negb]. rewrite s16_small by lia.
    replace buf with ((pre ++ [x]) ++ y :: post ++ 0x0D :: after)
      by (unfold buf; by rewrite <- app_assoc).
    rewrite (IH n (pre ++ [x]) (S i));
      [|rewrite length_app; cbn; lia|lia|lia|done|done|lia|lia].
    cbn [total foldr length].
    replace (i + S (S (length post)))%nat with (S i + S (length post))%nat by lia.
    by rewrite Z.add_assoc.
Qed.

Lemma lookup_line (body : list Z) a b c rest :
  let buf := body ++ [a; b; c] ++ rest in
  buf !! (length body + 0)%nat = Some a
  ∧ buf !! (length body + 1)%nat = Some b
  ∧ buf !! (length body + 2)%nat = Some c.
Proof.
  intros buf. unfold buf.
  split; [|split]; rewrite lookup_app_r by lia.
  - by replace (length body + 0 - length body)%nat with 0%nat by lia.
  - by replace (length body + 1 - length body)%nat with 1%nat by lia.
  - by replace (length body + 2 - length body)%nat with 2%nat by lia.
Qed.

(** The checksum test on a well-shaped buffer. *)
Lemma Test_Checksum_value x body ty ck rest idx t v :
  0x0D ∉ body → byte_list (x :: body ++ [ty]) →
  (length body ≤ Z.to_nat RX_BUFFER_SIZE_STM)%nat →
  tested (line (x :: body) ty ck rest) idx t v
  = Returns (if ck =? checksum (x :: body) ty then 0 else 1).
Proof.
  intros Hcr Hb Hlen. unfold RX_BUFFER_SIZE_STM in Hlen.
  apply Forall_cons in Hb as [Hx Hb]. apply Forall_app in Hb as [Hb Hty].
  apply Forall_cons in Hty as [Hty _].
  pose proof (total_range body Hb) as Htot.
  unfold tested, cSTM_Test_Checksum, RX_BUFFER_SIZE_STM. cbv zeta.
  rewrite run_modify. cbn [set_Index g_ucaSTM_RXBuffer g_ucSTM_RXBufferIndex
    nSTM_Temperature lSTM_Soil].
  erewrite run_Returns.
  2:{ apply (Test_Checksum_loop_spec body _ [] 0%nat x (ty :: ck :: rest) 0 t v);
        [done|lia|lia|done|by apply Forall_cons|lia|lia]. }
  destruct (lookup_line (x :: body) 0x0D ty ck rest) as (H0 & H1 & H2).
  cbn [length Nat.add] in H0, H1, H2 |- *.
  change ([] ++ x :: body ++ 0x0D :: ty :: ck :: rest)
    with ((x :: body) ++ [0x0D; ty; ck] ++ rest).
  erewrite (run_at_index _ (S (length body)) t v 0) by exact H0.
  erewrite (run_at_index _ (S (length body)) t v 1) by exact H1.
  erewrite (run_at_index _ (S (length body)) t v 2) by exact H2.
  rewrite (s16_small (0 + x + total body + 13)) by lia.
  rewrite (s16_small (0 + x + total body + 13 + ty)) by lia.
  rewrite Z.rem_mod_nonneg by lia.
  pose proof (Z.mod_pos_bound (0 + x + total body + 13 + ty) 64 ltac:(lia)).
  rewrite s16_small by lia.
  unfold checksum. cbn [total foldr]. fold (total body).
  replace (x + total body + 13 + ty) with (0 + x + total body + 13 + ty) by lia.
  unfold line. by destruct (ck =? _).
Qed.

Lemma mod64_eq a b : a mod 64 = b mod 64 ↔ (a - b) mod 64 = 0.
Proof.
  split; intros H.
  - apply Z.mod_divide; [lia|]. exists (a / 64 - b / 64).
    pose proof (Z.div_mod a 64). pose proof (Z.div_mod b 64). lia.
  - apply Z.mod_divide in H; [|lia]. destruct H as [c Hc].
    replace a with (b + c * 64) by lia. apply Z_mod_plus_full.
Qed.

Lemma total_insert body (k : nat) old new :
  body !! k = Some old → total (<[k:=new]> body) = total body - old + new.
Proof.
  unfold total. revert k. induction body as [|y body IH]; intros [|k] Hk; try done.
  - injection Hk as ->. change (<[0%nat:=new]> (old :: body)) with (new :: body).
    cbn [foldr]. lia.
  - change (<[S k:=new]> (y :: body)) with (y :: <[k:=new]> body).
    cbn [foldr]. rewrite (IH k Hk). lia.
Qed.

Lemma checksum_shift body ty d :
  (checksum body ty + d =? checksum body ty) = (d =? 0).
Proof.
  destruct (Z.eqb_spec d 0) as [->|Hd].
  - rewrite Z.add_0_r. apply Z.eqb_refl.
  - apply Z.eqb_neq. lia.
Qed.

Lemma checksum_total body body' ty ty' :
  (checksum body ty =? checksum body' ty')
  = ((total body' + ty' - (total body + ty)) mod 64 =? 0).
Proof.
  unfold checksum.
  destruct (Z.eqb_spec ((total body' + ty' - (total body + ty)) mod 64) 0) as [E|E].
  - apply Z.eqb_eq. f_equal. symmetry. apply mod64_eq.
    replace (total body' + 13 + ty' - (total body + 13 + ty))
      with (total body' + ty' - (total body + ty)) by lia. done.
  - apply Z.eqb_neq. intros H. apply E.
    assert (H' : (total body' + 13 + ty') mod 64 = (total body + 13 + ty) mod 64) by lia.
    apply mod64_eq in H'. rewrite <- H'. f_equal. lia.
Qed.

(** The counterexample to C5 as stated: an accepted buffer whose first
    byte, one of the summed ones, is changed from 0x31 to 0x71 is accepted
    all the same, the sum being taken modulo 64. *)
Lemma Test_Checksum_misses_64 :
  let buf := line two_fields FIVETM (checksum two_fields FIVETM) (replicate 9 0) in
  tested buf 0 0 0 = Returns 0 ∧
  buf !! 0%nat = Some 0x31 ∧
  tested (<[0%nat:=0x71]> buf) 0 0 0 = Returns 0.
Proof. vm_compute. done. Qed.

(** C5, amended: on a buffer with a first byte, then bytes that are no
    carriage return, then the carriage return, the type byte and the
    checksum byte, [cSTM_Test_Checksum] accepts (returns 0) exactly when
    the checksum byte is the sum of the bytes up to the type byte modulo
    64, plus 32; on an accepted buffer, any other checksum byte is
    rejected, and another value in the type byte or in one of the bytes
    before the carriage return (no carriage return itself, unless in the
    first byte) is rejected exactly when it differs from the old one by
    no multiple of 64. *)
Theorem Test_Checksum_mod64 x body ty ck rest idx t v :
  0x0D ∉ body → byte_list (x :: body ++ [ty]) →
  (length body ≤ Z.to_nat RX_BUFFER_SIZE_STM)%nat →
  (tested (line (x :: body) ty ck rest) idx t v = Returns 0
   ↔ ck = checksum (x :: body) ty)
  ∧ (ck = checksum (x :: body) ty →
     (∀ ck', ck' ≠ ck → tested (line (x :: body) ty ck' rest) idx t v = Returns 1)
     ∧ (∀ ty', 0 <= ty' < 256 →
          tested (line (x :: body) ty' ck rest) idx t v
          = Returns (if (ty' - ty) mod 64 =? 0 then 0 else 1))
     ∧ (∀ (k : nat) old new,
          (x :: body) !! k = Some old → 0 <= new < 256 → k = 0%nat ∨ new ≠ 0x0D →
          tested (line (<[k:=new]> (x :: body)) ty ck rest) idx t v
          = Returns (if (new - old) mod 64 =? 0 then 0 else 1))).
Proof.
  intros Hcr Hb Hlen. split; [|intros ->; split; [|split]].
  - rewrite Test_Checksum_value by done.
    destruct (Z.eqb_spec ck (checksum (x :: body) ty)); split; done.
  - intros ck' Hne. rewrite Test_Checksum_value by done.
    by rewrite (proj2 (Z.eqb_neq _ _) Hne).
  - intros ty' Hty'. rewrite Test_Checksum_value; [|done| |done].
    + rewrite checksum_total. by replace (total (x :: body) + ty' - (total (x :: body) + ty))
        with (ty' - ty) by lia.
    + apply Forall_cons in Hb as [Hx Hb]. apply Forall_app in Hb as [Hb _].
      apply Forall_cons; split; [done|]. apply Forall_app; split; [done|].
      by apply Forall_cons.
  - intros k old new Hk Hnew Hcase.
    apply Forall_cons in Hb as [Hx Hb]. apply Forall_app in Hb as [Hb Hty].
    assert (Hshape : ∃ x' body', <[k:=new]> (x :: body) = x' :: body'
              ∧ (0x0D ∉ body') ∧ byte_list (x' :: body') ∧ length body' = length body).
    { destruct k as [|k].
      - exists new, body. split; [done|]. split; [done|].
        split; [by apply Forall_cons|done].
      - exists x, (<[k:=new]> body). split; [done|].
        destruct Hcase as [|Hnew13]; [done|]. split; [|split].
        + intros Hin. apply list_elem_of_lookup_1 in Hin as [j Hj].
          apply list_lookup_insert_Some in Hj as [(_ & E & _)|(_ & Hj)].
          * by apply Hnew13.
          * apply Hcr. by eapply list_elem_of_lookup_2.
        + apply Forall_cons; split; [done|]. by apply Forall_insert.
        + by rewrite length_insert. }
    destruct Hshape as (x' & body' & E & Hcr' & Hb' & Hlen').
    assert (Htot : total (x' :: body') = total (x :: body) - old + new)
      by (rewrite <- E; by apply total_insert).
    rewrite E, Test_Checksum_value; [|done| |lia].
    + rewrite checksum_total, Htot.
      by replace (total (x :: body) - old + new + ty - (total (x :: body) + ty))
        with (new - old) by lia.
    + apply Forall_cons in Hb' as [Hx' Hb'].
      apply Forall_cons; split; [done|]. by apply Forall_app.
Qed.

Lemma Test_Checksum_mod64_witness :
  (0x0D ∉ [0x32; 0x33; 0x34; 0x20; 0x35; 0x36; 0x37]) ∧
  (tested (line two_fields FIVETM 0x31 (replicate 9 0)) 0 0 0 = Returns 0
   ↔ 0x31 = checksum two_fields FIVETM).
Proof.
  assert (Hcr : 0x0D ∉ [0x32; 0x33; 0x34; 0x20; 0x35; 0x36; 0x37]).
  { intros H. repeat (apply elem_of_cons in H as [H|H]; [discriminate|]).
    by apply elem_of_nil in H. }
  split; [exact Hcr|].
  refine (proj1 (Test_Checksum_mod64 0x31 [0x32; 0x33; 0x34; 0x20; 0x35; 0x36; 0x37]
                   FIVETM 0x31 (replicate 9 0) 0 0 0 Hcr _ _)).
  - repeat (apply Forall_cons; split; [unfold FIVETM; lia|]). apply Forall_nil_2.
  - vm_compute. lia.
Defined.

(** *** [cSTM_ReadValue] *)

(** The counterexample to C6 as stated: on the line [1234 567] the
    temperature is 567 but the soil value is 12: from the space before the
    temperature the index goes back two places, past the last two digits
    of the first field. *)
Lemma ReadValue_two_fields :
  cSTM_ReadValue 0 (Stm (two_fields ++ [0x0D; FIVETM] ++ replicate 10 0) 0 0 0)
  = Returns (tt, Stm (two_fields ++ [0x0D; FIVETM] ++ replicate 10 0) 255 567 12).
Proof. vm_compute. reflexivity. Qed.

(** C6, amended: on the 5TM line [1234 0 567], where a one-character
    field stands between the two values, followed by the carriage return
    and the type byte, [cSTM_ReadValue] leaves 1234 as the soil value and
    567 as the temperature, whatever the variables held before and
    whatever follows in the buffer. *)
Theorem ReadValue_three_fields (indet idx t v : Z) (rest : list Z) :
  let buf := three_fields ++ [0x0D; FIVETM] ++ rest in
  cSTM_ReadValue indet (Stm buf idx t v) = Returns (tt, Stm buf 255 567 1234).
Proof. intros buf. unfold buf. vm_compute. reflexivity. Qed.

End STMFacts.

(** ** Facts about the dispatch *)

Module CoreFacts.
Import Core.

Lemma dispatched_false t :
  dispatched t = false →
  (t =? COMMAND_PKT) = false ∧ (t =? REQUEST_DATA) = false ∧
  (t =? REQUEST_LABEL) = false ∧ (t =? REQUEST_BSL_PW) = false ∧
  (t =? INTERROGATE) = false ∧ (t =? SET_SERIALNUM) = false ∧
  (t =? COMMAND_SENSOR_TYPE) = false ∧ (t =? REQUEST_SENSOR_TYPE) = false.
Proof.
  unfold dispatched. intros H. apply bool_decide_eq_false in H.
  repeat split; apply Z.eqb_neq; intros ->; apply H;
    repeat (apply elem_of_cons; first [by left | right]).
Qed.

Lemma shutdown_bit_set f : Z.testbit (bis f Comm.SHUTDOWN_BIT) 0 = true.
Proof. unfold bis. rewrite Z.lor_spec. apply orb_true_r. Qed.

Lemma wr_header t len ver f rest v :
  wr (t :: len :: ver :: f :: rest) MSG_TYP_IDX v = Some (v :: len :: ver :: f :: rest)
  ∧ wr (t :: len :: ver :: f :: rest) MSG_LEN_IDX v = Some (t :: v :: ver :: f :: rest)
  ∧ wr (t :: len :: ver :: f :: rest) MSG_VER_IDX v = Some (t :: len :: v :: f :: rest)
  ∧ wr (t :: len :: ver :: f :: rest) MSG_FLAGS_IDX v = Some (t :: len :: ver :: v :: rest).
Proof.
  pose proof (wr_insert (t :: len :: ver :: f :: rest) 0 v) as H0.
  pose proof (wr_insert (t :: len :: ver :: f :: rest) 1 v) as H1.
  pose proof (wr_insert (t :: len :: ver :: f :: rest) 2 v) as H2.
  pose proof (wr_insert (t :: len :: ver :: f :: rest) 3 v) as H3.
  cbn [length] in *.
  split; [|split; [|split]];
    [apply H0 | apply H1 | apply H2 | apply H3]; lia.
Qed.

(** C9: a message whose type the switch has no case for is answered with
    one call of [vCOMM_SendMessage], of length [SP_HEADERSIZE], on the
    array holding [REPORT_ERROR], [SP_HEADERSIZE] and the version in the
    header; what [ucMain_ShutdownAllowed] returns at that moment decides
    the flags byte: bit 0 is set exactly when it returns 1. *)
Theorem Run_unknown_type {St : Type} `{!Collaborators St} (fresh : list Z) (l : locals)
    (t len ver f : Z) (rest : list Z) (s s1 : St) (r : Z) :
  ucaMsg_Buff l = t :: len :: ver :: f :: rest →
  dispatched t = false →
  ucMain_ShutdownAllowed s = Returns (r, s1) →
  let flags := if r =? 1 then bis f Comm.SHUTDOWN_BIT else 0 in
  let reply := REPORT_ERROR :: SP_HEADERSIZE :: SP_DATAMESSAGE_VERSION :: flags :: rest in
  vCORE_Run_switch fresh l s
  = (buf ← vCOMM_SendMessage reply SP_HEADERSIZE; mret (set_Msg_Buff buf l)) s1
  ∧ Z.testbit flags 0 = bool_decide (r = 1).
Proof.
  intros Hbuf Ht Hr flags reply. split.
  - destruct (dispatched_false t Ht) as (E1 & E2 & E3 & E4 & E5 & E6 & E7 & E8).
    unfold vCORE_Run_switch. rewrite Hbuf.
    erewrite run_load by reflexivity.
    rewrite E1, E2, E3, E4, E5, E6, E7, E8.
    unfold case_default. rewrite Hbuf.
    erewrite run_store by apply wr_header.
    erewrite run_store by apply wr_header.
    erewrite run_store by apply wr_header.
    assert (Hflag : shutdown_flag
              (REPORT_ERROR :: SP_HEADERSIZE :: SP_DATAMESSAGE_VERSION :: f :: rest) s
            = Returns (reply, s1)).
    { unfold shutdown_flag. erewrite run_Returns by exact Hr.
      unfold reply, flags, store. destruct (r =? 1).
      - erewrite run_load by reflexivity.
        by rewrite (proj2 (proj2 (proj2 (wr_header _ _ _ _ _ _)))).
      - by rewrite (proj2 (proj2 (proj2 (wr_header _ _ _ _ _ _)))). }
    erewrite run_Returns by exact Hflag.
    unfold reply. erewrite run_load by reflexivity. reflexivity.
  - unfold flags. destruct (Z.eqb_spec r 1) as [->|Hne].
    + by rewrite shutdown_bit_set, bool_decide_eq_true_2.
    + by rewrite bool_decide_eq_false_2.
Qed.

Lemma Run_unknown_type_witness :
  let l := Locals ([0x7F; 4; 120; 0] ++ replicate 60 0) 0 (replicate 32 0) [0; 0; 0; 0] in
  let reply := [REPORT_ERROR; SP_HEADERSIZE; SP_DATAMESSAGE_VERSION; 1] ++ replicate 60 0 in
  dispatched 0x7F = false ∧
  vCORE_Run_switch (St := probe) (Collaborators0 := probe_collaborators)
    (replicate 64 0) l (Probe 1 [])
  = Returns (set_Msg_Buff reply l, Probe 1 [(reply, SP_HEADERSIZE)]).
Proof.
  intros l reply. split; [reflexivity|].
  exact (proj1 (Run_unknown_type (Collaborators0 := probe_collaborators)
                  (replicate 64 0) l 0x7F 4 120 0 (replicate 60 0)
                  (Probe 1 []) (Probe 1 []) 1
                  ltac:(reflexivity) ltac:(reflexivity) ltac:(reflexivity))).
Defined.

End CoreFacts.

(** ** More on running calls, and on the signed types *)

Lemma run_assoc {St A B C} (c : M St A) (f : A → M St B) (k : B → M St C) s :
  ((c ≫= f) ≫= k) s = (c ≫= λ a, f a ≫= k) s.
Proof. unfold mbind, M_bind. by destruct (c s) as [[a s']| |]. Qed.

Lemma run_bind_ret {St A} (c : M St A) s : (c ≫= mret) s = c s.
Proof. unfold mbind, M_bind, mret, M_ret. by destruct (c s) as [[a s']| |]. Qed.

Lemma run_bind_ext {St A B} (c : M St A) (k k' : A → M St B) s :
  (∀ a s', c s = Returns (a, s') → k a s' = k' a s') →
  (c ≫= k) s = (c ≫= k') s.
Proof. intros H. unfold mbind, M_bind. destruct (c s) as [[a s']| |]; auto. Qed.

Lemma run_bind_cong {St A B} (c c' : M St A) (k : A → M St B) s :
  c s = c' s → (c ≫= k) s = (c' ≫= k) s.
Proof. intros H. unfold mbind, M_bind. by rewrite H. Qed.

Lemma s32_small x : -2147483648 <= x < 2147483648 → s32 x = x.
Proof.
  intros Hx. unfold s32. cbv zeta.
  destruct (Z.ltb_spec (x mod 4294967296) 2147483648) as [Hlt|Hge].
  - destruct (Z.lt_ge_cases x 0) as [Hneg|Hpos].
    + rewrite <- (Z.mod_unique x 4294967296 (-1) (x + 4294967296)) in Hlt by lia. lia.
    + apply Z.mod_small. lia.
  - destruct (Z.lt_ge_cases x 0) as [Hneg|Hpos].
    + rewrite <- (Z.mod_unique x 4294967296 (-1) (x + 4294967296)) by lia. lia.
    + rewrite Z.mod_small in Hge by lia. lia.
Qed.

Lemma s32_range x : -2147483648 <= s32 x < 2147483648.
Proof.
  unfold s32. cbv zeta. pose proof (Z.mod_pos_bound x 4294967296 eq_refl).
  destruct (Z.ltb_spec (x mod 4294967296) 2147483648); lia.
Qed.

Lemma s16_range x : -32768 <= s16 x < 32768.
Proof.
  unfold s16. cbv zeta. pose proof (Z.mod_pos_bound x 65536 eq_refl).
  destruct (Z.ltb_spec (x mod 65536) 32768); lia.
Qed.

(** ** More facts about the bus link *)

Module LinkFacts.
Import Comm Wire Link CommFacts.

(** The samples of a frame give the byte back, bit 0 first, and the
    count of its ones. *)
Lemma frame_decodes b p :
  0 <= b < 256 →
  rx_byte (take 8 (frame b p)) = b
  ∧ rx_parity (take 8 (frame b p)) = (if even_parity b then 1 else 0)
  ∧ rx_sent_parity (nth 8 (frame b p) 0) = (if p then 1 else 0)
  ∧ length (frame b p) = 9%nat.
Proof.
  intros Hb.
  assert (Hall : forallb (λ b, forallb (λ p : bool, bool_decide
            (rx_byte (take 8 (frame b p)) = b
             ∧ rx_parity (take 8 (frame b p)) = (if even_parity b then 1 else 0)
             ∧ rx_sent_parity (nth 8 (frame b p) 0) = (if p then 1 else 0)
             ∧ length (frame b p) = 9%nat)) [true; false])
            (seqZ 0 256) = true) by (vm_compute; reflexivity).
  rewrite forallb_forall in Hall. specialize (Hall b).
  rewrite forallb_forall in Hall.
  eapply bool_decide_eq_true_1, Hall.
  - apply list_elem_of_In, elem_of_seqZ. lia.
  - destruct p; cbn; auto.
Qed.

(** The bits [ucCOMM_SendByte] drives are the frame of the byte with its
    even-parity bit. *)
Lemma tx_bits_frame c :
  0 <= c < 256 → samples_of (tx_bits 9 (tx_word c)) = frame c (even_parity c).
Proof.
  intros Hc.
  assert (Hall : forallb (λ c, bool_decide
            (samples_of (tx_bits 9 (tx_word c)) = frame c (even_parity c)))
            (seqZ 0 256) = true) by (vm_compute; reflexivity).
  rewrite forallb_forall in Hall.
  eapply bool_decide_eq_true_1, Hall.
  apply list_elem_of_In, elem_of_seqZ. lia.
Qed.

Lemma tst_PARITY_after fl (bad : bool) :
  tst (if bad then bis (bic (bis fl COMM_RX_BUSY) COMM_RX_BUSY) COMM_PARITY_ERR
       else bic (bis fl COMM_RX_BUSY) COMM_RX_BUSY) COMM_PARITY_ERR
  = bad || tst fl COMM_PARITY_ERR.
Proof.
  destruct bad; cbn [orb].
  - by apply tst_bis.
  - by rewrite tst_bic_other, tst_bis_other.
Qed.

(** A byte received in full: what [ucCOMM_ReceiveByte] leaves. *)
Lemma ReceiveByte_frame_run indet m b p rest :
  ready m → 0 <= g_ucRXBufferIndex m < MAXMSGLEN → 0 <= b < 256 →
  P1IN m = frame b p ++ rest →
  ∃ m', ucCOMM_ReceiveByte indet m = Returns (COMM_OK, m') ∧ ready m' ∧
    g_ucaRXBuffer m' = <[Z.to_nat (g_ucRXBufferIndex m) := b]> (g_ucaRXBuffer m) ∧
    g_ucRXBufferIndex m' = g_ucRXBufferIndex m + 1 ∧
    P1IN m' = rest ∧
    tst (g_ucCOMM_Flags m') COMM_PARITY_ERR
    = negb (eqb p (even_parity b)) || tst (g_ucCOMM_Flags m) COMM_PARITY_ERR ∧
    bus m' = bus m ++ replicate 9 (Edge false None)
               ++ [Edge true None; Edge true (Some (negb (eqb p (even_parity b))))].
Proof.
  intros [Hbusy Hlen] Hidx Hb Hin.
  destruct (frame_decodes b p Hb) as (Hbyte & Hpar & Hsent & Hflen).
  pose proof (ReceiveByte_spec indet m (frame b p) rest Hbusy Hin Hflen) as Hs.
  cbv zeta in Hs. rewrite Hbyte, Hpar, Hsent in Hs.
  unfold MAXMSGLEN in *.
  assert (Hwr : wr (g_ucaRXBuffer m) (g_ucRXBufferIndex m) b
                = Some (<[Z.to_nat (g_ucRXBufferIndex m) := b]> (g_ucaRXBuffer m))).
  { unfold wr. by rewrite (proj2 (Z.leb_le 0 _)), (proj2 (Z.ltb_lt _ _)) by lia. }
  rewrite Hwr in Hs.
  destruct Hs as (m' & Hrun & Hbuf & Hi & Hfl & Hin' & Hbus).
  assert (Hbad : negb ((if even_parity b then 1 else 0) =? (if p then 1 else 0))
                 = negb (eqb p (even_parity b)))
    by (by destruct p, (even_parity b)).
  rewrite Hbad in Hfl, Hbus.
  exists m'. split; [done|]. split; [|split; [done|split; [|split; [done|split; [|done]]]]].
  - split.
    + rewrite Hfl. destruct (negb _).
      * rewrite tst_bis_other by done. apply tst_bic.
      * apply tst_bic.
    + by rewrite Hbuf, length_insert.
  - rewrite Hi. apply u8_small. lia.
  - rewrite Hfl. apply tst_PARITY_after.
Qed.

Lemma last_two {A} (l : list A) a b : last (l ++ [a; b]) = Some b.
Proof. by rewrite (cons_middle a l [b]), app_assoc, last_snoc. Qed.

(** X1.  A ready receiver that is sent the nine bits of a frame stores
    the byte, bit 0 first, at the index, moves the index on and returns
    [COMM_OK]; it answers with the data line low exactly when the parity
    bit is the even-parity bit of the byte, and raises [COMM_PARITY_ERR]
    exactly when it is not (a flag set before stays set). *)
Theorem ReceiveByte_stores_frame indet m b p rest :
  ready m → 0 <= g_ucRXBufferIndex m < MAXMSGLEN → 0 <= b < 256 →
  P1IN m = frame b p ++ rest →
  ∃ m', ucCOMM_ReceiveByte indet m = Returns (COMM_OK, m') ∧
    g_ucaRXBuffer m' !! Z.to_nat (g_ucRXBufferIndex m) = Some b ∧
    g_ucRXBufferIndex m' = g_ucRXBufferIndex m + 1 ∧
    P1IN m' = rest ∧
    last (bus m') = Some (Edge true (Some (negb (eqb p (even_parity b))))) ∧
    tst (g_ucCOMM_Flags m') COMM_PARITY_ERR
    = negb (eqb p (even_parity b)) || tst (g_ucCOMM_Flags m) COMM_PARITY_ERR.
Proof.
  intros Hr Hidx Hb Hin.
  destruct (ReceiveByte_frame_run indet m b p rest Hr Hidx Hb Hin)
    as (m' & Hrun & _ & Hbuf & Hi & Hin' & Hfl & Hbus).
  exists m'. split; [done|]. split; [|split; [done|split; [done|split; [|done]]]].
  - rewrite Hbuf. apply list_lookup_insert_eq. destruct Hr as [_ Hlen].
    unfold MAXMSGLEN in *. lia.
  - rewrite Hbus, app_assoc. apply last_two.
Qed.

Lemma ReceiveByte_stores_frame_witness :
  let m := listening (frame 0x5A true) in
  ready m ∧ ∃ m', ucCOMM_ReceiveByte 0 m = Returns (COMM_OK, m') ∧
    g_ucaRXBuffer m' !! 0%nat = Some 0x5A ∧ g_ucRXBufferIndex m' = 1.
Proof.
  intros m. assert (Hr : ready m) by (split; reflexivity). split; [exact Hr|].
  destruct (ReceiveByte_stores_frame 0 m 0x5A true [] Hr
              ltac:(vm_compute; split; [discriminate|reflexivity]) ltac:(lia)
              ltac:(reflexivity))
    as (m' & Hrun & Hbuf & Hi & _).
  exists m'. split; [exact Hrun|]. split; [exact Hbuf|exact Hi].
Defined.

Lemma driven_bits_sent (t : list edge) bits :
  driven_bits (drop (length t)
      (t ++ map (λ b, Edge true (Some b)) bits ++ [Edge false None; Edge true None]))
  = bits.
Proof.
  rewrite drop_app_length. unfold driven_bits. rewrite omap_app. cbn [omap sda].
  rewrite app_nil_r. induction bits as [|b bits IH]; [done|]. cbn. by rewrite IH.
Qed.

(** X2.  The two ends of the link agree: the bits [ucCOMM_SendByte]
    drives for a byte, sampled by [ucCOMM_ReceiveByte] at the other end,
    store that byte there; the receiver answers with the line low and
    raises no parity error. *)
Theorem SendByte_ReceiveByte c ms ack rest_s indet mr rest :
  0 <= c < 256 →
  tst (g_ucCOMM_Flags ms) COMM_TX_BUSY = false → P1IN ms = ack :: rest_s →
  ready mr → 0 <= g_ucRXBufferIndex mr < MAXMSGLEN →
  ∃ ms', ucCOMM_SendByte c ms = Returns (COMM_OK, ms') ∧
    (P1IN mr = samples_of (driven_bits (drop (length (bus ms)) (bus ms'))) ++ rest →
     ∃ mr', ucCOMM_ReceiveByte indet mr = Returns (COMM_OK, mr') ∧
       g_ucaRXBuffer mr' !! Z.to_nat (g_ucRXBufferIndex mr) = Some c ∧
       g_ucRXBufferIndex mr' = g_ucRXBufferIndex mr + 1 ∧
       last (bus mr') = Some (Edge true (Some false)) ∧
       tst (g_ucCOMM_Flags mr') COMM_PARITY_ERR
       = tst (g_ucCOMM_Flags mr) COMM_PARITY_ERR).
Proof.
  intros Hc Hb Hack Hr Hidx.
  destruct (SendByte_spec c ms ack rest_s Hb Hack) as (ms' & Hrun & Hbus & _).
  exists ms'. split; [done|]. rewrite Hbus, driven_bits_sent, tx_bits_frame by done.
  intros Hin.
  destruct (ReceiveByte_frame_run indet mr c _ rest Hr Hidx Hc Hin)
    as (mr' & Hrun' & _ & Hbuf & Hi & _ & Hfl & Hbus').
  rewrite eqb_reflx in Hfl, Hbus'. cbn [negb orb] in Hfl, Hbus'.
  exists mr'. split; [done|]. split; [|split; [done|split; [|done]]].
  - rewrite Hbuf. apply list_lookup_insert_eq. destruct Hr as [_ Hlen].
    unfold MAXMSGLEN in *. lia.
  - rewrite Hbus', app_assoc. apply last_two.
Qed.

Lemma SendByte_ReceiveByte_witness :
  let ms := listening [0] in
  ∃ ms', ucCOMM_SendByte 0xC3 ms = Returns (COMM_OK, ms') ∧
    ∃ mr', ucCOMM_ReceiveByte 0
             (listening (samples_of (driven_bits (drop (length (bus ms)) (bus ms')))))
           = Returns (COMM_OK, mr') ∧
      g_ucaRXBuffer mr' !! 0%nat = Some 0xC3.
Proof.
  intros ms.
  destruct (SendByte_ReceiveByte 0xC3 ms 0 [] 0
              (listening (samples_of (tx_bits 9 (tx_word 0xC3)))) []
              ltac:(lia) ltac:(reflexivity) ltac:(reflexivity)
              ltac:(split; reflexivity)
              ltac:(vm_compute; split; [discriminate|reflexivity]))
    as (ms' & Hrun & Hrx).
  exists ms'. split; [exact Hrun|].
  assert (Hbits : driven_bits (drop (length (bus ms)) (bus ms')) = tx_bits 9 (tx_word 0xC3)).
  { revert Hrun. vm_compute. intros [= <-]. reflexivity. }
  rewrite Hbits in Hrx |- *.
  destruct (Hrx ltac:(vm_compute; reflexivity)) as (mr' & Hrun' & Hbuf & _).
  exists mr'. split; [exact Hrun'|exact Hbuf].
Defined.

(** *** The receive loop *)

Lemma run_Blocked {St A B} (c : M St A) (k : A → M St B) s :
  c s = Blocked → (c ≫= k) s = Blocked.
Proof. intros H. unfold mbind, M_bind. by rewrite H. Qed.

Lemma ReceiveByte_loop_short n : ∀ rx par m,
  (length (P1IN m) ≤ n)%nat → ReceiveByte_loop n rx par m = Blocked.
Proof.
  induction n as [|n IH]; intros rx par m Hlen;
    destruct m as [fl buf idx o d ies ifg inp tr];
    destruct inp as [|v inp]; cbn [P1IN length] in Hlen; try lia.
  - cbn [ReceiveByte_loop]. rewrite run_wait. cbv beta zeta. by apply run_Blocked.
  - cbn [ReceiveByte_loop]. rewrite run_wait. cbv beta zeta. by apply run_Blocked.
  - cbn [ReceiveByte_loop]. rewrite run_wait.
    erewrite run_read by reflexivity. cbv beta zeta. norm.
    destruct (tst v SDA_PIN); apply IH; cbn [P1IN]; lia.
Qed.

(** With fewer than nine samples to come the receiver waits for ever. *)
Lemma ReceiveByte_short indet m :
  tst (g_ucCOMM_Flags m) COMM_RX_BUSY = false → (length (P1IN m) < 9)%nat →
  ucCOMM_ReceiveByte indet m = Blocked.
Proof.
  intros Hbusy Hlen. destruct m as [fl buf idx o d ies ifg inp tr].
  cbn [g_ucCOMM_Flags P1IN] in *.
  unfold ucCOMM_ReceiveByte. step. rewrite Hbusy. cbv beta iota. do 4 step.
  destruct (decide (length inp ≤ 7)%nat) as [Hs|Hs].
  - apply run_Blocked. apply ReceiveByte_loop_short. cbn [P1IN]. lia.
  - erewrite run_Returns by (apply ReceiveByte_loop_spec; cbn [P1IN]; lia).
    cbv beta iota zeta. unfold after_samples. norm. step.
    apply run_Blocked. unfold read_P1IN. cbn [P1IN].
    rewrite drop_ge by lia. done.
Qed.

(** What a call of [ucCOMM_ReceiveByte] on a ready machine can do. *)
Lemma ReceiveByte_cases indet m :
  ready m → 0 <= g_ucRXBufferIndex m →
  ucCOMM_ReceiveByte indet m = Blocked
  ∨ ucCOMM_ReceiveByte indet m = Undefined
  ∨ ∃ m', ucCOMM_ReceiveByte indet m = Returns (COMM_OK, m') ∧ ready m' ∧
      g_ucRXBufferIndex m' = g_ucRXBufferIndex m + 1.
Proof.
  intros Hr Hidx. pose proof Hr as [Hbusy Hlen].
  destruct (decide (length (P1IN m) < 9)%nat) as [Hs|Hs];
    [left; by apply ReceiveByte_short|].
  destruct (decide (g_ucRXBufferIndex m < MAXMSGLEN)) as [Hi|Hi].
  - right. right.
    destruct (ReceiveByte_ok indet m Hr ltac:(lia) ltac:(lia))
      as (m' & Hrun & Hr' & _ & Hi' & _).
    by exists m'.
  - right. left.
    pose proof (ReceiveByte_spec indet m (take 9 (P1IN m)) (drop 9 (P1IN m)) Hbusy
                  ltac:(by rewrite take_drop) ltac:(rewrite length_take; lia)) as Hs'.
    cbv zeta in Hs'. unfold wr in Hs'. unfold MAXMSGLEN in *.
    rewrite (proj2 (Z.ltb_ge _ _)), andb_false_r in Hs' by lia. exact Hs'.
Qed.

Lemma WaitForMessage_loop_stale indet n : ∀ m,
  ready m → SP_HEADERSIZE <= g_ucRXBufferIndex m →
  WaitForMessage_loop indet n SP_HEADERSIZE m = Blocked
  ∨ WaitForMessage_loop indet n SP_HEADERSIZE m = Undefined.
Proof.
  induction n as [|n IH]; intros m Hr Hidx; [by right|].
  unfold SP_HEADERSIZE in Hidx.
  destruct (ReceiveByte_cases indet m Hr ltac:(lia)) as [Hb|[Hu|(m' & Hrun & Hr' & Hi')]].
  - left. cbn [WaitForMessage_loop]. cbv zeta. by apply run_Blocked.
  - right. cbn [WaitForMessage_loop]. cbv zeta. by apply run_Undefined.
  - rewrite (WaitForMessage_loop_pass indet n _ m m' Hrun).
    rewrite (proj2 (Z.eqb_neq _ _)) by (unfold SP_HEADERSIZE; lia). cbn [negb].
    apply IH; [done|]. unfold SP_HEADERSIZE. lia.
Qed.

(** X3.  [ucCOMM_WaitForMessage] does not reset the receive index.
    Entered with the index at the header size or beyond, as a message
    refused by the receive loop or by the CRC test leaves it, it never
    returns: the length test is not reached again, and the loop waits for
    bytes until it stores one beyond the 64-byte array. *)
Theorem WaitForMessage_stale_index indet m :
  ready m → SP_HEADERSIZE <= g_ucRXBufferIndex m →
  ucCOMM_WaitForMessage indet m = Blocked ∨ ucCOMM_WaitForMessage indet m = Undefined.
Proof.
  intros Hr Hidx. unfold ucCOMM_WaitForMessage.
  destruct (WaitForMessage_loop_stale indet (S (Z.to_nat MAXMSGLEN)) m Hr Hidx) as [H|H].
  - left. by apply run_Blocked.
  - right. by apply run_Undefined.
Qed.

Lemma WaitForMessage_stale_index_witness :
  let m := set_RXBufferIndex 4 (listening (frames (replicate 61 0x55))) in
  ready m ∧ ucCOMM_WaitForMessage 0 m = Undefined.
Proof.
  intros m. assert (Hr : ready m) by (split; reflexivity). split; [exact Hr|].
  destruct (WaitForMessage_stale_index 0 m Hr ltac:(vm_compute; discriminate)) as [H|H];
    [|exact H].
  exfalso. revert H. vm_compute. discriminate.
Defined.

Lemma frames_cons b bs : frames (b :: bs) = frame b (even_parity b) ++ frames bs.
Proof. reflexivity. Qed.

(** The bytes after the header: the loop stores them one after the other
    and stops at the size. *)
Lemma WaitForMessage_loop_frames indet bytes : ∀ n m size rest,
  ready m → SP_HEADERSIZE <= g_ucRXBufferIndex m → bytes ≠ [] →
  g_ucRXBufferIndex m + Z.of_nat (length bytes) = size → size <= MAXMSGLEN →
  (length bytes ≤ n)%nat → Forall (λ x, 0 <= x < 256) bytes →
  P1IN m = frames bytes ++ rest →
  ∃ m', WaitForMessage_loop indet n size m = Returns (None, m') ∧ ready m' ∧
    g_ucRXBufferIndex m' = size ∧ P1IN m' = rest ∧
    g_ucaRXBuffer m' = take (Z.to_nat (g_ucRXBufferIndex m)) (g_ucaRXBuffer m) ++ bytes
                        ++ drop (Z.to_nat size) (g_ucaRXBuffer m) ∧
    tst (g_ucCOMM_Flags m') COMM_PARITY_ERR = tst (g_ucCOMM_Flags m) COMM_PARITY_ERR.
Proof.
  induction bytes as [|b bs IH]; intros n m size rest Hr Hidx Hne Hsize Hmax Hn Hb Hin;
    [done|].
  unfold SP_HEADERSIZE, MAXMSGLEN in *. cbn [length] in Hsize, Hn.
  apply Forall_cons in Hb as [Hb Hbs].
  rewrite frames_cons, <- app_assoc in Hin.
  destruct (ReceiveByte_frame_run indet m b _ (frames bs ++ rest) Hr
              ltac:(unfold MAXMSGLEN; lia) Hb Hin)
    as (m1 & Hrun & Hr1 & Hbuf1 & Hi1 & Hin1 & Hfl1 & _).
  rewrite eqb_reflx in Hfl1. cbn [negb orb] in Hfl1.
  destruct n as [|n]; [lia|].
  rewrite (WaitForMessage_loop_pass indet n _ m m1 Hrun).
  rewrite (proj2 (Z.eqb_neq _ SP_HEADERSIZE)) by (unfold SP_HEADERSIZE; lia).
  pose proof Hr as [_ Hlen].
  set (i := Z.to_nat (g_ucRXBufferIndex m)) in *.
  assert (Hi : (i < length (g_ucaRXBuffer m))%nat) by (unfold MAXMSGLEN in Hlen; lia).
  destruct bs as [|b' bs'].
  - cbn [length] in Hsize.
    rewrite (proj2 (Z.eqb_eq _ _)) by lia. cbn [negb].
    exists m1. split; [done|]. split; [done|]. split; [lia|]. split; [done|].
    split; [|done].
    rewrite Hbuf1, insert_take_drop by done. cbn [Datatypes.app].
    do 3 f_equal. unfold i. lia.
  - rewrite (proj2 (Z.eqb_neq _ _)) by (cbn [length] in Hsize; lia). cbn [negb].
    destruct (IH n m1 size rest Hr1 ltac:(unfold SP_HEADERSIZE; lia) ltac:(done)
                ltac:(lia) ltac:(unfold MAXMSGLEN; lia) ltac:(cbn [length] in *; lia)
                Hbs Hin1)
      as (m' & Hrun' & Hr' & Hi' & Hin' & Hbuf' & Hfl').
    exists m'. split; [done|]. split; [done|]. split; [done|]. split; [done|].
    split; [|by rewrite Hfl'].
    rewrite Hbuf', Hbuf1, Hi1.
    replace (Z.to_nat (g_ucRXBufferIndex m + 1)) with (S i) by (unfold i; lia).
    rewrite (take_S_r _ _ b) by (apply list_lookup_insert_eq; done).
    rewrite take_insert_ge by lia. rewrite <- app_assoc. cbn [Datatypes.app].
    do 2 f_equal. rewrite drop_insert_lt; [done|]. cbn [length] in Hsize. unfold i. lia.
Qed.

(** The four bytes of the header, from an index of 0. *)
Lemma WaitForMessage_loop_header_frames indet n m t L v f rest :
  ready m → g_ucRXBufferIndex m = 0 → Forall (λ x, 0 <= x < 256) [t; L; v; f] →
  P1IN m = frames [t; L; v; f] ++ rest →
  ∃ m4, ready m4 ∧ g_ucRXBufferIndex m4 = SP_HEADERSIZE ∧ P1IN m4 = rest ∧
    g_ucaRXBuffer m4 = [t; L; v; f] ++ drop 4 (g_ucaRXBuffer m) ∧
    tst (g_ucCOMM_Flags m4) COMM_PARITY_ERR = tst (g_ucCOMM_Flags m) COMM_PARITY_ERR ∧
    WaitForMessage_loop indet (S (S (S (S n)))) SP_HEADERSIZE m =
      let size := u8 (L + CRC_SZ) in
      if (size >? MAXMSGLEN) || (size <? SP_HEADERSIZE)
      then Returns (Some COMM_ERROR, m4)
      else if negb (SP_HEADERSIZE =? size)
           then WaitForMessage_loop indet n size m4
           else Returns (None, m4).
Proof.
  intros Hr Hidx Hb Hin.
  apply Forall_cons in Hb as [Ht Hb]. apply Forall_cons in Hb as [HL Hb].
  apply Forall_cons in Hb as [Hv Hb]. apply Forall_cons in Hb as [Hf _].
  rewrite !frames_cons, <- !app_assoc in Hin.
  destruct (ReceiveByte_frame_run indet m t _ _ Hr ltac:(rewrite Hidx; done) Ht Hin)
    as (m1 & Hrun1 & Hr1 & Hbuf1 & Hi1 & Hin1 & Hfl1 & _).
  rewrite Hidx in Hi1, Hbuf1.
  destruct (ReceiveByte_frame_run indet m1 L _ _ Hr1 ltac:(rewrite Hi1; done) HL Hin1)
    as (m2 & Hrun2 & Hr2 & Hbuf2 & Hi2 & Hin2 & Hfl2 & _).
  rewrite Hi1 in Hi2, Hbuf2.
  destruct (ReceiveByte_frame_run indet m2 v _ _ Hr2 ltac:(rewrite Hi2; done) Hv Hin2)
    as (m3 & Hrun3 & Hr3 & Hbuf3 & Hi3 & Hin3 & Hfl3 & _).
  rewrite Hi2 in Hi3, Hbuf3.
  destruct (ReceiveByte_frame_run indet m3 f _ _ Hr3 ltac:(rewrite Hi3; done) Hf Hin3)
    as (m4 & Hrun4 & Hr4 & Hbuf4 & Hi4 & Hin4 & Hfl4 & _).
  rewrite Hi3 in Hi4, Hbuf4.
  rewrite eqb_reflx in Hfl1, Hfl2, Hfl3, Hfl4. cbn [negb orb] in Hfl1, Hfl2, Hfl3, Hfl4.
  assert (Hbuf : g_ucaRXBuffer m4 = [t; L; v; f] ++ drop 4 (g_ucaRXBuffer m)).
  { rewrite Hbuf4, Hbuf3, Hbuf2, Hbuf1. destruct Hr as [_ Hlen].
    destruct (g_ucaRXBuffer m) as [|x0 [|x1 [|x2 [|x3 b]]]]; try discriminate Hlen.
    reflexivity. }
  exists m4. split; [done|]. split; [by rewrite Hi4|]. split; [done|]. split; [done|].
  split; [by rewrite Hfl4, Hfl3, Hfl2, Hfl1|].
  rewrite (WaitForMessage_loop_pass indet _ _ m m1 Hrun1), Hi1. cbn [Z.eqb Z.add negb Pos.eqb].
  rewrite (WaitForMessage_loop_pass indet _ _ m1 m2 Hrun2), Hi2. cbn [Z.eqb Z.add negb Pos.eqb].
  rewrite (WaitForMessage_loop_pass indet _ _ m2 m3 Hrun3), Hi3. cbn [Z.eqb Z.add negb Pos.eqb].
  rewrite (WaitForMessage_loop_pass indet _ _ m3 m4 Hrun4), Hi4.
  cbn [Z.eqb Z.add negb Pos.eqb Pos.add Pos.succ].
  rewrite Hbuf. reflexivity.
Qed.

Lemma header_then_body (h body buf : list Z) (n : nat) :
  length h = 4%nat → (4 ≤ n)%nat →
  take (Z.to_nat 4) (h ++ drop 4 buf) ++ body ++ drop n (h ++ drop 4 buf)
  = (h ++ body) ++ drop n buf.
Proof.
  intros Hh Hn. change (Z.to_nat 4) with 4%nat.
  rewrite take_app_length' by done.
  rewrite drop_app_ge by lia. rewrite drop_drop, Hh, <- app_assoc.
  do 3 f_equal. lia.
Qed.

(** A whole message received from an index of 0. *)
Lemma WaitForMessage_frames_run indet m t L v f body rest :
  ready m → g_ucRXBufferIndex m = 0 →
  2 <= L <= 62 → length body = Z.to_nat (L - 2) →
  Forall (λ x, 0 <= x < 256) (t :: L :: v :: f :: body) →
  P1IN m = frames (t :: L :: v :: f :: body) ++ rest →
  ∃ m', ucCOMM_WaitForMessage indet m = Returns (0, m') ∧
    g_ucaRXBuffer m' = (t :: L :: v :: f :: body)
                        ++ drop (Z.to_nat (L + 2)) (g_ucaRXBuffer m) ∧
    g_ucRXBufferIndex m' = L + 2 ∧ P1IN m' = rest ∧
    tst (g_ucCOMM_Flags m') COMM_PARITY_ERR = tst (g_ucCOMM_Flags m) COMM_PARITY_ERR.
Proof.
  intros Hr Hidx HL Hbody Hb Hin.
  assert (Hh : Forall (λ x, 0 <= x < 256) [t; L; v; f]).
  { repeat (apply Forall_cons in Hb as [? Hb]). repeat (apply Forall_cons; split; [done|]).
    apply Forall_nil_2. }
  assert (Hbb : Forall (λ x, 0 <= x < 256) body).
  { by repeat (apply Forall_cons in Hb as [_ Hb]). }
  change (t :: L :: v :: f :: body) with ([t; L; v; f] ++ body) in Hin.
  unfold frames in Hin. rewrite flat_map_app in Hin. fold (frames [t; L; v; f]) in Hin.
  fold (frames body) in Hin. rewrite <- app_assoc in Hin.
  destruct (WaitForMessage_loop_header_frames indet 61 m t L v f _ Hr Hidx Hh Hin)
    as (m4 & Hr4 & Hi4 & Hin4 & Hbuf4 & Hfl4 & Hrun4).
  cbv zeta in Hrun4.
  unfold ucCOMM_WaitForMessage.
  change (S (Z.to_nat MAXMSGLEN)) with (S (S (S (S 61)))).
  unfold u8, CRC_SZ, MAXMSGLEN, SP_HEADERSIZE in *.
  assert (Hsz : (L + 2) mod 256 = L + 2) by (apply Z.mod_small; lia).
  rewrite Hsz in Hrun4.
  replace ((L + 2 >? 64) || (L + 2 <? 4)) with false in Hrun4
    by (rewrite Z.gtb_ltb;
        destruct (Z.ltb_spec 64 (L + 2)), (Z.ltb_spec (L + 2) 4); simpl; try done; lia).
  destruct body as [|b body'].
  - cbn [length] in Hbody. assert (L = 2) as -> by lia.
    change (negb (4 =? 2 + 2)) with false in Hrun4. cbv iota in Hrun4.
    exists m4. erewrite run_Returns by exact Hrun4. cbv beta iota.
    rewrite run_gets, Hi4. clear Hrun4.
    split; [reflexivity|].
    split; [by rewrite Hbuf4|]. split; [done|]. split; [|done].
    rewrite Hin4. done.
  - cbn [length] in Hbody.
    replace (negb (4 =? L + 2)) with true in Hrun4
      by (symmetry; apply negb_true_iff, Z.eqb_neq; lia).
    cbv iota in Hrun4.
    destruct (WaitForMessage_loop_frames indet (b :: body') 61 m4 (L + 2) rest Hr4
                ltac:(unfold SP_HEADERSIZE; lia) ltac:(done)
                ltac:(rewrite Hi4; cbn [length]; lia) ltac:(unfold MAXMSGLEN; lia)
                ltac:(cbn [length]; lia) Hbb Hin4)
      as (m' & Hrun' & Hr' & Hi' & Hin' & Hbuf' & Hfl').
    rewrite Hrun' in Hrun4.
    exists m'. erewrite run_Returns by exact Hrun4. cbv beta iota.
    rewrite run_gets, Hi'. clear Hrun4 Hrun'.
    replace (L + 2 =? 0) with false by (symmetry; apply Z.eqb_neq; lia).
    split; [reflexivity|]. split; [|split; [done|split; [done|by rewrite Hfl']]].
    rewrite Hbuf', Hi4, Hbuf4.
    apply (header_then_body [t; L; v; f] (b :: body')); [done|lia].
Qed.

(** X4.  A message of declared length [L] between 2 and 62 that arrives
    in full, [L + 2] bytes with correct parity, into an empty receive
    array: [ucCOMM_WaitForMessage] returns 0 with the bytes at the start
    of the array in the order sent, the index behind them, nothing read
    of what follows on the line, and no parity error raised. *)
Theorem WaitForMessage_stores_message indet m t L v f body rest :
  ready m → g_ucRXBufferIndex m = 0 →
  2 <= L <= 62 → length body = Z.to_nat (L - 2) →
  Forall (λ x, 0 <= x < 256) (t :: L :: v :: f :: body) →
  P1IN m = frames (t :: L :: v :: f :: body) ++ rest →
  ∃ m', ucCOMM_WaitForMessage indet m = Returns (0, m') ∧
    g_ucaRXBuffer m' = (t :: L :: v :: f :: body)
                        ++ drop (Z.to_nat (L + 2)) (g_ucaRXBuffer m) ∧
    g_ucRXBufferIndex m' = L + 2 ∧ P1IN m' = rest ∧
    tst (g_ucCOMM_Flags m') COMM_PARITY_ERR = tst (g_ucCOMM_Flags m) COMM_PARITY_ERR.
Proof.
  intros Hr Hidx HL Hbody Hb Hin.
  destruct (WaitForMessage_frames_run indet m t L v f body rest Hr Hidx HL Hbody Hb Hin)
    as (m' & Hrun & Hbuf & Hi & Hin' & Hfl).
  exists m'. repeat split; assumption.
Qed.

Lemma WaitForMessage_stores_message_witness :
  let msg := [COMMAND_PKT; 6; 120; 0; 0xAA; 0xBB; 0x12; 0x34] in
  let m := listening (frames msg) in
  ready m ∧ ∃ m', ucCOMM_WaitForMessage 0 m = Returns (0, m') ∧
    g_ucaRXBuffer m' = msg ++ replicate 56 0xFF ∧ g_ucRXBufferIndex m' = 8.
Proof.
  intros msg m. assert (Hr : ready m) by (split; reflexivity). split; [exact Hr|].
  destruct (WaitForMessage_stores_message 0 m COMMAND_PKT 6 120 0 [0xAA; 0xBB; 0x12; 0x34] []
              Hr ltac:(reflexivity) ltac:(lia) ltac:(reflexivity)
              ltac:(repeat (apply Forall_cons; split; [unfold COMMAND_PKT; lia|]);
                    apply Forall_nil_2)
              ltac:(symmetry; apply app_nil_r))
    as (m' & Hrun & Hbuf & Hi & _).
  exists m'. split; [exact Hrun|]. split; [exact Hbuf|exact Hi].
Defined.

(** *** Grabbing and sending whole messages *)

(** The success path of the grab. *)
Lemma Grab_success_run `{CRC16} pucBuff m len ok buf' :
  SP_HEADERSIZE <= g_ucRXBufferIndex m →
  g_ucaRXBuffer m !! 1%nat = Some len → 0 <= len <= MAXMSGLEN →
  ucCRC16_compute_msg_CRC CRC_FOR_MSG_TO_REC (g_ucaRXBuffer m) (u8 (len + CRC_SZ))
  = Some (ok, buf') →
  ok ≠ 0 →
  (Z.to_nat len ≤ length buf')%nat → (Z.to_nat len ≤ length pucBuff)%nat →
  ucCOMM_GrabMessageFromBuffer pucBuff m
  = Returns ((COMM_OK, take (Z.to_nat len) buf' ++ drop (Z.to_nat len) pucBuff),
             set_RXBufferIndex 0 (set_RXBuffer buf' m)).
Proof.
  intros Hidx Hlen Hrange Hcrc Hok Hsrc Hdst.
  rewrite Grab_paths. cbv zeta.
  rewrite (proj2 (Z.ltb_ge _ _) Hidx).
  change MSG_LEN_IDX with (Z.of_nat 1). rewrite rd_lookup, Hlen.
  rewrite Z.gtb_ltb, (proj2 (Z.ltb_ge _ _)) by lia.
  rewrite Hcrc, (proj2 (Z.eqb_neq _ _) Hok).
  rewrite (Grab_copy_spec (Z.to_nat len) buf' pucBuff 0) by lia.
  rewrite decide_True by lia.
  change (take 0 pucBuff) with (@nil Z). by rewrite drop_0.
Qed.

(** X5.  The success path of [ucCOMM_GrabMessageFromBuffer]: with the
    header received, a declared length of at most 64 and the CRC routine
    content, it returns [COMM_OK], has copied the declared number of
    bytes, trailer left out, to the start of the destination with the
    rest of the destination as it was, and has put the receive index back
    to 0. *)
Theorem Grab_copies_message `{CRC16} pucBuff m len ok buf' :
  SP_HEADERSIZE <= g_ucRXBufferIndex m →
  g_ucaRXBuffer m !! 1%nat = Some len → 0 <= len <= MAXMSGLEN →
  ucCRC16_compute_msg_CRC CRC_FOR_MSG_TO_REC (g_ucaRXBuffer m) (u8 (len + CRC_SZ))
  = Some (ok, buf') →
  ok ≠ 0 →
  (Z.to_nat len ≤ length buf')%nat → (Z.to_nat len ≤ length pucBuff)%nat →
  ucCOMM_GrabMessageFromBuffer pucBuff m
  = Returns ((COMM_OK, take (Z.to_nat len) buf' ++ drop (Z.to_nat len) pucBuff),
             set_RXBufferIndex 0 (set_RXBuffer buf' m)).
Proof.
  intros Hidx Hlen Hrange Hcrc Hok Hsrc Hdst.
  by rewrite (Grab_success_run pucBuff m len ok buf').
Qed.

Lemma Grab_copies_message_witness :
  let buf := [COMMAND_PKT; 6; 120; 0; 0xAA; 0xBB; 0xA5; 0x86] ++ replicate 56 0xFF in
  let m := set_RXBufferIndex 8 (set_RXBuffer buf (listening [])) in
  ucCRC16_compute_msg_CRC (CRC16 := CRC.ccitt) CRC_FOR_MSG_TO_REC (g_ucaRXBuffer m) 8
  = Some (1, buf) ∧
  ucCOMM_GrabMessageFromBuffer (H := CRC.ccitt) (replicate 64 0) m
  = Returns ((COMM_OK, [COMMAND_PKT; 6; 120; 0; 0xAA; 0xBB] ++ replicate 58 0),
             set_RXBufferIndex 0 m).
Proof.
  intros buf m.
  assert (Hcrc : ucCRC16_compute_msg_CRC (CRC16 := CRC.ccitt) CRC_FOR_MSG_TO_REC
                   (g_ucaRXBuffer m) (u8 (6 + CRC_SZ)) = Some (1, buf))
    by (vm_compute; reflexivity).
  split; [exact Hcrc|].
  exact (Grab_copies_message (H := CRC.ccitt) (replicate 64 0) m 6 1 buf
           ltac:(vm_compute; discriminate) ltac:(reflexivity)
           ltac:(vm_compute; split; discriminate) Hcrc ltac:(discriminate)
           ltac:(vm_compute; lia) ltac:(vm_compute; lia)).
Defined.

(** The loop of [vCOMM_SendMessage] when every byte is taken. *)
Lemma SendMessage_loop_reliable k : ∀ n buff (p : nat) i e len h,
  0 <= i → i + Z.of_nat k = len → len < 256 → (k < n)%nat →
  (p + k ≤ length buff)%nat →
  SendMessage_loop scripted_send n buff (Z.of_nat p) i e len (Script [] h)
  = Returns (tt, Script [] (h ++ take k (drop p buff))).
Proof.
  induction k as [|k IH]; intros n buff p i e len h Hi Hlen Hmax Hn Hp;
    (destruct n as [|n]; [lia|]); cbn [SendMessage_loop].
  - rewrite (proj2 (Z.ltb_ge _ _)) by lia. cbn [negb].
    change (take 0 (drop p buff)) with (@nil Z). by rewrite app_nil_r.
  - rewrite (proj2 (Z.ltb_lt _ _)) by lia. cbn [negb].
    destruct (buff !! p) as [b|] eqn:Eb; [|apply lookup_ge_None in Eb; lia].
    erewrite run_load by (rewrite rd_lookup; exact Eb).
    erewrite run_Returns by reflexivity. cbv beta zeta.
    change (negb (COMM_OK =? COMM_OK)) with false. cbv iota.
    rewrite (u8_small (i + 1)) by lia.
    replace (Z.of_nat p + 1) with (Z.of_nat (S p)) by lia.
    rewrite (IH n buff (S p)) by lia.
    rewrite (drop_S buff b p Eb). cbn [take]. by rewrite <- app_assoc.
Qed.

Lemma SendMessage_reliable_run `{CRC16} pBuff L r buff' h :
  0 <= L → L + CRC_SZ < 256 →
  ucCRC16_compute_msg_CRC CRC_FOR_MSG_TO_SEND pBuff (u8 (L + CRC_SZ)) = Some (r, buff') →
  (Z.to_nat (L + CRC_SZ) ≤ length buff')%nat →
  vCOMM_SendMessage_over scripted_send pBuff L (Script [] h)
  = Returns (buff', Script [] (h ++ take (Z.to_nat (L + CRC_SZ)) buff')).
Proof.
  intros HL Hmax Hcrc Hlen. unfold vCOMM_SendMessage_over. cbv zeta.
  unfold CRC_SZ in *. rewrite u8_small in * by lia.
  erewrite run_Returns by (unfold call_CRC; by rewrite Hcrc). cbv beta iota.
  erewrite run_Returns.
  2:{ apply (SendMessage_loop_reliable (Z.to_nat (L + 2)) _ buff' 0%nat); lia. }
  by rewrite drop_0.
Qed.

(** X6.  With a byte sender that takes every byte,
    [vCOMM_SendMessage] hands it the [ucLength] bytes of the message and
    then the two trailer bytes the CRC routine has written behind them,
    each once and in order, and nothing else. *)
Theorem SendMessage_hands_message_and_trailer `{CRC16} pBuff L r buff' :
  0 <= L → L + CRC_SZ < 256 →
  ucCRC16_compute_msg_CRC CRC_FOR_MSG_TO_SEND pBuff (u8 (L + CRC_SZ)) = Some (r, buff') →
  (Z.to_nat (L + CRC_SZ) ≤ length buff')%nat →
  ∃ s', vCOMM_SendMessage_over scripted_send pBuff L (Script [] []) = Returns (buff', s')
    ∧ handed s' = take (Z.to_nat L) buff' ++ take 2 (drop (Z.to_nat L) buff')
    ∧ length (handed s') = Z.to_nat (L + CRC_SZ).
Proof.
  intros HL Hmax Hcrc Hlen.
  rewrite (SendMessage_reliable_run pBuff L r buff' []) by done.
  eexists. split; [reflexivity|]. cbn [handed Datatypes.app]. unfold CRC_SZ in *. split.
  - rewrite take_take_drop. f_equal. lia.
  - rewrite length_take. lia.
Qed.

Lemma SendMessage_hands_message_and_trailer_witness :
  ∃ s', vCOMM_SendMessage_over (H := CRC.ccitt) scripted_send trial 6 (Script [] [])
        = Returns (take 6 trial ++ [0xED; 0x64] ++ replicate 56 0, s')
    ∧ handed s' = [REPORT_ERROR; 6; 120; 0; 0xAA; 0xBB; 0xED; 0x64].
Proof.
  destruct (SendMessage_hands_message_and_trailer (H := CRC.ccitt) trial 6 1
              (take 6 trial ++ [0xED; 0x64] ++ replicate 56 0)
              ltac:(lia) ltac:(vm_compute; reflexivity) ltac:(vm_compute; reflexivity)
              ltac:(vm_compute; lia))
    as (s' & Hrun & Hh & _).
  exists s'. split; [exact Hrun|exact Hh].
Defined.

(** *** From one node to the other *)

(** X7.  A message sent by one node is taken by the other, for any CRC
    routine that accepts what it has signed.  Let the routine in send
    mode return on the sender's array and leave [L] in the length byte
    and bytes in the first [L + 2] places, and let it in receive mode
    accept every 64-byte array that starts with these [L + 2] bytes.
    Then the bytes [vCOMM_SendMessage] hands to a byte sender that takes
    them all, framed with correct parity and received by
    [ucCOMM_WaitForMessage] from an index of 0, make
    [ucCOMM_GrabMessageFromBuffer] return [COMM_OK] with the [L] message
    bytes of the sender's array. *)
Theorem message_round_trip `{CRC16} pBuff L r buff' dst mr rest indet :
  2 <= L <= 62 →
  ucCRC16_compute_msg_CRC CRC_FOR_MSG_TO_SEND pBuff (u8 (L + CRC_SZ)) = Some (r, buff') →
  (Z.to_nat (L + CRC_SZ) ≤ length buff')%nat →
  buff' !! 1%nat = Some L →
  Forall (λ x, 0 <= x < 256) (take (Z.to_nat (L + CRC_SZ)) buff') →
  (∀ buf, take (Z.to_nat (L + CRC_SZ)) buf = take (Z.to_nat (L + CRC_SZ)) buff' →
          length buf = Z.to_nat MAXMSGLEN →
          ∃ ok, ucCRC16_compute_msg_CRC CRC_FOR_MSG_TO_REC buf (u8 (L + CRC_SZ))
                = Some (ok, buf) ∧ ok ≠ 0) →
  ready mr → g_ucRXBufferIndex mr = 0 → (Z.to_nat L ≤ length dst)%nat →
  ∃ s',
    vCOMM_SendMessage_over scripted_send pBuff L (Script [] []) = Returns (buff', s') ∧
    (P1IN mr = frames (handed s') ++ rest →
     ∃ m1 m2,
       ucCOMM_WaitForMessage indet mr = Returns (0, m1) ∧
       ucCOMM_GrabMessageFromBuffer dst m1
       = Returns ((COMM_OK, take (Z.to_nat L) buff' ++ drop (Z.to_nat L) dst), m2) ∧
       g_ucRXBufferIndex m2 = 0 ∧ P1IN m2 = rest).
Proof.
  intros HL Hsend Hlen H1 Hb Hrec Hr Hidx Hdst.
  rewrite (SendMessage_reliable_run pBuff L r buff' [])
    by (first [lia | unfold CRC_SZ; lia | done]).
  eexists. split; [reflexivity|]. cbn [handed Datatypes.app].
  unfold CRC_SZ in *. set (n := Z.to_nat L) in *.
  set (wire := take (Z.to_nat (L + 2)) buff') in *.
  assert (Hl : length wire = (n + 2)%nat) by (unfold wire; rewrite length_take; lia).
  assert (H1' : wire !! 1%nat = Some L).
  { unfold wire. rewrite lookup_take_lt by lia. done. }
  destruct wire as [|t [|l' [|v [|f body]]]] eqn:E; cbn [length] in Hl; try lia.
  injection H1' as ->.
  intros Hin.
  destruct (WaitForMessage_frames_run indet mr t L v f body rest Hr Hidx HL
              ltac:(lia) Hb Hin)
    as (m1 & Hrun & Hbuf & Hi & Hin1 & _).
  pose proof Hr as [_ Hlen0]. unfold MAXMSGLEN in Hlen0.
  assert (Hlen1 : length (g_ucaRXBuffer m1) = 64%nat).
  { rewrite Hbuf, length_app, length_drop. cbn [length]. lia. }
  assert (Htake2 : take (Z.to_nat (L + 2)) (g_ucaRXBuffer m1) = t :: L :: v :: f :: body).
  { rewrite Hbuf. apply take_app_length'. cbn [length]. lia. }
  destruct (Hrec (g_ucaRXBuffer m1) Htake2 Hlen1) as (ok & Hcrc & Hok).
  assert (Htake : take n (g_ucaRXBuffer m1) = take n buff').
  { replace n with (n `min` Z.to_nat (L + 2))%nat by lia.
    rewrite <- !take_take. rewrite Htake2. fold (Z.to_nat (L + 2)).
    by rewrite <- E. }
  exists m1, (set_RXBufferIndex 0 (set_RXBuffer (g_ucaRXBuffer m1) m1)).
  split; [done|]. split; [|split; [done|by destruct m1]].
  rewrite (Grab_success_run dst m1 L ok (g_ucaRXBuffer m1)).
  - fold n. by rewrite Htake.
  - unfold SP_HEADERSIZE. lia.
  - by rewrite Hbuf.
  - unfold MAXMSGLEN. lia.
  - exact Hcrc.
  - done.
  - lia.
  - lia.
Qed.

Lemma message_round_trip_witness :
  let mr := listening (frames [REPORT_ERROR; 6; 120; 0; 0xAA; 0xBB; 0xED; 0x64]) in
  ready mr ∧ ∃ m1 m2,
    ucCOMM_WaitForMessage 0 mr = Returns (0, m1) ∧
    ucCOMM_GrabMessageFromBuffer (H := CRC.ccitt) (replicate 64 0) m1
    = Returns ((COMM_OK, take 6 trial ++ replicate 58 0), m2).
Proof.
  intros mr. assert (Hr : ready mr) by (split; reflexivity). split; [exact Hr|].
  set (signed := take 6 trial ++ [0xED; 0x64] ++ replicate 56 0).
  assert (Hrec : ∀ buf, take (Z.to_nat (6 + CRC_SZ)) buf = take (Z.to_nat (6 + CRC_SZ)) signed →
            length buf = Z.to_nat MAXMSGLEN →
            ∃ ok, ucCRC16_compute_msg_CRC (CRC16 := CRC.ccitt) CRC_FOR_MSG_TO_REC buf
                    (u8 (6 + CRC_SZ)) = Some (ok, buf) ∧ ok ≠ 0).
  { intros buf Hbuf Hlen. exists 1. split; [|discriminate].
    pose proof (CRCFacts.compute_receive 0x1021 0xFFFF buf 6 ltac:(lia)
                  ltac:(unfold CRC_SZ; rewrite Hlen; vm_compute; discriminate)) as Hc.
    assert (H6 : take 6 buf = take 6 trial).
    { change 6%nat with (6 `min` Z.to_nat (6 + CRC_SZ))%nat.
      rewrite <- take_take, Hbuf. reflexivity. }
    assert (Hhi : buf !! 6%nat = Some 0xED).
    { rewrite <- (lookup_take_lt buf (Z.to_nat (6 + CRC_SZ))) by (vm_compute; lia).
      rewrite Hbuf. reflexivity. }
    assert (Hlo : buf !! 7%nat = Some 0x64).
    { rewrite <- (lookup_take_lt buf (Z.to_nat (6 + CRC_SZ))) by (vm_compute; lia).
      rewrite Hbuf. reflexivity. }
    change (Z.to_nat 6) with 6%nat in Hc. rewrite H6 in Hc.
    rewrite bool_decide_eq_true_2 in Hc by (split; [exact Hhi|exact Hlo]).
    exact Hc. }
  destruct (message_round_trip (H := CRC.ccitt) trial 6 1 signed (replicate 64 0) mr [] 0
              ltac:(lia) ltac:(vm_compute; reflexivity) ltac:(vm_compute; lia)
              ltac:(reflexivity)
              ltac:(vm_compute; repeat constructor; try discriminate; reflexivity)
              Hrec Hr ltac:(reflexivity) ltac:(vm_compute; lia))
    as (s' & Hsend & Hrx).
  assert (Hh : handed s' = [REPORT_ERROR; 6; 120; 0; 0xAA; 0xBB; 0xED; 0x64]).
  { revert Hsend. vm_compute. intros [= <-]. reflexivity. }
  rewrite Hh in Hrx.
  destruct (Hrx ltac:(symmetry; apply app_nil_r)) as (m1 & m2 & Hw & Hg & _).
  exists m1, m2. split; [exact Hw|exact Hg].
Defined.

End LinkFacts.

(** ** More facts about the data report *)

Module FetchFacts.
Import Main Reports MainFacts.

Lemma payload_bound rs : ∀ i,
  Forall well_formed rs → (length (payload_from i rs) ≤ 6 * length rs)%nat.
Proof.
  induction rs as [|r rs IH]; intros i Hwf; [cbn; lia|].
  apply Forall_cons in Hwf as [Hr Hwf]. cbn [payload_from length].
  rewrite length_app. specialize (IH (i + 1) Hwf).
  destruct (tst (m_ucFlags r) F_NEWDATA); [|cbn [length]; lia].
  pose proof (group_length i r Hr) as Hg. destruct Hr as [_ Hl].
  unfold MAXDATALEN in Hl. lia.
Qed.

Lemma payload_none rs : ∀ i,
  Forall (λ r, tst (m_ucFlags r) F_NEWDATA = false) rs → payload_from i rs = [].
Proof.
  induction rs as [|r rs IH]; intros i Hall; [done|].
  apply Forall_cons in Hall as [Hr Hall]. cbn [payload_from].
  by rewrite Hr, IH.
Qed.

(** X8 (ucMain_FetchData): with the nine slots as declared and a buffer
    of at least 54 bytes, the fetch writes the groups of all flagged
    slots, lowest slot first, at the start of the buffer and leaves the
    rest of it alone; it returns the number of bytes written, at most 54,
    and changes no slot.  With no slot flagged it returns 0 and the
    buffer is as before. *)
Theorem FetchData_reports_flagged (pucBuff : list Z) (a : app) :
  Forall well_formed (S_Report a) →
  length (S_Report a) = Z.to_nat NUMDATGEN →
  (54 ≤ length pucBuff)%nat →
  let payload := payload_from 0 (S_Report a) in
  ucMain_FetchData pucBuff a
  = Returns ((Z.of_nat (length payload), payload ++ drop (length payload) pucBuff), a) ∧
  (length payload ≤ 54)%nat ∧
  (Forall (λ r, tst (m_ucFlags r) F_NEWDATA = false) (S_Report a) →
   ucMain_FetchData pucBuff a = Returns ((0, pucBuff), a)).
Proof.
  intros Hwf Hlen Hbuf payload.
  assert (Hbound : (length payload ≤ 54)%nat).
  { pose proof (payload_bound (S_Report a) 0 Hwf) as Hb. rewrite Hlen in Hb.
    change (Z.to_nat NUMDATGEN) with 9%nat in Hb. unfold payload. lia. }
  assert (Hrun : ucMain_FetchData pucBuff a
    = Returns ((Z.of_nat (length payload), payload ++ drop (length payload) pucBuff), a)).
  { rewrite FetchData_spec by (try done; fold payload; lia).
    fold payload. by rewrite u8_small by lia. }
  split; [exact Hrun|]. split; [exact Hbound|].
  intros Hnone. rewrite Hrun. unfold payload. by rewrite payload_none.
Qed.

Lemma FetchData_reports_flagged_witness :
  ucMain_FetchData (replicate 54 0xAA) two_flagged
  = Returns ((7, [2; 2; 0x11; 0x22; 5; 1; 0x33] ++ replicate 47 0xAA), two_flagged).
Proof.
  refine (proj1 (FetchData_reports_flagged (replicate 54 0xAA) two_flagged _ _ _)).
  - repeat (apply Forall_cons; split;
            [split; [reflexivity | vm_compute; split; discriminate]|]).
    apply Forall_nil_2.
  - reflexivity.
  - cbn. lia.
Defined.

(** X9 (uiMain_Test, ucMain_FetchData, vMain_CleanDataStruct): the test
    transducer puts the two bytes 0xBE, 0xEF into slot 0 and flags it,
    whatever the slot held; the fetch that follows starts with the group
    [0; 2; 0xBE; 0xEF] and goes on with the groups of the other flagged
    slots.  Right after [vMain_CleanDataStruct] these four bytes are all
    that is fetched. *)
Theorem Test_then_fetch (r0 : report) (rs : list report) (pucBuff : list Z) :
  Forall well_formed (r0 :: rs) → length (r0 :: rs) = Z.to_nat NUMDATGEN →
  (54 ≤ length pucBuff)%nat →
  let slot0 := Report (0xBE :: 0xEF :: drop 2 (m_ucaData r0)) 2 F_NEWDATA in
  let payload := [0; 2; 0xBE; 0xEF] ++ payload_from 1 rs in
  (uiMain_Test;; ucMain_FetchData pucBuff) (App (r0 :: rs))
  = Returns ((Z.of_nat (length payload), payload ++ drop (length payload) pucBuff),
             App (slot0 :: rs)) ∧
  (vMain_CleanDataStruct;; uiMain_Test;; ucMain_FetchData pucBuff) (App (r0 :: rs))
  = Returns ((4, [0; 2; 0xBE; 0xEF] ++ drop 4 pucBuff),
             App (Report [0xBE; 0xEF; 0; 0] 2 F_NEWDATA
                  :: replicate 8 (Report [0; 0; 0; 0] 0 0))).
Proof.
  intros Hwf Hlen Hbuf slot0 payload.
  apply Forall_cons in Hwf as [[Hd0 Hl0] Hwf].
  change (Z.to_nat MAXDATALEN) with 4%nat in Hd0.
  destruct (m_ucaData r0) as [|d0 [|d1 [|d2 [|d3 [|]]]]] eqn:Ed; try discriminate Hd0.
  assert (Htest : uiMain_Test (App (r0 :: rs)) = Returns (0, App (slot0 :: rs))).
  { unfold uiMain_Test. rewrite run_gets. cbn [S_Report].
    erewrite (run_slot (r0 :: rs) 0%nat r0) by reflexivity.
    rewrite Ed. erewrite run_store by reflexivity. erewrite run_store by reflexivity.
    rewrite run_modify. unfold slot0. rewrite ?Ed. reflexivity. }
  assert (Hwf' : Forall well_formed (slot0 :: rs)).
  { apply Forall_cons. split; [|done]. unfold slot0. rewrite ?Ed.
    split; [reflexivity|]. cbn [m_ucLength]. unfold MAXDATALEN. lia. }
  assert (Hpay : payload_from 0 (slot0 :: rs) = payload).
  { unfold payload, slot0. rewrite ?Ed. reflexivity. }
  pose proof (payload_bound (slot0 :: rs) 0 Hwf') as Hb.
  cbn [length] in Hlen, Hb. rewrite Hpay in Hb.
  change (Z.to_nat NUMDATGEN) with 9%nat in Hlen.
  split.
  - erewrite run_Returns by exact Htest.
    rewrite FetchData_spec; cbn [S_Report]; rewrite ?Hpay; try done; try lia.
    by rewrite u8_small by lia.
  - unfold vMain_CleanDataStruct. rewrite run_modify.
    change (Z.to_nat NUMDATGEN) with 9%nat. change (Z.to_nat MAXDATALEN) with 4%nat.
    cbn [replicate].
    assert (Hclean : uiMain_Test (App (Report [0; 0; 0; 0] 0 0
                                       :: replicate 8 (Report [0; 0; 0; 0] 0 0)))
              = Returns (0, App (Report [0xBE; 0xEF; 0; 0] 2 F_NEWDATA
                                 :: replicate 8 (Report [0; 0; 0; 0] 0 0))))
      by reflexivity.
    erewrite run_Returns by exact Hclean.
    rewrite FetchData_spec; cbn [S_Report].
    + reflexivity.
    + repeat (apply Forall_cons; split;
              [split; [reflexivity | vm_compute; split; discriminate]|]).
      apply Forall_nil_2.
    + reflexivity.
    + etrans; [|exact Hbuf]. vm_compute. lia.
Qed.

Lemma Test_then_fetch_witness :
  (uiMain_Test;; ucMain_FetchData (replicate 54 0xAA)) two_flagged
  = Returns ((11, [0; 2; 0xBE; 0xEF; 2; 2; 0x11; 0x22; 5; 1; 0x33] ++ replicate 43 0xAA),
             App (<[0%nat := Report [0xBE; 0xEF; 0; 0] 2 F_NEWDATA]> (S_Report two_flagged))).
Proof.
  refine (proj1 (Test_then_fetch (Report [0; 0; 0; 0] 0 0) (tail (S_Report two_flagged))
                   (replicate 54 0xAA) _ _ _)).
  - repeat (apply Forall_cons; split;
            [split; [reflexivity | vm_compute; split; discriminate]|]).
    apply Forall_nil_2.
  - reflexivity.
  - cbn. lia.
Defined.

End FetchFacts.

(** ** Facts about the transducer handlers *)

Module BoardFacts.
Import Main STM Reports Board MainFacts FetchFacts.

(** *** Running the slot operations *)

Lemma run_get_report {B} t i r (k : report → M app B) :
  0 <= i → t !! Z.to_nat i = Some r →
  (get_report i ≫= k) (App t) = k r (App t).
Proof.
  intros Hi Hr. unfold get_report.
  cbv beta iota delta [mbind M_bind gets slot S_Report].
  by rewrite (proj2 (Z.leb_le 0 i) Hi), Hr.
Qed.

Lemma run_put_report {B} t i r r' (k : unit → M app B) :
  0 <= i → t !! Z.to_nat i = Some r →
  (put_report i r' ≫= k) (App t) = k tt (App (<[Z.to_nat i := r']> t)).
Proof.
  intros Hi Hr. apply lookup_lt_Some in Hr. unfold put_report.
  cbv beta iota delta [mbind M_bind gets modify S_Report].
  by rewrite (proj2 (Z.leb_le 0 i) Hi), (proj2 (Z.ltb_lt _ _)) by lia.
Qed.

Lemma run_set_Length {B} t i r v (k : unit → M app B) :
  0 <= i → t !! Z.to_nat i = Some r →
  (set_Length i v ≫= k) (App t)
  = k tt (App (<[Z.to_nat i := Report (m_ucaData r) v (m_ucFlags r)]> t)).
Proof.
  intros Hi Hr. unfold set_Length.
  cbv beta iota delta [mbind M_bind get_report put_report gets modify slot S_Report].
  apply lookup_lt_Some in Hr as Hlt.
  by rewrite (proj2 (Z.leb_le 0 i) Hi), Hr, (proj2 (Z.ltb_lt _ _)) by lia.
Qed.

Lemma run_set_ReportFlags {B} t i r v (k : unit → M app B) :
  0 <= i → t !! Z.to_nat i = Some r →
  (set_ReportFlags i v ≫= k) (App t)
  = k tt (App (<[Z.to_nat i := Report (m_ucaData r) (m_ucLength r) v]> t)).
Proof.
  intros Hi Hr. unfold set_ReportFlags.
  cbv beta iota delta [mbind M_bind get_report put_report gets modify slot S_Report].
  apply lookup_lt_Some in Hr as Hlt.
  by rewrite (proj2 (Z.leb_le 0 i) Hi), Hr, (proj2 (Z.ltb_lt _ _)) by lia.
Qed.

Lemma run_dec_Length {B} t i r (k : unit → M app B) :
  0 <= i → t !! Z.to_nat i = Some r →
  (dec_Length i ≫= k) (App t)
  = k tt (App (<[Z.to_nat i := Report (m_ucaData r) (u8 (m_ucLength r - 1)) (m_ucFlags r)]> t)).
Proof.
  intros Hi Hr. unfold dec_Length. rewrite run_assoc.
  erewrite run_get_report by done. by erewrite run_set_Length by done.
Qed.

Lemma run_set_Data {B} t i r j v (k : unit → M app B) :
  0 <= i → t !! Z.to_nat i = Some r → 0 <= j < Z.of_nat (length (m_ucaData r)) →
  (set_Data i j v ≫= k) (App t)
  = k tt (App (<[Z.to_nat i := Report (<[Z.to_nat j := v]> (m_ucaData r)) (m_ucLength r)
                                  (m_ucFlags r)]> t)).
Proof.
  intros Hi Hr Hj. unfold set_Data.
  cbv beta iota delta [mbind M_bind get_report put_report gets modify slot S_Report store].
  apply lookup_lt_Some in Hr as Hlt.
  rewrite (proj2 (Z.leb_le 0 i) Hi), Hr.
  replace (wr (m_ucaData r) j v) with (wr (m_ucaData r) (Z.of_nat (Z.to_nat j)) v)
    by (f_equal; lia).
  by rewrite wr_insert, (proj2 (Z.ltb_lt _ _)) by lia.
Qed.

Ltac slot_lookup :=
  rewrite ?Nat2Z.id;
  repeat first [ rewrite list_lookup_insert_eq by (rewrite ?length_insert; lia)
               | rewrite list_lookup_insert_ne by lia ];
  first [ eassumption | reflexivity ].

Ltac slot_side :=
  first [ lia | slot_lookup
        | (cbn [m_ucaData]; rewrite ?length_insert; cbn [length]; lia) ].

Ltac slot_step :=
  rewrite ?run_assoc;
  first [ erewrite run_set_Length by slot_side
        | erewrite run_dec_Length by slot_side
        | erewrite run_set_ReportFlags by slot_side
        | erewrite run_set_Data by slot_side
        | erewrite run_get_report by slot_side
        | rewrite run_ret ];
  cbn [m_ucaData m_ucLength m_ucFlags]; rewrite ?Nat2Z.id, ?list_insert_insert_eq.

(** The values branch: what it leaves in the two slots. *)
Lemma run_report_values {B} t (a b : nat) ra rb lSoil iT (k : unit → M app B) :
  a ≠ b → t !! a = Some ra → t !! b = Some rb →
  length (m_ucaData ra) = 4%nat → length (m_ucaData rb) = 4%nat →
  (STM_report_values (Z.of_nat a) (Z.of_nat b) lSoil iT ≫= k) (App t)
  = k tt (App (<[b := Report (temp_bytes iT ++ drop 2 (m_ucaData rb)) 2 (m_ucFlags rb)]>
                 (<[a := Report (soil_bytes lSoil) (soil_length lSoil) (m_ucFlags ra)]> t))).
Proof.
  intros Hab Ha Hb Hda Hdb.
  destruct ra as [da la fa], rb as [db lb fb]. cbn [m_ucaData m_ucFlags] in *.
  destruct da as [|a0 [|a1 [|a2 [|a3 [|]]]]]; try discriminate Hda.
  destruct db as [|b0 [|b1 [|b2 [|b3 [|]]]]]; try discriminate Hdb.
  assert (Hla : (a < length t)%nat) by (by eapply lookup_lt_Some).
  assert (Hlb : (b < length t)%nat) by (by eapply lookup_lt_Some).
  unfold STM_report_values, soil_bytes, soil_length, temp_bytes.
  change (Z.of_nat 0) with 0 in *.
  slot_step.
  destruct (Z.land (u32 lSoil) 0xFF800000 =? 0);
    [slot_step; destruct (Z.land lSoil 0x00FF8000 =? 0);
       [slot_step; destruct (Z.land lSoil 0x0000FF80 =? 0); slot_step|slot_step]
    |slot_step].
  all: slot_step; cbv zeta.
  all: repeat slot_step.
  all: reflexivity.
Qed.

(** *** Running a handler *)

Lemma insert_twice {A} (t : list A) a b x y x' y' :
  a ≠ b → <[b:=y']> (<[a:=x']> (<[b:=y]> (<[a:=x]> t))) = <[b:=y']> (<[a:=x']> t).
Proof.
  intros Hab. rewrite (list_insert_insert_ne (<[a:=x]> t) a b x' y) by done.
  by rewrite !list_insert_insert_eq.
Qed.

Lemma run_on_sensor {A B} (c : M stm A) (k : A → M board B) b a s :
  c (sensor b) = Returns (a, s) →
  (on_sensor c ≫= k) b = k a (Mk_board (reports b) (cSTM_Initialized b) s).
Proof. intros Hc. unfold mbind, M_bind, on_sensor. by rewrite Hc. Qed.

Lemma run_on_reports {A B} (c : M app A) (k : A → M board B) b a r :
  c (reports b) = Returns (a, r) →
  (on_reports c ≫= k) b = k a (Mk_board r (cSTM_Initialized b) (sensor b)).
Proof. intros Hc. unfold mbind, M_bind, on_reports. by rewrite Hc. Qed.

Lemma report_values_returns t (a b : nat) ra rb lSoil iT :
  a ≠ b → t !! a = Some ra → t !! b = Some rb →
  length (m_ucaData ra) = 4%nat → length (m_ucaData rb) = 4%nat →
  STM_report_values (Z.of_nat a) (Z.of_nat b) lSoil iT (App t)
  = Returns (tt, App (<[b := Report (temp_bytes iT ++ drop 2 (m_ucaData rb)) 2 (m_ucFlags rb)]>
                 (<[a := Report (soil_bytes lSoil) (soil_length lSoil) (m_ucFlags ra)]> t))).
Proof.
  intros. rewrite <- run_bind_ret. by erewrite run_report_values.
Qed.

Lemma report_error_returns t (a b : nat) ra rb code :
  a ≠ b → t !! a = Some ra → t !! b = Some rb →
  length (m_ucaData ra) = 4%nat → length (m_ucaData rb) = 4%nat →
  STM_report_error (Z.of_nat a) (Z.of_nat b) code (App t)
  = Returns (tt, App (<[b := Report (<[0%nat := u8 code]> (m_ucaData rb)) 1 (m_ucFlags rb)]>
                 (<[a := Report (<[0%nat := u8 code]> (m_ucaData ra)) 1 (m_ucFlags ra)]> t))).
Proof.
  intros Hab Ha Hb Hda Hdb. rewrite <- run_bind_ret.
  assert (Hla : (a < length t)%nat) by (by eapply lookup_lt_Some).
  assert (Hlb : (b < length t)%nat) by (by eapply lookup_lt_Some).
  unfold STM_report_error. repeat slot_step. reflexivity.
Qed.

Lemma flags_returns t (a b : nat) ra rb :
  a ≠ b → t !! a = Some ra → t !! b = Some rb →
  (set_ReportFlags (Z.of_nat a) F_NEWDATA;; set_ReportFlags (Z.of_nat b) F_NEWDATA) (App t)
  = Returns (tt, App (<[b := Report (m_ucaData rb) (m_ucLength rb) F_NEWDATA]>
                 (<[a := Report (m_ucaData ra) (m_ucLength ra) F_NEWDATA]> t))).
Proof.
  intros Hab Ha Hb. rewrite <- run_bind_ret.
  assert (Hla : (a < length t)%nat) by (by eapply lookup_lt_Some).
  assert (Hlb : (b < length t)%nat) by (by eapply lookup_lt_Some).
  repeat slot_step. reflexivity.
Qed.

(** A handler whose measurement returns: the two slots afterwards. *)
Lemma uiMain_STM_run drv c ucParam bd t ra rb s0 r s1 :
  1 <= c → reports bd = App t →
  t !! Z.to_nat (2 * c - 1) = Some ra → t !! Z.to_nat (2 * c) = Some rb →
  length (m_ucaData ra) = 4%nat → length (m_ucaData rb) = 4%nat →
  initialized drv bd = Returns (tt, s0) →
  cSTM_Measure drv c s0 = Returns (r, s1) →
  uiMain_STM drv c ucParam bd
  = Returns (0, Mk_board
                  (App (<[Z.to_nat (2 * c) := temp_slot drv (u8 r) s1 rb]>
                          (<[Z.to_nat (2 * c - 1) := soil_slot drv (u8 r) s1 ra]> t)))
                  (if cSTM_Initialized bd =? 0 then 1 else cSTM_Initialized bd) s1).
Proof.
  intros Hc Ht Ha Hb Hda Hdb Hinit Hmeas.
  destruct bd as [rep ini sen]. cbn [reports cSTM_Initialized sensor] in *. subst rep.
  unfold initialized in Hinit. cbn [cSTM_Initialized sensor] in Hinit.
  set (a := Z.to_nat (2 * c - 1)) in *. set (b := Z.to_nat (2 * c)) in *.
  assert (Hab : a ≠ b) by (unfold a, b; lia).
  assert (Hla : (a < length t)%nat) by (by eapply lookup_lt_Some).
  assert (Hlb : (b < length t)%nat) by (by eapply lookup_lt_Some).
  unfold uiMain_STM. cbv zeta.
  replace (2 * c - 1) with (Z.of_nat a) by (unfold a; lia).
  replace (2 * c) with (Z.of_nat b) by (unfold b; lia).
  rewrite run_gets. cbn [cSTM_Initialized].
  assert (Hpre : ∀ B (k : unit → M board B),
    ((if ini =? 0
      then on_sensor (vSTM_Initialize drv);; modify (λ b0, Mk_board (reports b0) 1 (sensor b0))
      else mret tt) ≫= k) (Mk_board (App t) ini sen)
    = k tt (Mk_board (App t) (if ini =? 0 then 1 else ini) s0)).
  { intros B k. destruct (ini =? 0).
    - rewrite run_assoc. erewrite run_on_sensor by exact Hinit.
      by rewrite run_modify.
    - injection Hinit as <-. by rewrite run_ret. }
  rewrite Hpre. clear Hpre.
  erewrite run_on_sensor by exact Hmeas. cbn [reports cSTM_Initialized sensor].
  unfold soil_slot, temp_slot, error_slot.
  destruct (u8 r =? 0); [|destruct (u8 r =? 1); [|destruct (u8 r =? 2)]].
  - rewrite run_assoc. erewrite run_on_sensor by reflexivity.
    rewrite run_assoc. erewrite run_on_sensor by reflexivity.
    cbn [reports cSTM_Initialized sensor].
    erewrite run_on_reports by (by eapply report_values_returns).
    cbn [reports cSTM_Initialized sensor].
    erewrite run_on_reports.
    2:{ cbn [reports]. eapply flags_returns; [done|slot_lookup..]. }
    cbn [m_ucaData m_ucLength m_ucFlags reports cSTM_Initialized sensor].
    unfold mret, M_ret. do 3 f_equal.
    by rewrite insert_twice.
  - erewrite run_on_reports by (by eapply report_error_returns).
    cbn [reports cSTM_Initialized sensor].
    erewrite run_on_reports.
    2:{ cbn [reports]. eapply flags_returns; [done|slot_lookup..]. }
    cbn [m_ucaData m_ucLength m_ucFlags reports cSTM_Initialized sensor].
    unfold mret, M_ret. do 3 f_equal.
    by rewrite insert_twice.
  - erewrite run_on_reports by (by eapply report_error_returns).
    cbn [reports cSTM_Initialized sensor].
    erewrite run_on_reports.
    2:{ cbn [reports]. eapply flags_returns; [done|slot_lookup..]. }
    cbn [m_ucaData m_ucLength m_ucFlags reports cSTM_Initialized sensor].
    unfold mret, M_ret. do 3 f_equal.
    by rewrite insert_twice.
  - rewrite run_ret.
    erewrite run_on_reports.
    2:{ cbn [reports]. eapply flags_returns; [done|slot_lookup..]. }
    cbn [m_ucaData m_ucLength m_ucFlags reports cSTM_Initialized sensor].
    reflexivity.
Qed.

(** *** The arithmetic of the soil value *)

(** Nine mask bits from bit [a] on are clear in a number below
    [2 ^ (a + 9)] exactly when the number is below [2 ^ a]. *)
Lemma mask_clear x a :
  0 <= a → 0 <= x < 2 ^ (a + 9) →
  Z.land x (Z.shiftl (Z.ones 9) a) = 0 → x < 2 ^ a.
Proof.
  intros Ha Hx Hm.
  apply (Z.bounded_iff_bits_nonneg a x); [lia..|].
  intros n Hn.
  destruct (Z.lt_ge_cases n (a + 9)) as [Hlt|Hge].
  - pose proof (f_equal (λ z, Z.testbit z n) Hm) as Hb. cbv beta in Hb.
    rewrite Z.land_spec, Z.shiftl_spec, Z.ones_spec_low, Z.bits_0 in Hb by lia.
    by rewrite andb_true_r in Hb.
  - by apply (Z.bounded_iff_bits_nonneg (a + 9) x); [lia..|].
Qed.

Lemma mask_set x a :
  0 <= a → 0 <= x < 2 ^ a → Z.land x (Z.shiftl (Z.ones 9) a) = 0.
Proof.
  intros Ha Hx. apply Z.bits_inj'. intros n Hn.
  rewrite Z.land_spec, Z.bits_0.
  destruct (Z.lt_ge_cases n a) as [Hlt|Hge].
  - by rewrite Z.shiftl_spec_low, andb_false_r.
  - rewrite (proj1 (Z.bounded_iff_bits_nonneg a x ltac:(lia) ltac:(lia))); [done|lia|lia].
Qed.

(** The length chosen for a soil value. *)
Lemma soil_length_cases v :
  -2147483648 <= v < 2147483648 →
  (soil_length v = 1 ∧ 0 <= v < 128) ∨
  (soil_length v = 2 ∧ 128 <= v < 32768) ∨
  (soil_length v = 3 ∧ 32768 <= v < 8388608) ∨
  (soil_length v = 4 ∧ (v < 0 ∨ 8388608 <= v)).
Proof.
  intros Hv. unfold soil_length.
  change 0xFF800000 with (Z.shiftl (Z.ones 9) 23).
  change 0x00FF8000 with (Z.shiftl (Z.ones 9) 15).
  change 0x0000FF80 with (Z.shiftl (Z.ones 9) 7).
  destruct (Z.eqb_spec (Z.land (u32 v) (Z.shiftl (Z.ones 9) 23)) 0) as [E1|E1].
  - assert (Hu : 0 <= u32 v < 2 ^ (23 + 9)) by (apply Z.mod_pos_bound; lia).
    apply mask_clear in E1; [|lia|done].
    assert (H23 : 0 <= v < 2 ^ 23).
    { unfold u32 in E1. destruct (Z.lt_ge_cases v 0) as [Hneg|Hpos].
      - rewrite <- (Z.mod_unique v 4294967296 (-1) (v + 4294967296)) in E1 by lia. lia.
      - rewrite Z.mod_small in E1 by lia. lia. }
    destruct (Z.eqb_spec (Z.land v (Z.shiftl (Z.ones 9) 15)) 0) as [E2|E2].
    + apply mask_clear in E2; [|lia|change (2 ^ (15 + 9)) with (2 * 2 ^ 23); lia].
      destruct (Z.eqb_spec (Z.land v (Z.shiftl (Z.ones 9) 7)) 0) as [E3|E3].
      * apply mask_clear in E3; [|lia|change (2 ^ (7 + 9)) with (2 * 2 ^ 15); lia].
        left. change (2 ^ 7) with 128 in E3. lia.
      * right; left. split; [done|]. change (2 ^ 15) with 32768 in E2.
        split; [|lia]. apply Z.nlt_ge. intros Hlt. apply E3, mask_set; [lia|].
        change (2 ^ 7) with 128. lia.
    + right; right; left. split; [done|]. change (2 ^ 23) with 8388608 in H23.
      split; [|lia]. apply Z.nlt_ge. intros Hlt. apply E2, mask_set; [lia|].
      change (2 ^ 15) with 32768. lia.
  - right; right; right. split; [done|].
    destruct (Z.lt_ge_cases v 0) as [Hneg|Hpos]; [by left|right].
    apply Z.nlt_ge. intros Hlt. apply E1, mask_set; [lia|].
    unfold u32. rewrite Z.mod_small by lia. change (2 ^ 23) with 8388608. lia.
Qed.

(** The stored bytes, read back over the stored length, are the value. *)
Lemma soil_bytes_read v :
  -2147483648 <= v < 2147483648 →
  be_signed (take (Z.to_nat (soil_length v)) (soil_bytes v)) = v.
Proof.
  intros Hv. unfold soil_bytes.
  destruct (soil_length_cases v Hv) as [[-> H]|[[-> H]|[[-> H]|[-> H]]]]; cbv zeta.
  all: change (Z.to_nat 1) with 1%nat; change (Z.to_nat 2) with 2%nat;
       change (Z.to_nat 3) with 3%nat; change (Z.to_nat 4) with 4%nat; cbn [take firstn].
  all: unfold be_signed, be_unsigned; cbn [fold_left length].
  all: change (8 * (4 - 1)) with 24; change (8 * (4 - 2)) with 16;
       change (8 * (4 - 3)) with 8; change (8 * (4 - 4)) with 0.
  all: rewrite Z.shiftl_mul_pow2 by lia; rewrite s32_small by lia.
  all: rewrite ?Z.shiftr_div_pow2 by lia; unfold u8.
  - change (8 * Z.of_nat 1 - 1) with 7. change (8 * Z.of_nat 1) with 8.
    change (2 ^ 24) with 16777216. change (2 ^ 7) with 128. change (2 ^ 8) with 256.
    replace (v * 16777216 / 16777216) with v by (symmetry; apply Z.div_mul; lia).
    rewrite (Z.mod_small v) by lia.
    destruct (Z.leb_spec 128 (0 * 256 + v)); lia.
  - change (8 * Z.of_nat 2 - 1) with 15. change (8 * Z.of_nat 2) with 16.
    change (2 ^ 24) with 16777216. change (2 ^ 16) with 65536. change (2 ^ 15) with 32768.
    destruct (Z.leb_spec 32768
                ((0 * 256 + v * 65536 / 16777216 mod 256) * 256 + v * 65536 / 65536 mod 256));
      Z.div_mod_to_equations; lia.
  - change (8 * Z.of_nat 3 - 1) with 23. change (8 * Z.of_nat 3) with 24.
    change (2 ^ 24) with 16777216. change (2 ^ 16) with 65536. change (2 ^ 8) with 256.
    change (2 ^ 23) with 8388608.
    match goal with |- (if ?a <=? ?b then _ else _) = _ => destruct (Z.leb_spec a b) end;
      Z.div_mod_to_equations; lia.
  - change (8 * Z.of_nat 4 - 1) with 31. change (8 * Z.of_nat 4) with 32.
    change (2 ^ 24) with 16777216. change (2 ^ 16) with 65536. change (2 ^ 8) with 256.
    change (2 ^ 0) with 1. change (2 ^ 31) with 2147483648. change (2 ^ 32) with 4294967296.
    rewrite Z.mul_1_r.
    match goal with |- (if ?a <=? ?b then _ else _) = _ => destruct (Z.leb_spec a b) end;
      Z.div_mod_to_equations; lia.
Qed.

Lemma temp_bytes_read t :
  -32768 <= t < 32768 → be_signed (temp_bytes t) = t.
Proof.
  intros Ht. unfold temp_bytes, be_signed, be_unsigned. cbn [fold_left length].
  rewrite Z.shiftr_div_pow2 by lia. unfold u8.
  change (8 * Z.of_nat 2 - 1) with 15. change (8 * Z.of_nat 2) with 16.
  change (2 ^ 8) with 256. change (2 ^ 16) with 65536. change (2 ^ 15) with 32768.
  match goal with |- (if ?a <=? ?b then _ else _) = _ => destruct (Z.leb_spec a b) end;
      Z.div_mod_to_equations; lia.
Qed.

(** *** The handlers *)

Lemma declared_slots t c :
  declared t → 1 <= c <= 4 →
  ∃ ra rb, t !! Z.to_nat (2 * c - 1) = Some ra ∧ t !! Z.to_nat (2 * c) = Some rb ∧
           length (m_ucaData ra) = 4%nat ∧ length (m_ucaData rb) = 4%nat.
Proof.
  intros [Hlen Hall] Hc. change (Z.to_nat NUMDATGEN) with 9%nat in Hlen.
  destruct (lookup_lt_is_Some_2 t (Z.to_nat (2 * c - 1))) as [ra Ha]; [lia|].
  destruct (lookup_lt_is_Some_2 t (Z.to_nat (2 * c))) as [rb Hb]; [lia|].
  exists ra, rb. repeat split; try done.
  - exact (proj1 (Forall_lookup _ _) Hall _ _ Ha).
  - exact (proj1 (Forall_lookup _ _) Hall _ _ Hb).
Qed.

Lemma soil_slot_flag drv x s r : m_ucFlags (soil_slot drv x s r) = F_NEWDATA.
Proof. unfold soil_slot, error_slot. by repeat case_match. Qed.

Lemma temp_slot_flag drv x s r : m_ucFlags (temp_slot drv x s r) = F_NEWDATA.
Proof. unfold temp_slot, error_slot. by repeat case_match. Qed.

Lemma soil_slot_data drv x s r :
  length (m_ucaData r) = 4%nat → length (m_ucaData (soil_slot drv x s r)) = 4%nat.
Proof.
  intros Hr. unfold soil_slot, error_slot.
  repeat case_match; cbn [m_ucaData]; by rewrite ?length_insert.
Qed.

Lemma temp_slot_data drv x s r :
  length (m_ucaData r) = 4%nat → length (m_ucaData (temp_slot drv x s r)) = 4%nat.
Proof.
  intros Hr. unfold temp_slot, error_slot, temp_bytes.
  repeat case_match; cbn [m_ucaData]; rewrite ?length_insert; try done.
  rewrite length_app, length_drop, Hr. done.
Qed.

(** What a successful measurement leaves in the two slots. *)
Lemma uiMain_STM_values drv c ucParam bd t s0 r s1 :
  1 <= c <= 4 → reports bd = App t → declared t →
  initialized drv bd = Returns (tt, s0) →
  cSTM_Measure drv c s0 = Returns (r, s1) → u8 r = 0 →
  ∃ t' sa sb,
    uiMain_STM drv c ucParam bd
    = Returns (0, Mk_board (App t')
                    (if cSTM_Initialized bd =? 0 then 1 else cSTM_Initialized bd) s1) ∧
    t' !! Z.to_nat (2 * c - 1) = Some sa ∧ t' !! Z.to_nat (2 * c) = Some sb ∧
    m_ucFlags sa = F_NEWDATA ∧ m_ucFlags sb = F_NEWDATA ∧
    1 <= m_ucLength sa <= 4 ∧
    be_signed (take (Z.to_nat (m_ucLength sa)) (m_ucaData sa)) = s32 (lSTM_Soil s1) ∧
    (0 <= s32 (lSTM_Soil s1) → 1 < m_ucLength sa →
     2 ^ (8 * (m_ucLength sa - 1) - 1) <= s32 (lSTM_Soil s1)) ∧
    m_ucLength sb = 2 ∧
    be_signed (take 2 (m_ucaData sb)) = s16 (nSTM_Temperature s1).
Proof.
  intros Hc Ht Hdecl Hinit Hmeas Hr.
  destruct (declared_slots t c Hdecl Hc) as (ra & rb & Ha & Hb & Hda & Hdb).
  pose proof (uiMain_STM_run drv c ucParam bd t ra rb s0 r s1
                ltac:(lia) Ht Ha Hb Hda Hdb Hinit Hmeas) as Hrun.
  apply lookup_lt_Some in Ha as Hla. apply lookup_lt_Some in Hb as Hlb.
  rewrite Hr in Hrun. unfold soil_slot, temp_slot in Hrun.
  change (0 =? 0) with true in Hrun. cbv iota in Hrun.
  pose proof (s32_range (lSTM_Soil s1)) as Hv.
  pose proof (s16_range (nSTM_Temperature s1)) as Hn.
  set (v := s32 (lSTM_Soil s1)) in *.
  eexists _, _, _. split; [exact Hrun|].
  split; [rewrite list_lookup_insert_ne by lia;
          apply list_lookup_insert_eq; lia|].
  split; [apply list_lookup_insert_eq; rewrite length_insert; lia|].
  cbn [m_ucFlags m_ucLength m_ucaData].
  split; [done|]. split; [done|].
  pose proof (soil_bytes_read v Hv) as Hread.
  destruct (soil_length_cases v Hv) as [[E H]|[[E H]|[[E H]|[E H]]]];
    rewrite E in *.
  all: split; [lia|]; split; [exact Hread|]; split; [|split; [done|]].
  all: try (intros Hpos Hlen;
            first [ lia
                  | change (2 ^ (8 * (2 - 1) - 1)) with 128; lia
                  | change (2 ^ (8 * (3 - 1) - 1)) with 32768; lia
                  | change (2 ^ (8 * (4 - 1) - 1)) with 8388608; lia ]).
  all: unfold temp_bytes; cbn [Datatypes.app take firstn];
       by apply temp_bytes_read.
Qed.

(** X10 (uiMain_STM1 .. uiMain_STM4, measurement result 0): the handler of
    channel [c] returns 0 and flags its two slots as new data.  The soil
    slot gets a length between 1 and 4 and, read back over that length
    as a big-endian two's complement number, holds the 32-bit soil value
    the sensor code left; for a value that is not negative the length is
    the shortest that does.  The temperature slot gets the length 2 and
    holds the 16-bit temperature in the same way. *)
Theorem uiMain_STM_value_round_trip drv c ucParam bd t s0 r s1 :
  1 <= c <= 4 → reports bd = App t → declared t →
  initialized drv bd = Returns (tt, s0) →
  cSTM_Measure drv c s0 = Returns (r, s1) → u8 r = 0 →
  ∃ t' sa sb,
    uiMain_STM drv c ucParam bd
    = Returns (0, Mk_board (App t')
                    (if cSTM_Initialized bd =? 0 then 1 else cSTM_Initialized bd) s1) ∧
    t' !! Z.to_nat (2 * c - 1) = Some sa ∧ t' !! Z.to_nat (2 * c) = Some sb ∧
    m_ucFlags sa = F_NEWDATA ∧ m_ucFlags sb = F_NEWDATA ∧
    1 <= m_ucLength sa <= 4 ∧
    be_signed (take (Z.to_nat (m_ucLength sa)) (m_ucaData sa)) = s32 (lSTM_Soil s1) ∧
    (0 <= s32 (lSTM_Soil s1) → 1 < m_ucLength sa →
     2 ^ (8 * (m_ucLength sa - 1) - 1) <= s32 (lSTM_Soil s1)) ∧
    m_ucLength sb = 2 ∧
    be_signed (take 2 (m_ucaData sb)) = s16 (nSTM_Temperature s1).
Proof.
  intros Hc Ht Hdecl Hinit Hmeas Hr.
  by apply (uiMain_STM_values drv c ucParam bd t s0 r s1).
Qed.

Lemma uiMain_STM_value_round_trip_witness :
  let bd := Mk_board clean 0 (Stm [] 0 0 0) in
  ∃ t' sa sb,
    uiMain_STM (stub 0 300 (-5)) 1 [] bd
    = Returns (0, Mk_board (App t') 1 (Stm [] 0 (-5) 300)) ∧
    t' !! 1%nat = Some sa ∧ t' !! 2%nat = Some sb ∧
    m_ucLength sa = 2 ∧ take 2 (m_ucaData sa) = [1; 44] ∧
    be_signed (take 2 (m_ucaData sa)) = 300 ∧
    be_signed (take 2 (m_ucaData sb)) = -5.
Proof.
  intros bd.
  destruct (uiMain_STM_value_round_trip (stub 0 300 (-5)) 1 [] bd
              (S_Report clean) (Stm [] 0 0 0) 0 (Stm [] 0 (-5) 300))
    as (t' & sa & sb & Hrun & Ha & Hb & _ & _ & _ & Hsoil & _ & _ & Htemp).
  - lia.
  - reflexivity.
  - split; [reflexivity|]. by repeat constructor.
  - reflexivity.
  - reflexivity.
  - reflexivity.
  - exists t', sa, sb.
    assert (Hrun' : uiMain_STM (stub 0 300 (-5)) 1 [] bd
              = Returns (0, Mk_board
                   (App (<[2%nat := Report [255; 251; 0; 0] 2 F_NEWDATA]>
                           (<[1%nat := Report [1; 44; 0; 0] 2 F_NEWDATA]> (S_Report clean))))
                   1 (Stm [] 0 (-5) 300))) by (vm_compute; reflexivity).
    rewrite Hrun' in Hrun. injection Hrun as <-.
    cbn in Ha, Hb. injection Ha as <-. injection Hb as <-.
    repeat split; try reflexivity.
Defined.

Lemma uiMainDispatch_run drv n len ucParam bd bd' :
  1 <= n <= 4 → uiMain_STM drv n ucParam bd = Returns (0, bd') →
  uiMainDispatch drv n len ucParam bd = Returns (0, bd').
Proof.
  intros Hn Hrun.
  unfold uiMainDispatch, uiMain_STM1, uiMain_STM2, uiMain_STM3, uiMain_STM4.
  assert (Hcases : n = 1 ∨ n = 2 ∨ n = 3 ∨ n = 4) by lia.
  destruct Hcases as [E|[E|[E|E]]]; subst n; cbn [Z.eqb Pos.eqb];
    (erewrite run_Returns by exact Hrun); reflexivity.
Qed.

(** X11 (uiMainDispatch, uiMain_STM1 .. uiMain_STM4): for a transducer
    number from 1 to 4 and whatever the measurement returns, the dispatch
    returns 0, flags the slots [2n - 1] and [2n] as new data, leaves every
    other slot as it was and the array with its declared shape, and
    afterwards [cSTM_Initialized] is not 0. *)
Theorem uiMainDispatch_touches_two_slots drv n len ucParam bd t s0 r s1 :
  1 <= n <= 4 → reports bd = App t → declared t →
  initialized drv bd = Returns (tt, s0) →
  cSTM_Measure drv n s0 = Returns (r, s1) →
  ∃ t' ini,
    uiMainDispatch drv n len ucParam bd = Returns (0, Mk_board (App t') ini s1) ∧
    ini ≠ 0 ∧ declared t' ∧
    (∀ j, j ≠ Z.to_nat (2 * n - 1) → j ≠ Z.to_nat (2 * n) → t' !! j = t !! j) ∧
    (∀ j sj, j = Z.to_nat (2 * n - 1) ∨ j = Z.to_nat (2 * n) →
             t' !! j = Some sj → m_ucFlags sj = F_NEWDATA).
Proof.
  intros Hn Ht Hdecl Hinit Hmeas.
  destruct (declared_slots t n Hdecl Hn) as (ra & rb & Ha & Hb & Hda & Hdb).
  pose proof (uiMain_STM_run drv n ucParam bd t ra rb s0 r s1
                ltac:(lia) Ht Ha Hb Hda Hdb Hinit Hmeas) as Hrun.
  apply lookup_lt_Some in Ha as Hla. apply lookup_lt_Some in Hb as Hlb.
  eexists _, _. split; [|split; [|split; [|split]]].
  - by apply uiMainDispatch_run.
  - destruct (Z.eqb_spec (cSTM_Initialized bd) 0); lia.
  - destruct Hdecl as [Hlen Hall]. split; [by rewrite !length_insert|].
    apply Forall_insert; [apply Forall_insert; [done|]|].
    + by apply soil_slot_data.
    + by apply temp_slot_data.
  - intros j Hj1 Hj2. by rewrite !list_lookup_insert_ne by done.
  - intros j sj [E|E] Hj; subst j.
    + rewrite list_lookup_insert_ne, list_lookup_insert_eq in Hj by lia.
      injection Hj as <-. apply soil_slot_flag.
    + rewrite list_lookup_insert_eq in Hj by (rewrite length_insert; lia).
      injection Hj as <-. apply temp_slot_flag.
Qed.

Lemma uiMainDispatch_touches_two_slots_witness :
  let bd := Mk_board clean 0 (Stm [] 0 0 0) in
  ∃ t' ini,
    uiMainDispatch (stub 2 0 0) 3 0 [] bd = Returns (0, Mk_board (App t') ini (Stm [] 0 0 0)) ∧
    ini ≠ 0 ∧ t' !! 4%nat = S_Report clean !! 4%nat ∧
    ∀ sj, t' !! 5%nat = Some sj → m_ucFlags sj = F_NEWDATA.
Proof.
  intros bd.
  destruct (uiMainDispatch_touches_two_slots (stub 2 0 0) 3 0 [] bd
              (S_Report clean) (Stm [] 0 0 0) 2 (Stm [] 0 0 0))
    as (t' & ini & Hrun & Hini & _ & Hframe & Hflags).
  - lia.
  - reflexivity.
  - split; [reflexivity|]. by repeat constructor.
  - reflexivity.
  - reflexivity.
  - exists t', ini. split; [exact Hrun|]. split; [exact Hini|].
    split; [apply Hframe; cbn; lia|].
    intros sj Hsj. apply (Hflags 5%nat sj); [by left|exact Hsj].
Defined.

(** X12 (uiMain_STM1 .. uiMain_STM4, measurement result not 0): after a
    result 1 both slots of the channel hold [STM_ERROR_CODE_1] as their
    one byte, after a result 2 [STM_ERROR_CODE_2]; after any other result
    the handler writes neither data nor length and still flags both
    slots as new data, so what they held before is reported again. *)
Theorem uiMain_STM_failure drv c ucParam bd t s0 r s1 ra rb :
  1 <= c <= 4 → reports bd = App t → declared t →
  t !! Z.to_nat (2 * c - 1) = Some ra → t !! Z.to_nat (2 * c) = Some rb →
  initialized drv bd = Returns (tt, s0) →
  cSTM_Measure drv c s0 = Returns (r, s1) → u8 r ≠ 0 →
  ∃ t' sa sb ini,
    uiMain_STM drv c ucParam bd = Returns (0, Mk_board (App t') ini s1) ∧
    t' !! Z.to_nat (2 * c - 1) = Some sa ∧ t' !! Z.to_nat (2 * c) = Some sb ∧
    (u8 r = 1 →
       sa = Report (<[0%nat := u8 (STM_ERROR_CODE_1 drv)]> (m_ucaData ra)) 1 F_NEWDATA ∧
       sb = Report (<[0%nat := u8 (STM_ERROR_CODE_1 drv)]> (m_ucaData rb)) 1 F_NEWDATA) ∧
    (u8 r = 2 →
       sa = Report (<[0%nat := u8 (STM_ERROR_CODE_2 drv)]> (m_ucaData ra)) 1 F_NEWDATA ∧
       sb = Report (<[0%nat := u8 (STM_ERROR_CODE_2 drv)]> (m_ucaData rb)) 1 F_NEWDATA) ∧
    (2 < u8 r →
       sa = Report (m_ucaData ra) (m_ucLength ra) F_NEWDATA ∧
       sb = Report (m_ucaData rb) (m_ucLength rb) F_NEWDATA).
Proof.
  intros Hc Ht Hdecl Ha Hb Hinit Hmeas Hr.
  destruct (declared_slots t c Hdecl Hc) as (ra' & rb' & Ha' & Hb' & Hda & Hdb).
  rewrite Ha in Ha'. rewrite Hb in Hb'. injection Ha' as <-. injection Hb' as <-.
  pose proof (uiMain_STM_run drv c ucParam bd t ra rb s0 r s1
                ltac:(lia) Ht Ha Hb Hda Hdb Hinit Hmeas) as Hrun.
  apply lookup_lt_Some in Ha as Hla. apply lookup_lt_Some in Hb as Hlb.
  eexists _, _, _, _. split; [exact Hrun|].
  split; [rewrite list_lookup_insert_ne by lia;
          apply list_lookup_insert_eq; lia|].
  split; [apply list_lookup_insert_eq; rewrite length_insert; lia|].
  unfold soil_slot, temp_slot, error_slot.
  destruct (Z.eqb_spec (u8 r) 0) as [E0|E0]; [done|].
  destruct (Z.eqb_spec (u8 r) 1) as [E1|E1];
    [|destruct (Z.eqb_spec (u8 r) 2) as [E2|E2]].
  all: repeat split; intros; first [done | lia].
Qed.

Lemma uiMain_STM_failure_witness :
  let bd := Mk_board clean 1 (Stm [] 0 0 0) in
  ∃ t' ini,
    uiMain_STM (stub 1 0 0) 2 [] bd = Returns (0, Mk_board (App t') ini (Stm [] 0 0 0)) ∧
    t' !! 3%nat = Some (Report [0x01; 0; 0; 0] 1 F_NEWDATA) ∧
    t' !! 4%nat = Some (Report [0x01; 0; 0; 0] 1 F_NEWDATA).
Proof.
  intros bd.
  destruct (uiMain_STM_failure (stub 1 0 0) 2 [] bd (S_Report clean)
              (Stm [] 0 0 0) 1 (Stm [] 0 0 0)
              (Report [0; 0; 0; 0] 0 0) (Report [0; 0; 0; 0] 0 0))
    as (t' & sa & sb & ini & Hrun & Ha & Hb & H1 & _).
  - lia.
  - reflexivity.
  - split; [reflexivity|]. by repeat constructor.
  - reflexivity.
  - reflexivity.
  - reflexivity.
  - reflexivity.
  - discriminate.
  - exists t', ini. destruct (H1 eq_refl) as [-> ->]. by repeat split.
Defined.

(** *** A measurement and the data report *)

Lemma payload_two t : ∀ i (a : nat) sa sb,
  Forall (λ r, tst (m_ucFlags r) F_NEWDATA = false) t →
  (S a < length t)%nat →
  tst (m_ucFlags sa) F_NEWDATA = true → tst (m_ucFlags sb) F_NEWDATA = true →
  payload_from i (<[S a := sb]> (<[a := sa]> t))
  = group (i + Z.of_nat a) sa ++ group (i + Z.of_nat a + 1) sb.
Proof.
  induction t as [|r t IH]; intros i a sa sb Hall Hlen Ha Hb; [cbn in Hlen; lia|].
  apply Forall_cons in Hall as [Hr Hall].
  destruct a as [|a].
  - destruct t as [|r' t]; [cbn in Hlen; lia|].
    apply Forall_cons in Hall as [Hr' Hall].
    cbn [insert list_insert payload_from]. rewrite Ha, Hb.
    rewrite payload_none by done.
    rewrite app_nil_r. by rewrite Z.add_0_r.
  - cbn [insert list_insert payload_from]. rewrite Hr. cbn [Datatypes.app].
    change (list_insert (S a) sb (list_insert a sa t))
      with (<[S a := sb]> (<[a := sa]> t)).
    rewrite IH by (try done; cbn in Hlen; lia).
    by replace (i + 1 + Z.of_nat a) with (i + Z.of_nat (S a)) by lia.
Qed.

(** The fetch when two neighbouring slots are flagged and no other. *)
Lemma FetchData_two_groups t (a : nat) sa sb pucBuff :
  length t = Z.to_nat NUMDATGEN → Forall well_formed t →
  Forall (λ r, tst (m_ucFlags r) F_NEWDATA = false) t →
  (S a < length t)%nat → well_formed sa → well_formed sb →
  tst (m_ucFlags sa) F_NEWDATA = true → tst (m_ucFlags sb) F_NEWDATA = true →
  let payload := group (Z.of_nat a) sa ++ group (Z.of_nat a + 1) sb in
  (length payload ≤ length pucBuff)%nat →
  ucMain_FetchData pucBuff (App (<[S a := sb]> (<[a := sa]> t)))
  = Returns ((Z.of_nat (length payload), payload ++ drop (length payload) pucBuff),
             App (<[S a := sb]> (<[a := sa]> t))).
Proof.
  intros Hlen Hwf Hun Ha Hsa Hsb Hfa Hfb payload Hbuf.
  assert (Hpay : payload_from 0 (<[S a := sb]> (<[a := sa]> t)) = payload).
  { rewrite payload_two by done. by rewrite Z.add_0_l. }
  assert (Hsmall : (length payload ≤ 12)%nat).
  { unfold payload. rewrite length_app.
    pose proof (group_length (Z.of_nat a) sa Hsa).
    pose proof (group_length (Z.of_nat a + 1) sb Hsb).
    destruct Hsa as [_ ?], Hsb as [_ ?]. unfold MAXDATALEN in *. lia. }
  rewrite FetchData_spec; cbn [S_Report].
  - rewrite Hpay. by rewrite u8_small by lia.
  - apply Forall_insert; [apply Forall_insert|]; done.
  - by rewrite !length_insert.
  - by rewrite Hpay.
Qed.

(** The two slots a successful measurement leaves, and their groups. *)
Lemma value_slots c v tv db :
  length db = 4%nat → -2147483648 <= v < 2147483648 →
  let n := soil_length v in
  let sa := Report (soil_bytes v) n F_NEWDATA in
  let sb := Report (temp_bytes tv ++ drop 2 db) 2 F_NEWDATA in
  well_formed sa ∧ well_formed sb ∧ 1 <= n <= 4 ∧
  group (2 * c - 1) sa ++ group (2 * c - 1 + 1) sb
  = [2 * c - 1; n] ++ take (Z.to_nat n) (soil_bytes v) ++ [2 * c; 2] ++ temp_bytes tv ∧
  length (group (2 * c - 1) sa ++ group (2 * c - 1 + 1) sb) = Z.to_nat (n + 6).
Proof.
  intros Hdb Hv n sa sb.
  assert (Hn : 1 <= n <= 4).
  { destruct (soil_length_cases v Hv) as [[E _]|[[E _]|[[E _]|[E _]]]];
      unfold n; rewrite E; lia. }
  assert (Hg : group (2 * c - 1) sa ++ group (2 * c - 1 + 1) sb
    = [2 * c - 1; n] ++ take (Z.to_nat n) (soil_bytes v) ++ [2 * c; 2] ++ temp_bytes tv).
  { unfold group, sa, sb. cbn [m_ucLength m_ucaData].
    replace (2 * c - 1 + 1) with (2 * c) by lia.
    cbn [Datatypes.app]. reflexivity. }
  split; [|split; [|split; [done|split; [done|]]]].
  - unfold sa. split; [reflexivity|]. cbn [m_ucLength]. unfold MAXDATALEN. lia.
  - unfold sb. split; [|cbn [m_ucLength]; unfold MAXDATALEN; lia].
    cbn [m_ucaData]. rewrite length_app, length_drop, Hdb. reflexivity.
  - rewrite Hg. cbn [Datatypes.app length]. rewrite length_app, length_take.
    cbn [soil_bytes temp_bytes length]. lia.
Qed.

(** X13 (uiMain_STM1 .. uiMain_STM4 followed by ucMain_FetchData): with
    no slot flagged before, a successful measurement on channel [c]
    followed by the fetch puts two groups into the buffer, [2c - 1], the
    soil length [n] and the first [n] soil bytes, then [2c], 2 and the
    two temperature bytes, leaves the rest of the buffer as it was and
    returns [n + 6]. *)
Theorem measure_then_fetch drv c ucParam bd t s0 r s1 pucBuff :
  1 <= c <= 4 → reports bd = App t →
  length t = Z.to_nat NUMDATGEN → Forall well_formed t →
  Forall (λ r, tst (m_ucFlags r) F_NEWDATA = false) t →
  initialized drv bd = Returns (tt, s0) →
  cSTM_Measure drv c s0 = Returns (r, s1) → u8 r = 0 →
  (10 ≤ length pucBuff)%nat →
  let v := s32 (lSTM_Soil s1) in
  let n := soil_length v in
  ∃ bd',
    (uiMain_STM drv c ucParam;; on_reports (ucMain_FetchData pucBuff)) bd
    = Returns ((n + 6,
                [2 * c - 1; n] ++ take (Z.to_nat n) (soil_bytes v)
                ++ [2 * c; 2] ++ temp_bytes (s16 (nSTM_Temperature s1))
                ++ drop (Z.to_nat (n + 6)) pucBuff), bd') ∧
    1 <= n <= 4.
Proof.
  intros Hc Ht Hlen Hwf Hun Hinit Hmeas Hr Hbuf v n.
  assert (Hdecl : declared t).
  { split; [done|]. eapply Forall_impl; [exact Hwf|]. by intros x [Hx _]. }
  destruct (declared_slots t c Hdecl Hc) as (ra & rb & Ha & Hb & Hda & Hdb).
  pose proof (uiMain_STM_run drv c ucParam bd t ra rb s0 r s1
                ltac:(lia) Ht Ha Hb Hda Hdb Hinit Hmeas) as Hrun.
  apply lookup_lt_Some in Ha as Hla. apply lookup_lt_Some in Hb as Hlb.
  rewrite Hr in Hrun. unfold soil_slot, temp_slot in Hrun.
  change (0 =? 0) with true in Hrun. cbv iota in Hrun. fold v n in Hrun.
  destruct (value_slots c v (s16 (nSTM_Temperature s1)) (m_ucaData rb) Hdb
              (s32_range _)) as (Hsa & Hsb & Hn & Hg & Hgl).
  fold n in Hsa, Hsb, Hn, Hg, Hgl.
  set (a := Z.to_nat (2 * c - 1)) in *.
  replace (Z.to_nat (2 * c)) with (S a) in * by (unfold a; lia).
  replace (2 * c - 1) with (Z.of_nat a) in Hg, Hgl by (unfold a; lia).
  eexists. split; [|exact Hn].
  erewrite run_Returns by exact Hrun.
  unfold on_reports. cbn [reports cSTM_Initialized sensor].
  rewrite FetchData_two_groups; try done; try lia.
  rewrite Hgl, Hg, Z2Nat.id by lia.
  replace (Z.of_nat a) with (2 * c - 1) by (unfold a; lia).
  rewrite <- !app_assoc. reflexivity.
Qed.

Lemma measure_then_fetch_witness :
  let bd := Mk_board clean 0 (Stm [] 0 0 0) in
  ∃ bd',
    (uiMain_STM (stub 0 300 (-5)) 1 [];; on_reports (ucMain_FetchData (replicate 12 0xAA))) bd
    = Returns ((8, [1; 2; 1; 44; 2; 2; 255; 251; 0xAA; 0xAA; 0xAA; 0xAA]), bd').
Proof.
  intros bd.
  destruct (measure_then_fetch (stub 0 300 (-5)) 1 [] bd (S_Report clean)
              (Stm [] 0 0 0) 0 (Stm [] 0 (-5) 300) (replicate 12 0xAA))
    as (bd' & Hrun & _).
  - lia.
  - reflexivity.
  - reflexivity.
  - repeat (apply Forall_cons; split;
            [split; [reflexivity | vm_compute; split; discriminate]|]).
    apply Forall_nil_2.
  - by repeat constructor.
  - reflexivity.
  - reflexivity.
  - reflexivity.
  - cbn. lia.
  - exists bd'. exact Hrun.
Defined.

End BoardFacts.

(** ** Facts about the parser of the sensor line *)

Module ReadingFacts.
Import STM SensorLine Reading STMFacts.

(** The wrapped operations differ from the exact ones by multiples of
    the modulus. *)
Lemma u32_exact y : ∃ k, u32 y = y + 4294967296 * k.
Proof.
  exists (- (y / 4294967296)). unfold u32.
  pose proof (Z.div_mod y 4294967296 ltac:(lia)). lia.
Qed.

Lemma s32_exact y : ∃ k, s32 y = y + 4294967296 * k.
Proof.
  unfold s32. cbv zeta. pose proof (Z.div_mod y 4294967296 ltac:(lia)).
  destruct (y mod 4294967296 <? 2147483648).
  - exists (- (y / 4294967296)). lia.
  - exists (- (y / 4294967296) - 1). lia.
Qed.

Lemma s16_exact y : ∃ k, s16 y = y + 65536 * k.
Proof.
  unfold s16. cbv zeta. pose proof (Z.div_mod y 65536 ltac:(lia)).
  destruct (y mod 65536 <? 32768).
  - exists (- (y / 65536)). lia.
  - exists (- (y / 65536) - 1). lia.
Qed.

Lemma s32_plus y k : s32 (y + 4294967296 * k) = s32 y.
Proof. unfold s32. by rewrite (Z.mul_comm 4294967296 k), Z_mod_plus_full. Qed.

Lemma s16_plus y k : s16 (y + 65536 * k) = s16 y.
Proof. unfold s16. by rewrite (Z.mul_comm 65536 k), Z_mod_plus_full. Qed.

Lemma s16_step t0 c mult D :
  s16 (s16 (accum t0 c mult) + u32 (mult * 10) * D)
  = s16 (t0 + mult * (D * 10 + (c - 48))).
Proof.
  unfold accum.
  destruct (u32_exact (c - 48)) as [k1 E1]. rewrite E1.
  destruct (u32_exact ((c - 48 + 4294967296 * k1) * mult)) as [k2 E2]. rewrite E2.
  destruct (u32_exact (t0 + ((c - 48 + 4294967296 * k1) * mult + 4294967296 * k2)))
    as [k3 E3]. rewrite E3.
  destruct (s16_exact (t0 + ((c - 48 + 4294967296 * k1) * mult + 4294967296 * k2)
                       + 4294967296 * k3)) as [k4 E4]. rewrite E4.
  destruct (u32_exact (mult * 10)) as [k5 E5]. rewrite E5.
  rewrite <- (s16_plus (t0 + mult * (D * 10 + (c - 48)))
                (65536 * (k1 * mult + k2 + k3 + k5 * D) + k4)).
  f_equal. ring.
Qed.

Lemma s32_step v0 c mult D :
  s32 (s32 (accum v0 c mult) + u32 (mult * 10) * D)
  = s32 (v0 + mult * (D * 10 + (c - 48))).
Proof.
  unfold accum.
  destruct (u32_exact (c - 48)) as [k1 E1]. rewrite E1.
  destruct (u32_exact ((c - 48 + 4294967296 * k1) * mult)) as [k2 E2]. rewrite E2.
  destruct (u32_exact (v0 + ((c - 48 + 4294967296 * k1) * mult + 4294967296 * k2)))
    as [k3 E3]. rewrite E3.
  destruct (s32_exact (v0 + ((c - 48 + 4294967296 * k1) * mult + 4294967296 * k2)
                       + 4294967296 * k3)) as [k4 E4]. rewrite E4.
  destruct (u32_exact (mult * 10)) as [k5 E5]. rewrite E5.
  rewrite <- (s32_plus (v0 + mult * (D * 10 + (c - 48)))
                (k1 * mult + k2 + k3 + k5 * D + k4)).
  f_equal. ring.
Qed.

Lemma dec_snoc l c : dec (l ++ [c]) = dec l * 10 + (c - 48).
Proof. unfold dec. by rewrite fold_left_app. Qed.

Lemma dec_digits l : digits l → 0 <= dec l.
Proof.
  induction l as [|c l IH] using rev_ind; intros Hl; [done|].
  apply Forall_app in Hl as [Hl Hc]. apply Forall_cons in Hc as [Hc _].
  rewrite dec_snoc. specialize (IH Hl). lia.
Qed.

(** The search for the carriage return. *)
Lemma ReadValue_find_spec n : ∀ (i : nat) buf (p : nat) ty x0 t v,
  (i ≤ p)%nat → (p - i < n)%nat → (p < 255)%nat →
  (∀ k c, (i ≤ k < p)%nat → buf !! k = Some c → c ≠ 0x0D) →
  (∀ k, (i ≤ k < p)%nat → is_Some (buf !! k)) →
  buf !! p = Some 0x0D → buf !! S p = Some ty →
  ReadValue_find n x0 (Stm buf (Z.of_nat i) t v)
  = Returns (ty, Stm buf (Z.of_nat p) t v).
Proof.
  induction n as [|n IH]; intros i buf p ty x0 t v Hip Hn Hp Hno Hin Hcr Hty; [lia|].
  cbn [ReadValue_find].
  destruct (decide (i = p)) as [->|Hne].
  - erewrite (run_at_index buf p t v 0) by (rewrite Nat.add_0_r; exact Hcr).
    cbn [Z.eqb Pos.eqb].
    rewrite <- (run_bind_ret (at_index 1) (Stm buf (Z.of_nat p) t v)).
    erewrite (run_at_index buf p t v 1) by (rewrite Nat.add_1_r; exact Hty).
    reflexivity.
  - destruct (Hin i ltac:(lia)) as [c Hc].
    erewrite (run_at_index buf i t v 0) by (rewrite Nat.add_0_r; exact Hc).
    rewrite (proj2 (Z.eqb_neq c 0x0D)) by (eapply Hno; [|exact Hc]; lia).
    rewrite run_gets, run_modify.
    cbn [set_Index g_ucaSTM_RXBuffer g_ucSTM_RXBufferIndex nSTM_Temperature lSTM_Soil].
    rewrite u8_small by lia.
    replace (Z.of_nat i + 1) with (Z.of_nat (S i)) by lia.
    apply IH; try done; try lia.
    + intros k c' Hk. apply Hno. lia.
    + intros k Hk. apply Hin. lia.
Qed.

(** The temperature loop: from behind the field [td] back to the space
    before it. *)
Lemma ReadValue_temperature_spec td : ∀ n mult t0 v buf (q : nat),
  (length td < n)%nat → (q + 1 + length td ≤ 255)%nat →
  buf !! q = Some 0x20 →
  (∀ k c, td !! k = Some c → buf !! (q + 1 + k)%nat = Some c) →
  0x20 ∉ td →
  -32768 <= t0 < 32768 →
  ∃ m', ReadValue_temperature n mult (Stm buf (Z.of_nat (q + 1 + length td)) t0 v)
        = Returns (m', Stm buf (Z.of_nat q) (s16 (t0 + mult * dec td)) v).
Proof.
  induction td as [|c td IH] using rev_ind;
    intros n mult t0 v buf q Hn Hlen Hq Htd Hsp Ht0;
    (destruct n as [|n]; [cbn in Hn; lia|]); cbn [ReadValue_temperature].
  - exists mult. rewrite run_gets, run_modify.
    unfold set_Index.
    cbn [set_Index g_ucaSTM_RXBuffer g_ucSTM_RXBufferIndex nSTM_Temperature lSTM_Soil
         length].
    replace (u8 (Z.of_nat (q + 1 + 0) - 1)) with (Z.of_nat q)
      by (rewrite u8_small; lia).
    erewrite (run_at_index buf q t0 v 0) by (rewrite Nat.add_0_r; exact Hq).
    rewrite run_gets. cbn [Z.eqb Pos.eqb negb andb]. unfold mret, M_ret.
    do 3 f_equal. unfold dec. cbn [fold_left].
    rewrite Z.mul_0_r, Z.add_0_r. symmetry. by apply s16_small.
  - rewrite length_app in Hn, Hlen |- *. cbn [length] in Hn, Hlen |- *.
    apply not_elem_of_app in Hsp as [Hsp Hc]. apply not_elem_of_cons in Hc as [Hc _].
    assert (Hcbuf : buf !! (q + 1 + length td)%nat = Some c).
    { apply Htd. rewrite lookup_app_r by lia. by rewrite Nat.sub_diag. }
    rewrite run_gets, run_modify.
    unfold set_Index.
    cbn [set_Index g_ucaSTM_RXBuffer g_ucSTM_RXBufferIndex nSTM_Temperature lSTM_Soil].
    replace (u8 (Z.of_nat (q + 1 + (length td + 1)) - 1))
      with (Z.of_nat (q + 1 + length td)) by (rewrite u8_small; lia).
    erewrite (run_at_index buf _ t0 v 0) by (rewrite Nat.add_0_r; exact Hcbuf).
    rewrite run_gets. cbn [g_ucSTM_RXBufferIndex].
    rewrite (proj2 (Z.eqb_neq c 0x20)) by congruence.
    rewrite (proj2 (Z.eqb_neq (Z.of_nat (q + 1 + length td)) 0)) by lia.
    cbn [negb andb].
    erewrite (run_at_index buf _ t0 v 0) by (rewrite Nat.add_0_r; exact Hcbuf).
    rewrite run_gets, run_modify.
    unfold set_Temperature.
    cbn [set_Temperature g_ucaSTM_RXBuffer g_ucSTM_RXBufferIndex nSTM_Temperature
         lSTM_Soil].
    destruct (IH n (u32 (mult * 10)) (s16 (accum t0 c mult)) v buf q) as [m' Hrun];
      [lia|lia|done| |done|apply s16_range|].
    { intros k c' Hk. apply Htd. by rewrite lookup_app_l by (by eapply lookup_lt_Some). }
    exists m'. rewrite Hrun. do 3 f_equal.
    rewrite dec_snoc. apply s16_step.
Qed.

(** The soil loop: from behind the field [sd] back to the start of the
    array. *)
Lemma ReadValue_soil_spec sd : ∀ n mult v0 t buf,
  (length sd < n)%nat → (length sd ≤ 255)%nat →
  (∀ k c, sd !! k = Some c → buf !! k = Some c) →
  -2147483648 <= v0 < 2147483648 →
  ∃ m', ReadValue_soil n mult (Stm buf (Z.of_nat (length sd)) t v0)
        = Returns (m', Stm buf 255 t (s32 (v0 + mult * dec sd))).
Proof.
  induction sd as [|c sd IH] using rev_ind;
    intros n mult v0 t buf Hn Hlen Hsd Hv0;
    (destruct n as [|n]; [cbn in Hn; lia|]); cbn [ReadValue_soil].
  - exists mult. rewrite run_gets, run_modify.
    unfold set_Index.
    cbn [set_Index g_ucaSTM_RXBuffer g_ucSTM_RXBufferIndex nSTM_Temperature lSTM_Soil
         length]. change (Z.of_nat 0) with 0. change (u8 (0 - 1)) with 255.
    cbn [Z.eqb negb]. unfold mret, M_ret.
    do 3 f_equal. unfold dec. cbn [fold_left].
    rewrite Z.mul_0_r, Z.add_0_r. symmetry. by apply s32_small.
  - rewrite length_app in Hn, Hlen |- *. cbn [length] in Hn, Hlen |- *.
    assert (Hcbuf : buf !! (length sd) = Some c).
    { apply Hsd. rewrite lookup_app_r by lia. by rewrite Nat.sub_diag. }
    rewrite run_gets, run_modify.
    unfold set_Index.
    cbn [set_Index g_ucaSTM_RXBuffer g_ucSTM_RXBufferIndex nSTM_Temperature lSTM_Soil].
    replace (u8 (Z.of_nat (length sd + 1) - 1))
      with (Z.of_nat (length sd)) by (rewrite u8_small; lia).
    rewrite (proj2 (Z.eqb_neq (Z.of_nat (length sd + 1)) 0)) by lia.
    cbn [negb].
    erewrite (run_at_index buf _ t v0 0) by (rewrite Nat.add_0_r; exact Hcbuf).
    rewrite run_gets, run_modify.
    unfold set_Soil.
    cbn [set_Soil g_ucaSTM_RXBuffer g_ucSTM_RXBufferIndex nSTM_Temperature lSTM_Soil].
    destruct (IH n (u32 (mult * 10)) (s32 (accum v0 c mult)) t buf) as [m' Hrun];
      [lia|lia| |apply s32_range|].
    { intros k c' Hk. apply Hsd. by rewrite lookup_app_l by (by eapply lookup_lt_Some). }
    exists m'. rewrite Hrun. do 3 f_equal.
    rewrite dec_snoc. apply s32_step.
Qed.

(** The skip loop of the 5TE case, entered on a space. *)
Lemma ReadValue_skip_space n buf (q : nat) t v :
  (0 < q ≤ 255)%nat → buf !! q = Some 0x20 →
  ReadValue_skip (S n) (Stm buf (Z.of_nat q) t v)
  = Returns (tt, Stm buf (Z.of_nat (q - 1)) t v).
Proof.
  intros Hq Hsp. cbn [ReadValue_skip].
  erewrite (run_at_index buf q t v 0) by (rewrite Nat.add_0_r; exact Hsp).
  rewrite run_gets, run_modify, run_gets. unfold set_Index.
  cbn [g_ucaSTM_RXBuffer g_ucSTM_RXBufferIndex nSTM_Temperature lSTM_Soil].
  cbn [Z.eqb Pos.eqb negb andb]. unfold mret, M_ret.
  do 3 f_equal. rewrite u8_small by lia. lia.
Qed.

(** Where the bytes of a reading are. *)
Lemma reading_lookup sd x y td ty rest :
  let buf := reading sd x y td ty rest in
  let q := (length sd + 2)%nat in
  let p := (length sd + 3 + length td)%nat in
  (∀ k c, sd !! k = Some c → buf !! k = Some c) ∧
  buf !! length sd = Some x ∧ buf !! S (length sd) = Some y ∧
  buf !! q = Some 0x20 ∧
  (∀ k c, td !! k = Some c → buf !! (q + 1 + k)%nat = Some c) ∧
  buf !! p = Some 0x0D ∧ buf !! S p = Some ty ∧
  (∀ k c, (k < p)%nat → buf !! k = Some c → c ∈ sd ++ [x; y; 0x20] ++ td) ∧
  (∀ k, (k < p)%nat → is_Some (buf !! k)).
Proof.
  intros buf q p.
  assert (E : buf = (sd ++ [x; y; 0x20] ++ td) ++ [0x0D; ty] ++ rest).
  { unfold buf, reading. by rewrite <- !app_assoc. }
  assert (Hp : length (sd ++ [x; y; 0x20] ++ td) = p).
  { rewrite !length_app. cbn [length]. unfold p. lia. }
  repeat split.
  - intros k c Hk. unfold buf, reading. by apply lookup_app_l_Some.
  - unfold buf, reading. rewrite lookup_app_r by lia. by rewrite Nat.sub_diag.
  - unfold buf, reading. rewrite lookup_app_r by lia.
    by replace (S (length sd) - length sd)%nat with 1%nat by lia.
  - unfold buf, reading, q. rewrite lookup_app_r by lia.
    by replace (length sd + 2 - length sd)%nat with 2%nat by lia.
  - intros k c Hk. unfold buf, reading, q. rewrite lookup_app_r by lia.
    replace (length sd + 2 + 1 + k - length sd)%nat with (S (S (S k))) by lia.
    cbn [Datatypes.app lookup list_lookup]. by apply lookup_app_l_Some.
  - rewrite E, lookup_app_r by lia. by rewrite Hp, Nat.sub_diag.
  - rewrite E, lookup_app_r by lia. rewrite Hp.
    by replace (S p - p)%nat with 1%nat by lia.
  - intros k c Hk Hc. rewrite E, lookup_app_l in Hc by lia.
    by eapply list_elem_of_lookup_2.
  - intros k Hk. rewrite E, lookup_app_l by lia. apply lookup_lt_is_Some_2. lia.
Qed.

(** The parser on a reading up to the loops for the two values. *)
Lemma ReadValue_found sd x y td ty rest indet idx t v :
  0x0D ∉ sd ++ [x; y; 0x20] ++ td →
  (length sd + 3 + length td < 20)%nat →
  let buf := reading sd x y td ty rest in
  (modify (set_Index 0);;
   ReadValue_find (Z.to_nat RX_BUFFER_SIZE_STM) (u8 indet)) (Stm buf idx t v)
  = Returns (ty, Stm buf (Z.of_nat (length sd + 3 + length td)) t v).
Proof.
  intros Hcr Hlen buf.
  destruct (reading_lookup sd x y td ty rest) as (_ & _ & _ & _ & _ & Hp & Hty & Hin & Hsome).
  rewrite run_modify. unfold set_Index.
  cbn [g_ucaSTM_RXBuffer g_ucSTM_RXBufferIndex nSTM_Temperature lSTM_Soil].
  apply (ReadValue_find_spec _ 0%nat); try done.
  - lia.
  - change (Z.to_nat RX_BUFFER_SIZE_STM) with 20%nat. lia.
  - lia.
  - intros k c Hk Hc ->. apply Hcr. eapply Hin; [|exact Hc]. lia.
  - intros k Hk. apply Hsome. lia.
Qed.

(** The parser on a line of the 5TM. *)
Lemma ReadValue_5TM_run sd x y td rest indet idx t v :
  digits sd → digits td → x ≠ 0x0D → y ≠ 0x0D →
  (length sd + 3 + length td < 20)%nat →
  dec sd < 2147483648 → dec td < 32768 →
  let buf := reading sd x y td FIVETM rest in
  cSTM_ReadValue indet (Stm buf idx t v) = Returns (tt, Stm buf 255 (dec td) (dec sd)).
Proof.
  intros Hsd Htd Hx Hy Hlen Hvs Hvt buf.
  assert (Hcr : 0x0D ∉ sd ++ [x; y; 0x20] ++ td).
  { intros Hin. apply elem_of_app in Hin as [Hin|Hin].
    - apply (proj1 (Forall_forall _ _) Hsd) in Hin. lia.
    - apply elem_of_cons in Hin as [Hin|Hin]; [congruence|].
      apply elem_of_cons in Hin as [Hin|Hin]; [congruence|].
      apply elem_of_cons in Hin as [Hin|Hin]; [discriminate|].
      apply (proj1 (Forall_forall _ _) Htd) in Hin. lia. }
  assert (Hsp : 0x20 ∉ td).
  { intros Hin. apply (proj1 (Forall_forall _ _) Htd) in Hin. lia. }
  destruct (reading_lookup sd x y td FIVETM rest)
    as (Hsdb & _ & _ & Hq & Htdb & _).
  fold buf in Hsdb, Hq, Htdb.
  unfold cSTM_ReadValue. rewrite <- run_assoc.
  erewrite run_Returns by (by apply ReadValue_found).
  change (FIVETM =? FIVETM) with true. cbv iota.
  rewrite !run_modify. unfold set_Temperature, set_Soil.
  cbn [g_ucaSTM_RXBuffer g_ucSTM_RXBufferIndex nSTM_Temperature lSTM_Soil].
  destruct (ReadValue_temperature_spec td 256 1 0 0 buf (length sd + 2))
    as [m1 H1]; [lia|lia|done|done|done|lia|].
  replace (length sd + 3 + length td)%nat with (length sd + 2 + 1 + length td)%nat by lia.
  erewrite run_Returns by exact H1.
  rewrite run_gets, run_modify. unfold set_Index.
  cbn [g_ucaSTM_RXBuffer g_ucSTM_RXBufferIndex nSTM_Temperature lSTM_Soil].
  replace (u8 (Z.of_nat (length sd + 2) - 2)) with (Z.of_nat (length sd))
    by (rewrite u8_small; lia).
  destruct (ReadValue_soil_spec sd 256 1 0 (s16 (0 + 1 * dec td)) buf)
    as [m2 H2]; [lia|lia|done|lia|].
  erewrite run_Returns by exact H2.
  unfold mret, M_ret. do 3 f_equal.
  - replace (0 + 1 * dec td) with (dec td) by lia.
    apply s16_small. pose proof (dec_digits td Htd). lia.
  - replace (0 + 1 * dec sd) with (dec sd) by lia.
    apply s32_small. pose proof (dec_digits sd Hsd). lia.
Qed.

(** X14 (cSTM_ReadValue, type 5TM): on a line made of a field of digits,
    any two characters, a space and a last field of digits, followed by
    the carriage return and the type byte of the 5TM, all within the 20
    bytes of the array, the parser leaves the number of the first field
    as the soil value and the number of the last field as the
    temperature, whatever the variables held before; the two characters
    before the space are passed over unread. *)
Theorem ReadValue_5TM sd x y td rest indet idx t v :
  digits sd → digits td → x ≠ 0x0D → y ≠ 0x0D →
  (length sd + 3 + length td < 20)%nat →
  dec sd < 2147483648 → dec td < 32768 →
  let buf := reading sd x y td FIVETM rest in
  cSTM_ReadValue indet (Stm buf idx t v) = Returns (tt, Stm buf 255 (dec td) (dec sd)).
Proof.
  intros Hsd Htd Hx Hy Hlen Hvs Hvt buf. unfold buf.
  by apply ReadValue_5TM_run.
Qed.

Lemma ReadValue_5TM_witness :
  cSTM_ReadValue 0 (Stm (three_fields ++ [0x0D; FIVETM] ++ replicate 8 0) 7 (-1) 99)
  = Returns (tt, Stm (three_fields ++ [0x0D; FIVETM] ++ replicate 8 0) 255 567 1234).
Proof.
  refine (ReadValue_5TM [0x31; 0x32; 0x33; 0x34] 0x20 0x30 [0x35; 0x36; 0x37]
            (replicate 8 0) 0 7 (-1) 99 _ _ _ _ _ _ _).
  - repeat (apply Forall_cons; split; [lia|]). apply Forall_nil_2.
  - repeat (apply Forall_cons; split; [lia|]). apply Forall_nil_2.
  - discriminate.
  - discriminate.
  - cbn. lia.
  - reflexivity.
  - reflexivity.
Defined.

(** X15 (cSTM_ReadValue, type 5TE): on the same line with the type byte
    of the 5TE the skip loop stops on the space before the last field at
    once, so only the one character before that space is passed over:
    the soil value is the number of the first field with the character
    after it as one more digit. *)
Theorem ReadValue_5TE sd x y td rest indet idx t v :
  digits sd → digits td → x ≠ 0x0D → y ≠ 0x0D →
  (length sd + 3 + length td < 20)%nat →
  -2147483648 <= dec (sd ++ [x]) < 2147483648 → dec td < 32768 →
  let buf := reading sd x y td FIVETE rest in
  cSTM_ReadValue indet (Stm buf idx t v)
  = Returns (tt, Stm buf 255 (dec td) (dec sd * 10 + (x - 48))).
Proof.
  intros Hsd Htd Hx Hy Hlen Hvs Hvt buf.
  assert (Hcr : 0x0D ∉ sd ++ [x; y; 0x20] ++ td).
  { intros Hin. apply elem_of_app in Hin as [Hin|Hin].
    - apply (proj1 (Forall_forall _ _) Hsd) in Hin. lia.
    - apply elem_of_cons in Hin as [Hin|Hin]; [congruence|].
      apply elem_of_cons in Hin as [Hin|Hin]; [congruence|].
      apply elem_of_cons in Hin as [Hin|Hin]; [discriminate|].
      apply (proj1 (Forall_forall _ _) Htd) in Hin. lia. }
  assert (Hsp : 0x20 ∉ td).
  { intros Hin. apply (proj1 (Forall_forall _ _) Htd) in Hin. lia. }
  destruct (reading_lookup sd x y td FIVETE rest)
    as (Hsdb & Hxb & _ & Hq & Htdb & _).
  fold buf in Hsdb, Hxb, Hq, Htdb.
  unfold cSTM_ReadValue. rewrite <- run_assoc.
  erewrite run_Returns by (by apply ReadValue_found).
  change (FIVETE =? FIVETM) with false. change (FIVETE =? FIVETE) with true.
  cbv iota.
  rewrite !run_modify. unfold set_Temperature, set_Soil.
  cbn [g_ucaSTM_RXBuffer g_ucSTM_RXBufferIndex nSTM_Temperature lSTM_Soil].
  destruct (ReadValue_temperature_spec td 256 1 0 0 buf (length sd + 2))
    as [m1 H1]; [lia|lia|done|done|done|lia|].
  replace (length sd + 3 + length td)%nat with (length sd + 2 + 1 + length td)%nat by lia.
  erewrite run_Returns by exact H1.
  erewrite run_Returns by (apply ReadValue_skip_space; [lia|exact Hq]).
  replace (length sd + 2 - 1)%nat with (length (sd ++ [x]))
    by (rewrite length_app; cbn [length]; lia).
  destruct (ReadValue_soil_spec (sd ++ [x]) 256 1 0 (s16 (0 + 1 * dec td)) buf)
    as [m2 H2]; [rewrite length_app; cbn [length]; lia
                |rewrite length_app; cbn [length]; lia| |lia|].
  { intros k c Hk. destruct (decide (k < length sd)%nat) as [Hlt|Hge].
    - apply Hsdb. by rewrite lookup_app_l in Hk.
    - rewrite lookup_app_r in Hk by lia.
      destruct (k - length sd)%nat as [|j] eqn:Ej; [|cbn in Hk; discriminate Hk].
      injection Hk as <-. by replace k with (length sd) by lia. }
  erewrite run_Returns by exact H2.
  unfold mret, M_ret. do 3 f_equal.
  - replace (0 + 1 * dec td) with (dec td) by lia.
    apply s16_small. pose proof (dec_digits td Htd). lia.
  - replace (0 + 1 * dec (sd ++ [x])) with (dec (sd ++ [x])) by lia.
    rewrite <- dec_snoc. apply s32_small. lia.
Qed.

Lemma ReadValue_5TE_witness :
  let buf := [0x31; 0x32; 0x20; 0x33; 0x20; 0x35; 0x36] ++ [0x0D; FIVETE] ++ replicate 8 0 in
  cSTM_ReadValue 0 (Stm buf 0 0 0) = Returns (tt, Stm buf 255 56 (12 * 10 + (0x20 - 48))).
Proof.
  refine (ReadValue_5TE [0x31; 0x32] 0x20 0x33 [0x35; 0x36]
            (replicate 8 0) 0 0 0 0 _ _ _ _ _ _ _).
  - repeat (apply Forall_cons; split; [lia|]). apply Forall_nil_2.
  - repeat (apply Forall_cons; split; [lia|]). apply Forall_nil_2.
  - discriminate.
  - discriminate.
  - cbn. lia.
  - vm_compute. split; [discriminate|reflexivity].
  - reflexivity.
Defined.

(** *** The MPS6 case *)

Lemma number_snoc_point l : number (l ++ [0x2E]) = number l.
Proof.
  unfold number. rewrite filter_app.
  rewrite (filter_cons_False (λ c, c ≠ 0x2E)) by (intros H; by apply H).
  by rewrite filter_nil, app_nil_r.
Qed.

Lemma number_snoc l c : c ≠ 0x2E → number (l ++ [c]) = number l * 10 + (c - 48).
Proof.
  intros Hc. unfold number. rewrite filter_app.
  rewrite (filter_cons_True (λ c, c ≠ 0x2E)) by done.
  by rewrite filter_nil, dec_snoc.
Qed.

Lemma number_pointed l : pointed l → 0 <= number l.
Proof.
  induction l as [|c l IH] using rev_ind; intros Hl; [done|].
  apply Forall_app in Hl as [Hl Hc]. apply Forall_cons in Hc as [Hc _].
  specialize (IH Hl). destruct (decide (c = 0x2E)) as [->|Hne].
  - by rewrite number_snoc_point.
  - rewrite number_snoc by done. lia.
Qed.

(** The temperature loop of the MPS6 case over a field without a sign. *)
Lemma ReadValue_temperature_MPS6_spec td : ∀ n mult t0 v buf (q : nat),
  (length td < n)%nat → (q + 1 + length td ≤ 255)%nat →
  buf !! q = Some 0x20 →
  (∀ k c, td !! k = Some c → buf !! (q + 1 + k)%nat = Some c) →
  pointed td →
  -32768 <= t0 < 32768 →
  ∃ m', ReadValue_temperature_MPS6 n mult (Stm buf (Z.of_nat (q + 1 + length td)) t0 v)
        = Returns (m', Stm buf (Z.of_nat q) (s16 (t0 + mult * number td)) v).
Proof.
  induction td as [|c td IH] using rev_ind;
    intros n mult t0 v buf q Hn Hlen Hq Htd Hp Ht0;
    (destruct n as [|n]; [cbn in Hn; lia|]); cbn [ReadValue_temperature_MPS6].
  - exists mult. rewrite run_gets, run_modify.
    unfold set_Index.
    cbn [g_ucaSTM_RXBuffer g_ucSTM_RXBufferIndex nSTM_Temperature lSTM_Soil length].
    replace (u8 (Z.of_nat (q + 1 + 0) - 1)) with (Z.of_nat q)
      by (rewrite u8_small; lia).
    erewrite (run_at_index buf q t0 v 0) by (rewrite Nat.add_0_r; exact Hq).
    rewrite run_gets. cbn [Z.eqb Pos.eqb negb andb]. unfold mret, M_ret.
    do 3 f_equal. unfold number, dec. rewrite filter_nil. cbn [fold_left].
    rewrite Z.mul_0_r, Z.add_0_r. symmetry. by apply s16_small.
  - rewrite length_app in Hn, Hlen |- *. cbn [length] in Hn, Hlen |- *.
    apply Forall_app in Hp as [Hp Hc]. apply Forall_cons in Hc as [Hc _].
    assert (Hcbuf : buf !! (q + 1 + length td)%nat = Some c).
    { apply Htd. rewrite lookup_app_r by lia. by rewrite Nat.sub_diag. }
    assert (Htd' : ∀ k c', td !! k = Some c' → buf !! (q + 1 + k)%nat = Some c').
    { intros k c' Hk. apply Htd.
      by rewrite lookup_app_l by (by eapply lookup_lt_Some). }
    rewrite run_gets, run_modify.
    unfold set_Index.
    cbn [g_ucaSTM_RXBuffer g_ucSTM_RXBufferIndex nSTM_Temperature lSTM_Soil].
    replace (u8 (Z.of_nat (q + 1 + (length td + 1)) - 1))
      with (Z.of_nat (q + 1 + length td)) by (rewrite u8_small; lia).
    erewrite (run_at_index buf _ t0 v 0) by (rewrite Nat.add_0_r; exact Hcbuf).
    rewrite run_gets. cbn [g_ucSTM_RXBufferIndex].
    rewrite (proj2 (Z.eqb_neq c 0x20)) by lia.
    rewrite (proj2 (Z.eqb_neq (Z.of_nat (q + 1 + length td)) 0)) by lia.
    cbn [negb andb].
    erewrite (run_at_index buf _ t0 v 0) by (rewrite Nat.add_0_r; exact Hcbuf).
    destruct (Z.eqb_spec c 0x2E) as [->|Hne].
    + rewrite number_snoc_point. by apply IH; try lia.
    + rewrite run_gets, run_modify.
      unfold set_Temperature.
      cbn [g_ucaSTM_RXBuffer g_ucSTM_RXBufferIndex nSTM_Temperature lSTM_Soil].
      cbv zeta.
      erewrite (run_at_index buf _ _ v 0) by (rewrite Nat.add_0_r; exact Hcbuf).
      rewrite (proj2 (Z.eqb_neq c 0x2D)) by lia.
      rewrite run_ret.
      destruct (IH n (u32 (mult * 10)) (s16 (accum t0 c mult)) v buf q) as [m' Hrun];
        [lia|lia|done|done|done|apply s16_range|].
      exists m'. rewrite Hrun. do 3 f_equal.
      rewrite number_snoc by done. apply s16_step.
Qed.

(** The soil loop of the MPS6 case: back to the minus sign. *)
Lemma ReadValue_soil_MPS6_spec sd : ∀ n mult v0 t buf (q : nat),
  (length sd < n)%nat → (q + 1 + length sd ≤ 255)%nat →
  buf !! q = Some 0x2D →
  (∀ k c, sd !! k = Some c → buf !! (q + 1 + k)%nat = Some c) →
  pointed sd →
  -2147483648 <= v0 < 2147483648 →
  ∃ m', ReadValue_soil_MPS6 n mult (Stm buf (Z.of_nat (q + 1 + length sd)) t v0)
        = Returns (m', Stm buf (Z.of_nat q) t (s32 (v0 + mult * number sd))).
Proof.
  induction sd as [|c sd IH] using rev_ind;
    intros n mult v0 t buf q Hn Hlen Hq Hsd Hp Hv0;
    (destruct n as [|n]; [cbn in Hn; lia|]); cbn [ReadValue_soil_MPS6].
  - exists mult. rewrite run_gets, run_modify.
    unfold set_Index.
    cbn [g_ucaSTM_RXBuffer g_ucSTM_RXBufferIndex nSTM_Temperature lSTM_Soil length].
    replace (u8 (Z.of_nat (q + 1 + 0) - 1)) with (Z.of_nat q)
      by (rewrite u8_small; lia).
    erewrite (run_at_index buf q t v0 0) by (rewrite Nat.add_0_r; exact Hq).
    cbn [Z.eqb Pos.eqb negb]. unfold mret, M_ret.
    do 3 f_equal. unfold number, dec. rewrite filter_nil. cbn [fold_left].
    rewrite Z.mul_0_r, Z.add_0_r. symmetry. by apply s32_small.
  - rewrite length_app in Hn, Hlen |- *. cbn [length] in Hn, Hlen |- *.
    apply Forall_app in Hp as [Hp Hc]. apply Forall_cons in Hc as [Hc _].
    assert (Hcbuf : buf !! (q + 1 + length sd)%nat = Some c).
    { apply Hsd. rewrite lookup_app_r by lia. by rewrite Nat.sub_diag. }
    assert (Hsd' : ∀ k c', sd !! k = Some c' → buf !! (q + 1 + k)%nat = Some c').
    { intros k c' Hk. apply Hsd.
      by rewrite lookup_app_l by (by eapply lookup_lt_Some). }
    rewrite run_gets, run_modify.
    unfold set_Index.
    cbn [g_ucaSTM_RXBuffer g_ucSTM_RXBufferIndex nSTM_Temperature lSTM_Soil].
    replace (u8 (Z.of_nat (q + 1 + (length sd + 1)) - 1))
      with (Z.of_nat (q + 1 + length sd)) by (rewrite u8_small; lia).
    erewrite (run_at_index buf _ t v0 0) by (rewrite Nat.add_0_r; exact Hcbuf).
    rewrite (proj2 (Z.eqb_neq c 0x2D)) by lia.
    cbn [negb].
    erewrite (run_at_index buf _ t v0 0) by (rewrite Nat.add_0_r; exact Hcbuf).
    destruct (Z.eqb_spec c 0x2E) as [->|Hne].
    + rewrite number_snoc_point. by apply IH; try lia.
    + rewrite run_gets, run_modify.
      unfold set_Soil.
      cbn [g_ucaSTM_RXBuffer g_ucSTM_RXBufferIndex nSTM_Temperature lSTM_Soil].
      destruct (IH n (u32 (mult * 10)) (s32 (accum v0 c mult)) t buf q) as [m' Hrun];
        [lia|lia|done|done|done|apply s32_range|].
      exists m'. rewrite Hrun. do 3 f_equal.
      rewrite number_snoc by done. apply s32_step.
Qed.

(** X16 (cSTM_ReadValue, type MPS6): on a line with a minus sign, a field
    of digits with a decimal point, one more character, a space and a
    last field of digits with a decimal point, followed by the carriage
    return and the type byte of the MPS6, the parser leaves the number of
    the last field, its point left out, as the temperature, and the
    negated number of the first field, its point left out, as the soil
    value; the character before the space is passed over unread, and
    what stands before the minus sign is not looked at. *)
Theorem ReadValue_MPS6 pre sd x td rest indet idx t v :
  0x0D ∉ pre → pointed sd → pointed td → x ≠ 0x0D →
  (length pre + length sd + length td + 3 < 20)%nat →
  number sd < 2147483648 → number td < 32768 →
  let buf := reading_MPS6 pre sd x td rest in
  cSTM_ReadValue indet (Stm buf idx t v)
  = Returns (tt, Stm buf (Z.of_nat (length pre)) (number td) (- number sd)).
Proof.
  intros Hpre Hsd Htd Hx Hlen Hvs Hvt buf.
  set (q1 := length pre). set (q2 := (length pre + length sd + 2)%nat).
  set (p := (q2 + 1 + length td)%nat).
  assert (E1 : buf = (pre ++ [0x2D] ++ sd ++ [x; 0x20] ++ td) ++ [0x0D; MPS6] ++ rest).
  { unfold buf, reading_MPS6. by rewrite <- !app_assoc. }
  assert (Hl1 : length (pre ++ [0x2D] ++ sd ++ [x; 0x20] ++ td) = p).
  { rewrite !length_app. cbn [length]. unfold p, q2. lia. }
  assert (E2 : buf = (pre ++ [0x2D] ++ sd ++ [x]) ++ [0x20] ++ td ++ [0x0D; MPS6] ++ rest).
  { unfold buf, reading_MPS6. rewrite <- !app_assoc. reflexivity. }
  assert (Hl2 : length (pre ++ [0x2D] ++ sd ++ [x]) = q2).
  { rewrite !length_app. cbn [length]. unfold q2. lia. }
  assert (Hq2 : buf !! q2 = Some 0x20).
  { rewrite E2, lookup_app_r by lia. by rewrite Hl2, Nat.sub_diag. }
  assert (Htdb : ∀ k c, td !! k = Some c → buf !! (q2 + 1 + k)%nat = Some c).
  { intros k c Hk. rewrite E2, lookup_app_r by lia. rewrite Hl2.
    replace (q2 + 1 + k - q2)%nat with (S k) by lia.
    cbn [Datatypes.app lookup list_lookup]. by apply lookup_app_l_Some. }
  assert (Hq1 : buf !! q1 = Some 0x2D).
  { unfold buf, reading_MPS6. rewrite lookup_app_r by (unfold q1; lia).
    by rewrite Nat.sub_diag. }
  assert (Hsdb : ∀ k c, sd !! k = Some c → buf !! (q1 + 1 + k)%nat = Some c).
  { intros k c Hk. unfold buf, reading_MPS6. rewrite lookup_app_r by (unfold q1; lia).
    replace (q1 + 1 + k - length pre)%nat with (S k) by (unfold q1; lia).
    cbn [Datatypes.app lookup list_lookup]. by apply lookup_app_l_Some. }
  assert (Hcr : 0x0D ∉ pre ++ [0x2D] ++ sd ++ [x; 0x20] ++ td).
  { intros Hin. apply elem_of_app in Hin as [Hin|Hin]; [done|].
    apply elem_of_cons in Hin as [Hin|Hin]; [discriminate|].
    apply elem_of_app in Hin as [Hin|Hin].
    - apply (proj1 (Forall_forall _ _) Hsd) in Hin. lia.
    - apply elem_of_cons in Hin as [Hin|Hin]; [congruence|].
      apply elem_of_cons in Hin as [Hin|Hin]; [discriminate|].
      apply (proj1 (Forall_forall _ _) Htd) in Hin. lia. }
  unfold cSTM_ReadValue. rewrite run_modify. unfold set_Index.
  cbn [g_ucaSTM_RXBuffer g_ucSTM_RXBufferIndex nSTM_Temperature lSTM_Soil].
  erewrite run_Returns.
  2:{ apply (ReadValue_find_spec _ 0%nat buf p MPS6).
      - lia.
      - change (Z.to_nat RX_BUFFER_SIZE_STM) with 20%nat. unfold p, q2. lia.
      - unfold p, q2. lia.
      - intros k c Hk Hc ->. apply Hcr. rewrite E1, lookup_app_l in Hc by lia.
        by eapply list_elem_of_lookup_2.
      - intros k Hk. rewrite E1, lookup_app_l by lia. apply lookup_lt_is_Some_2. lia.
      - rewrite E1, lookup_app_r by lia. by rewrite Hl1, Nat.sub_diag.
      - rewrite E1, lookup_app_r by lia. rewrite Hl1.
        by replace (S p - p)%nat with 1%nat by lia. }
  change (MPS6 =? FIVETM) with false. change (MPS6 =? FIVETE) with false.
  change (MPS6 =? MPS6) with true. cbv iota.
  rewrite !run_modify. unfold set_Temperature, set_Soil.
  cbn [g_ucaSTM_RXBuffer g_ucSTM_RXBufferIndex nSTM_Temperature lSTM_Soil].
  destruct (ReadValue_temperature_MPS6_spec td 256 1 0 0 buf q2)
    as [m1 H1]; [unfold q2 in *; lia|unfold q2 in *; lia|done|done|done|lia|].
  fold p in H1. erewrite run_Returns by exact H1.
  rewrite run_gets, run_modify. unfold set_Index.
  cbn [g_ucaSTM_RXBuffer g_ucSTM_RXBufferIndex nSTM_Temperature lSTM_Soil].
  replace (u8 (Z.of_nat q2 - 1)) with (Z.of_nat (q1 + 1 + length sd))
    by (rewrite u8_small; unfold q1, q2; lia).
  destruct (ReadValue_soil_MPS6_spec sd 256 1 0 (s16 (0 + 1 * number td)) buf q1)
    as [m2 H2]; [unfold q1 in *; lia|unfold q1 in *; lia|done|done|done|lia|].
  erewrite run_Returns by exact H2.
  rewrite run_gets. unfold modify, set_Soil.
  cbn [g_ucaSTM_RXBuffer g_ucSTM_RXBufferIndex nSTM_Temperature lSTM_Soil].
  do 3 f_equal.
  - replace (0 + 1 * number td) with (number td) by lia.
    apply s16_small. pose proof (number_pointed td Htd). lia.
  - replace (0 + 1 * number sd) with (number sd) by lia.
    pose proof (number_pointed sd Hsd).
    rewrite (s32_small (number sd)) by lia.
    replace (number sd * -1) with (- number sd) by lia.
    apply s32_small. lia.
Qed.

Lemma ReadValue_MPS6_witness :
  let buf := [0x2D; 0x31; 0x32; 0x2E; 0x33; 0x20; 0x32; 0x32; 0x2E; 0x35]
             ++ [0x0D; MPS6] ++ replicate 8 0 in
  cSTM_ReadValue 0 (Stm buf 0 0 0) = Returns (tt, Stm buf 0 225 (-12)).
Proof.
  refine (ReadValue_MPS6 [] [0x31; 0x32; 0x2E] 0x33 [0x32; 0x32; 0x2E; 0x35]
            (replicate 8 0) 0 0 0 0 _ _ _ _ _ _ _).
  - apply not_elem_of_nil.
  - repeat (apply Forall_cons; split; [lia|]). apply Forall_nil_2.
  - repeat (apply Forall_cons; split; [lia|]). apply Forall_nil_2.
  - discriminate.
  - cbn. lia.
  - reflexivity.
  - reflexivity.
Defined.

(** X17 (cSTM_ReadValue, other type bytes): when the byte behind the
    carriage return is none of the three known types, the parser leaves
    the soil value and the temperature as they were; only the index has
    moved to the carriage return. *)
Theorem ReadValue_unknown_type pre ty rest indet idx t v :
  0x0D ∉ pre → (length pre < Z.to_nat RX_BUFFER_SIZE_STM)%nat →
  ty ≠ FIVETM → ty ≠ FIVETE → ty ≠ MPS6 →
  let buf := pre ++ [0x0D; ty] ++ rest in
  cSTM_ReadValue indet (Stm buf idx t v)
  = Returns (tt, Stm buf (Z.of_nat (length pre)) t v).
Proof.
  intros Hcr Hlen H1 H2 H3 buf. change (Z.to_nat RX_BUFFER_SIZE_STM) with 20%nat in Hlen.
  unfold cSTM_ReadValue. rewrite run_modify. unfold set_Index.
  cbn [g_ucaSTM_RXBuffer g_ucSTM_RXBufferIndex nSTM_Temperature lSTM_Soil].
  erewrite run_Returns.
  2:{ apply (ReadValue_find_spec _ 0%nat buf (length pre) ty).
      - lia.
      - change (Z.to_nat RX_BUFFER_SIZE_STM) with 20%nat. lia.
      - lia.
      - intros k c Hk Hc ->. apply Hcr. unfold buf in Hc.
        rewrite lookup_app_l in Hc by lia. by eapply list_elem_of_lookup_2.
      - intros k Hk. unfold buf. rewrite lookup_app_l by lia.
        apply lookup_lt_is_Some_2. lia.
      - unfold buf. rewrite lookup_app_r by lia. by rewrite Nat.sub_diag.
      - unfold buf. rewrite lookup_app_r by lia.
        by replace (S (length pre) - length pre)%nat with 1%nat by lia. }
  by rewrite (proj2 (Z.eqb_neq _ _) H1), (proj2 (Z.eqb_neq _ _) H2),
    (proj2 (Z.eqb_neq _ _) H3).
Qed.

Lemma ReadValue_unknown_type_witness :
  let buf := [0x31; 0x32] ++ [0x0D; 0x41] ++ replicate 16 0xFF in
  cSTM_ReadValue 0 (Stm buf 9 55 66) = Returns (tt, Stm buf 2 55 66).
Proof.
  refine (ReadValue_unknown_type [0x31; 0x32] 0x41 (replicate 16 0xFF) 0 9 55 66
            _ _ _ _ _).
  - intros H. repeat (apply elem_of_cons in H as [H|H]; [discriminate|]).
    by apply elem_of_nil in H.
  - vm_compute. lia.
  - discriminate.
  - discriminate.
  - discriminate.
Defined.

(** *** The checksum test without a carriage return *)

Lemma run_at_index_cases {B} buf i t v k (c : Z → M stm B) :
  (at_index k ≫= c) (Stm buf i t v)
  = match rd buf (i + k) with
    | Some x => c x (Stm buf i t v)
    | None => Undefined
    end.
Proof.
  cbv beta iota delta [mbind M_bind at_index gets load g_ucaSTM_RXBuffer
                       g_ucSTM_RXBufferIndex].
  by destruct (rd buf (i + k)).
Qed.

Lemma rd_elem_of buf i x : rd buf i = Some x → x ∈ buf.
Proof.
  unfold rd. destruct (0 <=? i); [|done]. apply list_elem_of_lookup_2.
Qed.

Lemma Test_Checksum_loop_no_CR buf n : ∀ add i t v,
  0x0D ∉ buf → Test_Checksum_loop n add (Stm buf i t v) = Undefined.
Proof.
  induction n as [|n IH]; intros add i t v Hcr; cbn [Test_Checksum_loop].
  all: rewrite run_at_index_cases; destruct (rd buf (i + 0)) as [x|]; [|done].
  all: cbv zeta; rewrite run_gets, run_modify; unfold set_Index.
  all: cbn [g_ucaSTM_RXBuffer g_ucSTM_RXBufferIndex nSTM_Temperature lSTM_Soil].
  all: rewrite run_at_index_cases.
  all: destruct (rd buf (u8 (i + 1) + 0)) as [c|] eqn:Ec; [|done].
  all: replace (c =? 13) with false
         by (symmetry; apply Z.eqb_neq; intros ->; apply Hcr; by eapply rd_elem_of).
  all: cbn [negb].
  - reflexivity.
  - by apply IH.
Qed.

(** X18 (cSTM_Test_Checksum, no carriage return): the summing loop stops
    at a carriage return only.  On a receive array that holds none it
    has no result: it reads on past the end of the array. *)
Theorem Test_Checksum_without_CR buf idx t v :
  length buf = Z.to_nat RX_BUFFER_SIZE_STM → 0x0D ∉ buf →
  cSTM_Test_Checksum (Stm buf idx t v) = Undefined.
Proof.
  intros _ Hcr. unfold cSTM_Test_Checksum. cbv zeta.
  rewrite run_modify. unfold set_Index.
  cbn [g_ucaSTM_RXBuffer g_ucSTM_RXBufferIndex nSTM_Temperature lSTM_Soil].
  apply run_Undefined. by apply Test_Checksum_loop_no_CR.
Qed.

Lemma Test_Checksum_without_CR_witness :
  cSTM_Test_Checksum (Stm (replicate 20 0xFF) 0 0 0) = Undefined.
Proof.
  apply Test_Checksum_without_CR; [reflexivity|].
  intros H. apply elem_of_replicate in H as [H _]. discriminate H.
Defined.

End ReadingFacts.

(** ** From the sensor line to the report slots *)

Module MeasureFacts.
Import Main STM SensorLine Reading Reports Board.
Import STMFacts ReadingFacts BoardFacts.

(** The checksum test on a well-shaped buffer, with the state it
    leaves. *)
Lemma Test_Checksum_run x body ty ck rest idx t v :
  0x0D ∉ body → byte_list (x :: body ++ [ty]) →
  (length body ≤ Z.to_nat RX_BUFFER_SIZE_STM)%nat →
  let buf := line (x :: body) ty ck rest in
  cSTM_Test_Checksum (Stm buf idx t v)
  = Returns (if ck =? checksum (x :: body) ty then 0 else 1,
             Stm buf (Z.of_nat (S (length body))) t v).
Proof.
  intros Hcr Hb Hlen buf. unfold RX_BUFFER_SIZE_STM in Hlen.
  apply Forall_cons in Hb as [Hx Hb]. apply Forall_app in Hb as [Hb Hty].
  apply Forall_cons in Hty as [Hty _].
  pose proof (total_range body Hb) as Htot.
  unfold cSTM_Test_Checksum, RX_BUFFER_SIZE_STM. cbv zeta.
  rewrite run_modify. unfold set_Index.
  cbn [g_ucaSTM_RXBuffer g_ucSTM_RXBufferIndex nSTM_Temperature lSTM_Soil].
  erewrite run_Returns.
  2:{ apply (Test_Checksum_loop_spec body _ [] 0%nat x (ty :: ck :: rest) 0 t v);
        [done|lia|lia|done|by apply Forall_cons|lia|lia]. }
  destruct (lookup_line (x :: body) 0x0D ty ck rest) as (H0 & H1 & H2).
  cbn [length Nat.add] in H0, H1, H2 |- *.
  change ([] ++ x :: body ++ 0x0D :: ty :: ck :: rest)
    with ((x :: body) ++ [0x0D; ty; ck] ++ rest).
  erewrite (run_at_index _ (S (length body)) t v 0) by exact H0.
  erewrite (run_at_index _ (S (length body)) t v 1) by exact H1.
  erewrite (run_at_index _ (S (length body)) t v 2) by exact H2.
  rewrite (s16_small (0 + x + total body + 13)) by lia.
  rewrite (s16_small (0 + x + total body + 13 + ty)) by lia.
  rewrite Z.rem_mod_nonneg by lia.
  pose proof (Z.mod_pos_bound (0 + x + total body + 13 + ty) 64 ltac:(lia)).
  rewrite s16_small by lia.
  unfold checksum. cbn [total foldr]. fold (total body).
  replace (x + total body + 13 + ty) with (0 + x + total body + 13 + ty) by lia.
  unfold buf, line. by destruct (ck =? _).
Qed.

(** A line of the 5TM as the checksum test sees it. *)
Lemma reading_line sd x y td ck rest :
  reading sd x y td FIVETM (ck :: rest)
  = line (sd ++ [x; y; 0x20] ++ td) FIVETM ck rest.
Proof. unfold reading, line. by rewrite <- !app_assoc. Qed.

(** The measurement from the end of the reception on, for a line of the
    5TM with the checksum byte [ck]. *)
Lemma Measure_after_5TM receive indet ch s0 tc sd x y td ck rest idx tv vv :
  let buf := reading sd x y td FIVETM (ck :: rest) in
  receive ch s0 = Returns (tc, Stm buf idx tv vv) → tc < 10 →
  digits sd → digits td → 0 <= x < 256 → 0 <= y < 256 → x ≠ 0x0D → y ≠ 0x0D →
  (length sd + 3 + length td < 20)%nat →
  dec sd < 2147483648 → dec td < 32768 →
  cSTM_Measure_after receive indet ch s0
  = if ck =? checksum (sd ++ [x; y; 0x20] ++ td) FIVETM
    then Returns (0, Stm buf 255 (dec td) (dec sd))
    else Returns (1, Stm buf (Z.of_nat (length sd + 3 + length td)) tv vv).
Proof.
  intros buf Hrec Htc Hsd Htd Hx Hy Hxc Hyc Hlen Hvs Hvt.
  unfold cSTM_Measure_after. erewrite run_Returns by exact Hrec.
  replace (tc >=? 10) with false by (symmetry; rewrite Z.geb_leb; apply Z.leb_gt; lia).
  cbv iota.
  assert (Hbody : Forall (λ c, 0 <= c < 256 ∧ c ≠ 0x0D) (sd ++ [x; y; 0x20] ++ td)).
  { apply Forall_app. split.
    - eapply Forall_impl; [exact Hsd|]. intros c Hc. cbv beta in Hc. lia.
    - repeat (apply Forall_cons; split; [lia|]).
      eapply Forall_impl; [exact Htd|]. intros c Hc. cbv beta in Hc. lia. }
  assert (Hl : length (sd ++ [x; y; 0x20] ++ td) = (length sd + 3 + length td)%nat).
  { rewrite !length_app. cbn [length]. lia. }
  assert (Hck : cSTM_Test_Checksum (Stm buf idx tv vv)
    = Returns (if ck =? checksum (sd ++ [x; y; 0x20] ++ td) FIVETM then 0 else 1,
               Stm buf (Z.of_nat (length sd + 3 + length td)) tv vv)).
  { unfold buf. rewrite reading_line, <- Hl.
    destruct (sd ++ [x; y; 0x20] ++ td) as [|x0 body] eqn:E; [cbn in Hl; lia|].
    apply Forall_cons in Hbody as [Hx0 Hbody].
    apply Test_Checksum_run.
    - intros Hin. apply (proj1 (Forall_forall _ _) Hbody) in Hin. lia.
    - apply Forall_cons. split; [lia|]. apply Forall_app. split.
      + eapply Forall_impl; [exact Hbody|]. intros c Hc. cbv beta in Hc. lia.
      + apply Forall_cons. split; [unfold FIVETM; lia|apply Forall_nil_2].
    - cbn [length] in Hl. change (Z.to_nat RX_BUFFER_SIZE_STM) with 20%nat. lia. }
  erewrite run_Returns by exact Hck.
  destruct (ck =? checksum (sd ++ [x; y; 0x20] ++ td) FIVETM).
  - change (negb (0 =? 0)) with false. cbv iota.
    erewrite run_Returns by (by apply ReadValue_5TM_run).
    reflexivity.
  - reflexivity.
Qed.

(** X19 (cSTM_Measure from the end of the reception on, with
    cSTM_Test_Checksum and cSTM_ReadValue, under uiMain_STM1 ..
    uiMain_STM4): from the sensor line to the report.  When the
    reception has not timed out and has left a line of the 5TM in the
    array, a field of digits, two characters, a space, a field of digits,
    the carriage return, the type byte and the checksum byte of the line,
    the handler of the channel returns 0 and leaves both slots flagged:
    the soil slot holds the number of the first field and the
    temperature slot the number of the last field, each as a big-endian
    two's complement number over the length of the slot.  With another
    checksum byte both slots hold the one byte [STM_ERROR_CODE_1]; when
    the reception has timed out both hold [STM_ERROR_CODE_2]. *)
Theorem line_to_report receive indet init c1 c2 ch ucParam bd t s0 tc
    sd x y td ck rest idx tv vv :
  let drv := Driver (cSTM_Measure_after receive indet) init c1 c2 in
  let buf := reading sd x y td FIVETM (ck :: rest) in
  1 <= ch <= 4 → reports bd = App t → declared t →
  initialized drv bd = Returns (tt, s0) →
  receive ch s0 = Returns (tc, Stm buf idx tv vv) →
  digits sd → digits td → 0 <= x < 256 → 0 <= y < 256 → x ≠ 0x0D → y ≠ 0x0D →
  (length sd + 3 + length td < 20)%nat →
  dec sd < 2147483648 → dec td < 32768 →
  ∃ t' sa sb ini' s1,
    uiMain_STM drv ch ucParam bd = Returns (0, Mk_board (App t') ini' s1) ∧
    t' !! Z.to_nat (2 * ch - 1) = Some sa ∧ t' !! Z.to_nat (2 * ch) = Some sb ∧
    m_ucFlags sa = F_NEWDATA ∧ m_ucFlags sb = F_NEWDATA ∧
    (tc < 10 → ck = checksum (sd ++ [x; y; 0x20] ++ td) FIVETM →
       s1 = Stm buf 255 (dec td) (dec sd) ∧
       1 <= m_ucLength sa <= 4 ∧
       be_signed (take (Z.to_nat (m_ucLength sa)) (m_ucaData sa)) = dec sd ∧
       m_ucLength sb = 2 ∧ be_signed (take 2 (m_ucaData sb)) = dec td) ∧
    (tc < 10 → ck ≠ checksum (sd ++ [x; y; 0x20] ++ td) FIVETM →
       m_ucLength sa = 1 ∧ m_ucaData sa !! 0%nat = Some (u8 c1) ∧
       m_ucLength sb = 1 ∧ m_ucaData sb !! 0%nat = Some (u8 c1)) ∧
    (10 <= tc →
       m_ucLength sa = 1 ∧ m_ucaData sa !! 0%nat = Some (u8 c2) ∧
       m_ucLength sb = 1 ∧ m_ucaData sb !! 0%nat = Some (u8 c2)).
Proof.
  intros drv buf Hch Ht Hdecl Hinit Hrec Hsd Htd Hx Hy Hxc Hyc Hlen Hvs Hvt.
  destruct (declared_slots t ch Hdecl Hch) as (ra & rb & Ha & Hb & Hda & Hdb).
  apply lookup_lt_Some in Ha as Hla. apply lookup_lt_Some in Hb as Hlb.
  assert (Hmeas : ∃ r s1, cSTM_Measure drv ch s0 = Returns (r, s1) ∧
    (tc < 10 → ck = checksum (sd ++ [x; y; 0x20] ++ td) FIVETM →
       r = 0 ∧ s1 = Stm buf 255 (dec td) (dec sd)) ∧
    (tc < 10 → ck ≠ checksum (sd ++ [x; y; 0x20] ++ td) FIVETM → r = 1) ∧
    (10 <= tc → r = 2)).
  { cbn [cSTM_Measure drv]. destruct (Z.lt_ge_cases tc 10) as [Hlt|Hge].
    - rewrite (Measure_after_5TM receive indet ch s0 tc sd x y td ck rest idx tv vv)
        by done.
      destruct (Z.eqb_spec ck (checksum (sd ++ [x; y; 0x20] ++ td) FIVETM)) as [E|E].
      + eexists _, _. split; [reflexivity|]. repeat split; intros; first [done | lia].
      + eexists _, _. split; [reflexivity|]. repeat split; intros; first [done | lia].
    - unfold cSTM_Measure_after. erewrite run_Returns by exact Hrec.
      replace (tc >=? 10) with true by (symmetry; rewrite Z.geb_leb; apply Z.leb_le; lia).
      eexists _, _. split; [reflexivity|]. repeat split; intros; first [done | lia]. }
  destruct Hmeas as (r & s1 & Hmeas & Hok & Hbad & Hto).
  pose proof (uiMain_STM_run drv ch ucParam bd t ra rb s0 r s1
                ltac:(lia) Ht Ha Hb Hda Hdb Hinit Hmeas) as Hrun.
  eexists _, _, _, _, _. split; [exact Hrun|].
  split; [rewrite list_lookup_insert_ne by lia; apply list_lookup_insert_eq; lia|].
  split; [apply list_lookup_insert_eq; rewrite length_insert; lia|].
  split; [apply soil_slot_flag|]. split; [apply temp_slot_flag|].
  split; [|split].
  - intros Htc Hck. destruct (Hok Htc Hck) as [-> ->].
    split; [done|]. unfold soil_slot, temp_slot.
    change (u8 0 =? 0) with true. cbv iota. cbn [m_ucLength m_ucaData lSTM_Soil
      nSTM_Temperature].
    pose proof (dec_digits sd Hsd). pose proof (dec_digits td Htd).
    rewrite (s32_small (dec sd)) by lia. rewrite (s16_small (dec td)) by lia.
    destruct (soil_length_cases (dec sd) ltac:(lia)) as [[E _]|[[E _]|[[E _]|[E _]]]].
    all: split; [rewrite E; lia|].
    all: split; [apply soil_bytes_read; lia|].
    all: split; [done|].
    all: unfold temp_bytes; cbn [Datatypes.app take firstn];
         apply temp_bytes_read; lia.
  - intros Htc Hck. rewrite (Hbad Htc Hck). unfold soil_slot, temp_slot, error_slot.
    change (u8 1 =? 0) with false. change (u8 1 =? 1) with true. cbv iota.
    cbn [m_ucLength m_ucaData STM_ERROR_CODE_1 drv].
    repeat split; try done; apply list_lookup_insert_eq; lia.
  - intros Htc. rewrite (Hto Htc). unfold soil_slot, temp_slot, error_slot.
    change (u8 2 =? 0) with false. change (u8 2 =? 1) with false.
    change (u8 2 =? 2) with true. cbv iota.
    cbn [m_ucLength m_ucaData STM_ERROR_CODE_2 drv].
    repeat split; try done; apply list_lookup_insert_eq; lia.
Qed.

Lemma line_to_report_witness :
  let line := reading [0x31; 0x32; 0x33; 0x34] 0x20 0x30 [0x35; 0x36; 0x37] FIVETM
                [checksum three_fields FIVETM; 0x0D; 0x0A] in
  let buf := line ++ replicate 5 0xFF in
  let drv := Driver (cSTM_Measure_after (heard 3 line) 0) (mret tt) 0x01 0x02 in
  line !! 14%nat = Some 0x0A ∧ length line = 15%nat ∧
  ∃ t' sa sb ini',
    uiMain_STM drv 1 [] (Mk_board clean 0 (Stm (replicate 20 0xFF) 0 0 0))
    = Returns (0, Mk_board (App t') ini' (Stm buf 255 567 1234)) ∧
    t' !! 1%nat = Some sa ∧ t' !! 2%nat = Some sb ∧
    be_signed (take (Z.to_nat (m_ucLength sa)) (m_ucaData sa)) = 1234 ∧
    be_signed (take 2 (m_ucaData sb)) = 567.
Proof.
  intros line buf drv. split; [vm_compute; reflexivity|]. split; [reflexivity|].
  destruct (line_to_report (heard 3 line) 0 (mret tt) 0x01 0x02 1 []
              (Mk_board clean 0 (Stm (replicate 20 0xFF) 0 0 0)) (S_Report clean)
              (Stm (replicate 20 0xFF) 0 0 0) 3
              [0x31; 0x32; 0x33; 0x34] 0x20 0x30 [0x35; 0x36; 0x37]
              (checksum three_fields FIVETM) ([0x0D; 0x0A] ++ replicate 5 0xFF) 15 0 0)
    as (t' & sa & sb & ini' & s1 & Hrun & Ha & Hb & _ & _ & Hok & _).
  - lia.
  - reflexivity.
  - split; [reflexivity|]. by repeat constructor.
  - reflexivity.
  - reflexivity.
  - repeat (apply Forall_cons; split; [lia|]). apply Forall_nil_2.
  - repeat (apply Forall_cons; split; [lia|]). apply Forall_nil_2.
  - lia.
  - lia.
  - discriminate.
  - discriminate.
  - cbn. lia.
  - reflexivity.
  - reflexivity.
  - destruct (Hok ltac:(lia) eq_refl) as (-> & _ & Hs & _ & Ht).
    exists t', sa, sb, ini'. repeat split; assumption.
Defined.

End MeasureFacts.

(** ** Facts about command packets *)

Module CommandFacts.
Import Core Commands.

(** The parameter loop copies [n] bytes of the message to the start of
    [ucParam]. *)
Lemma Command_params_spec {St} n : ∀ buf (done rest : list Z) (i : nat) (s : St),
  (i + n ≤ length buf)%nat → (n ≤ length rest)%nat → (i + n < 256)%nat →
  Command_params n buf (done ++ rest) (Z.of_nat (length done)) (Z.of_nat i) s
  = Returns ((done ++ take n (drop i buf) ++ drop n rest, Z.of_nat (i + n)), s).
Proof.
  induction n as [|n IH]; intros buf done rest i s Hi Hn Hb; cbn [Command_params].
  - cbn [take drop Datatypes.app]. by rewrite Nat.add_0_r.
  - destruct (buf !! i) as [v|] eqn:Ev; [|apply lookup_ge_None in Ev; lia].
    destruct rest as [|x rest]; [cbn in Hn; lia|].
    erewrite run_load by (rewrite rd_lookup; exact Ev).
    erewrite run_store by apply MainFacts.wr_app.
    replace (Z.of_nat (length done) + 1) with (Z.of_nat (length (done ++ [v])))
      by (rewrite length_app; cbn; lia).
    replace (u8 (Z.of_nat i + 1)) with (Z.of_nat (S i)) by (rewrite u8_small; lia).
    rewrite IH by (cbn in Hn; lia).
    rewrite (drop_S buf v i Ev), <- app_assoc. cbn [Datatypes.app take drop].
    do 3 f_equal. lia.
Qed.

(** The command loop on the commands that are left. *)
Lemma Command_loop_spec {St : Type} `{!Collaborators St} cmds :
  ∀ n (pre : list Z) rest par ret L (s : St),
  (length cmds < n)%nat →
  (pre ++ encode cmds ++ rest) !! 1%nat = Some L →
  L = Z.of_nat (length pre + length (encode cmds)) → L < 256 →
  Forall (λ c, length (snd c) ≤ length par)%nat cmds →
  Command_loop n (pre ++ encode cmds ++ rest) par (Z.of_nat (length pre)) ret s
  = dispatch_all cmds par ret s.
Proof.
  induction cmds as [|[t ps] cmds IH]; intros n pre rest par ret L s Hn HL HLv Hb Hps;
    (destruct n as [|n]; [cbn in Hn; lia|]); cbn [Command_loop dispatch_all].
  - erewrite run_load by (change MSG_LEN_IDX with (Z.of_nat 1); rewrite rd_lookup; exact HL).
    cbn [encode flat_map length] in HLv. rewrite Nat.add_0_r in HLv.
    by rewrite (proj2 (Z.ltb_ge _ _)) by lia.
  - apply Forall_cons in Hps as [Hp Hps].
    cbn [encode flat_map] in *. fold (encode cmds) in *.
    cbn [fst snd Datatypes.app] in *.
    cbn [length] in HLv, Hn. rewrite length_app in HLv.
    erewrite run_load by (change MSG_LEN_IDX with (Z.of_nat 1); rewrite rd_lookup; exact HL).
    rewrite (proj2 (Z.ltb_lt _ _)) by lia. cbn [negb].
    set (buf := pre ++ t :: Z.of_nat (length ps) :: (ps ++ encode cmds) ++ rest) in *.
    assert (Hshape : buf = (pre ++ t :: Z.of_nat (length ps) :: ps)
                           ++ encode cmds ++ rest).
    { unfold buf. rewrite <- !app_assoc. reflexivity. }
    assert (Ht : buf !! length pre = Some t).
    { unfold buf. rewrite lookup_app_r by lia. by rewrite Nat.sub_diag. }
    assert (Hl : buf !! S (length pre) = Some (Z.of_nat (length ps))).
    { unfold buf. rewrite lookup_app_r by lia.
      by replace (S (length pre) - length pre)%nat with 1%nat by lia. }
    assert (Hdrop : take (length ps) (drop (S (S (length pre))) buf) = ps).
    { unfold buf. rewrite drop_app_ge by lia.
      replace (S (S (length pre)) - length pre)%nat with 2%nat by lia.
      cbn [drop Datatypes.app]. rewrite drop_0, <- app_assoc.
      by rewrite take_app_length. }
    erewrite run_load by (rewrite rd_lookup; exact Ht).
    cbv zeta.
    replace (u8 (Z.of_nat (length pre) + 1)) with (Z.of_nat (S (length pre)))
      by (rewrite u8_small; lia).
    erewrite run_load by (rewrite rd_lookup; exact Hl).
    replace (u8 (Z.of_nat (S (length pre)) + 1)) with (Z.of_nat (S (S (length pre))))
      by (rewrite u8_small; lia).
    rewrite Nat2Z.id.
    erewrite run_Returns.
    2:{ apply (Command_params_spec (length ps) buf [] par (S (S (length pre)))).
        - unfold buf. rewrite length_app. cbn [length]. rewrite !length_app. lia.
        - done.
        - lia. }
    cbv beta iota. cbn [Datatypes.app]. rewrite Hdrop.
    apply run_bind_ext. intros r s' _.
    replace (S (S (length pre)) + length ps)%nat
      with (length (pre ++ t :: Z.of_nat (length ps) :: ps))
      by (rewrite length_app; cbn [length]; lia).
    rewrite Hshape.
    apply (IH n _ rest _ _ L).
    + lia.
    + by rewrite <- Hshape.
    + rewrite length_app. cbn [length]. lia.
    + done.
    + eapply Forall_impl; [exact Hps|]. intros c Hc. cbv beta in *.
      rewrite length_app, length_drop. lia.
Qed.

Lemma encode_length cmds : (2 * length cmds ≤ length (encode cmds))%nat.
Proof.
  induction cmds as [|c cmds IH]; [done|].
  cbn [encode flat_map length]. fold (encode cmds).
  rewrite length_app. cbn [length]. lia.
Qed.

(** X20 (vCORE_Run, case COMMAND_PKT): for a command packet whose length
    byte covers a sequence of commands, each a transducer number, a
    parameter count and that many parameters, the core first sends the
    confirmation packet and then dispatches the commands one by one in
    the order of the packet, each with its parameters at the start of
    [ucParam]; [unTransducerReturn] is the or of the results, and the
    message array is left as it was. *)
Theorem Run_command_packet {St : Type} `{!Collaborators St} (fresh : list Z) (l : locals)
    (L ver f : Z) (cmds : list (Z * list Z)) (rest : list Z) (s : St) :
  ucaMsg_Buff l = COMMAND_PKT :: L :: ver :: f :: encode cmds ++ rest →
  length (ucaMsg_Buff l) = Z.to_nat MAXMSGLEN →
  L = SP_HEADERSIZE + Z.of_nat (length (encode cmds)) →
  Forall (λ c, length (snd c) ≤ length (ucParam l))%nat cmds →
  vCORE_Run_switch fresh l s
  = (vCORE_Send_ConfirmPKT fresh;;
     '(par, ret) ← dispatch_all cmds (ucParam l) 0;
     mret (Locals (ucaMsg_Buff l) ret par (uiHID l))) s.
Proof.
  intros Hbuf Hlen HL Hps.
  assert (Hsize : (length (encode cmds) ≤ 60)%nat).
  { rewrite Hbuf in Hlen. cbn [length] in Hlen. rewrite length_app in Hlen.
    change (Z.to_nat MAXMSGLEN) with 64%nat in Hlen. lia. }
  pose proof (encode_length cmds) as Hn.
  unfold vCORE_Run_switch. rewrite Hbuf at 1.
  erewrite run_load by reflexivity.
  change (COMMAND_PKT =? COMMAND_PKT) with true. cbv iota.
  unfold case_COMMAND_PKT.
  apply run_bind_ext. intros [] s' _.
  apply run_bind_cong. rewrite Hbuf.
  apply (Command_loop_spec cmds 64 [COMMAND_PKT; L; ver; f] rest (ucParam l) 0 L s').
  - lia.
  - reflexivity.
  - unfold SP_HEADERSIZE in HL. cbn [length]. lia.
  - unfold SP_HEADERSIZE in HL. lia.
  - done.
Qed.

Lemma Run_command_packet_witness :
  let msg := [COMMAND_PKT; 10; 120; 0; 1; 0; 3; 2; 7; 9] ++ replicate 54 0 in
  let l := Locals msg 5 (replicate 20 0) [0; 0; 0; 0] in
  let confirm := [CONFIRM_COMMAND; 4; 120; 0] ++ replicate 60 0 in
  vCORE_Run_switch (St := probe) (Collaborators0 := probe_collaborators)
    (replicate 64 0) l (Probe 1 [])
  = Returns (Locals msg 0 ([7; 9] ++ replicate 18 0) [0; 0; 0; 0],
             Probe 1 [(confirm, 4)]).
Proof.
  intros msg l confirm.
  rewrite (Run_command_packet (Collaborators0 := probe_collaborators)
             (replicate 64 0) l 10 120 0 [(1, []); (3, [7; 9])] (replicate 54 0)
             (Probe 1 [])).
  - reflexivity.
  - reflexivity.
  - reflexivity.
  - reflexivity.
  - repeat (apply Forall_cons; split; [cbn; lia|]). apply Forall_nil_2.
Defined.

(** *** A parameter count beyond [ucParam] *)






End CommandFacts.

(** ** Facts about the core linked with the application layer *)

Module SystemFacts.
Import Main STM Reports Board Core Commands System.
Import MainFacts FetchFacts BoardFacts CoreFacts CommandFacts.

Section Linked.
Context {W : Type} (drv : driver) (p : periphery W).


Lemma run_on_world {A B} (c : M W A) (k : A → M (board * W) B) b w a w' :
  c w = Returns (a, w') → (on_world c ≫= k) (b, w) = k a (b, w').
Proof. intros Hc. unfold mbind, M_bind, on_world. cbn [fst snd]. by rewrite Hc. Qed.





(** *** The replies that describe the board *)

Lemma wr_at (a : list Z) (i v : Z) :
  0 <= i < Z.of_nat (length a) → wr a i v = Some (<[Z.to_nat i := v]> a).
Proof.
  intros Hi. unfold wr.
  by rewrite (proj2 (Z.leb_le 0 _)), (proj2 (Z.ltb_lt _ _)) by lia.
Qed.

Lemma rd_at (a : list Z) (i : Z) : 0 <= i → rd a i = a !! Z.to_nat i.
Proof. intros Hi. unfold rd. by rewrite (proj2 (Z.leb_le 0 _)) by lia. Qed.

(** Consecutive stores behind [pre], over [mid]. *)
Lemma store_seq_spec {St} vs : ∀ (pre mid post : list Z) (s : St),
  length mid = length vs →
  store_seq (pre ++ mid ++ post) (Z.of_nat (length pre)) vs s
  = Returns (pre ++ vs ++ post, s).
Proof.
  induction vs as [|v vs IH]; intros pre mid post s Hlen;
    destruct mid as [|x mid]; try discriminate Hlen; cbn [store_seq].
  - reflexivity.
  - cbn [Datatypes.app]. erewrite run_store by apply wr_app.
    replace (Z.of_nat (length pre) + 1) with (Z.of_nat (length (pre ++ [v])))
      by (rewrite length_app; cbn [length]; lia).
    rewrite (IH (pre ++ [v]) mid post s) by (cbn [length] in Hlen; lia).
    by rewrite <- app_assoc.
Qed.

(** The loop over the transducers, [m] of the four still to go. *)
Lemma Interrogate_loop_linked m : ∀ n (i : nat) (pre mid post : list Z) (s : board * W),
  (m < n)%nat → (i + m = 5)%nat → (1 ≤ i)%nat →
  length mid = (2 * m)%nat → (length pre + 2 * m < 256)%nat →
  Interrogate_loop (Collaborators0 := linked drv p) n (pre ++ mid ++ post)
    (Z.of_nat i) (Z.of_nat (length pre)) s
  = Returns ((pre ++ concat (replicate m [TYPE_IS_SENSOR; 1]) ++ post,
              Z.of_nat (length pre + 2 * m)), s).
Proof.
  induction m as [|m IH]; intros n i pre mid post s Hn Hi Hi1 Hmid Hsmall;
    (destruct n as [|n]; [lia|]); cbn [Interrogate_loop].
  - cbn [ucMain_getNumTransducers linked]. rewrite run_ret.
    replace i with 5%nat by lia.
    change (negb (Z.of_nat 5 <=? Main.ucMain_getNumTransducers)) with true. cbv iota.
    destruct mid; [|discriminate Hmid]. cbn [replicate concat Datatypes.app].
    by rewrite Nat.add_0_r.
  - cbn [ucMain_getNumTransducers ucMain_getTransducerType ucMain_getSampleDuration
         linked]. rewrite run_ret.
    replace (negb (Z.of_nat i <=? Main.ucMain_getNumTransducers)) with false.
    2:{ symmetry. apply negb_false_iff, Z.leb_le.
        unfold Main.ucMain_getNumTransducers, NUM_TRANSDUCERS. lia. }
    cbv iota. rewrite run_ret.
    destruct mid as [|x [|y mid]]; try (cbn [length] in Hmid; lia).
    cbn [Datatypes.app].
    erewrite run_store by apply wr_app.
    rewrite run_ret.
    replace (u8 (Z.of_nat (length pre) + 1)) with (Z.of_nat (length (pre ++ [Main.ucMain_getTransducerType (Z.of_nat i)])))
      by (rewrite length_app, u8_small; cbn [length]; lia).
    erewrite run_store by apply wr_app.
    set (pre' := (pre ++ [Main.ucMain_getTransducerType (Z.of_nat i)])
                 ++ [Main.ucMain_getSampleDuration (Z.of_nat i)]).
    assert (Hpre' : length pre' = (length pre + 2)%nat).
    { unfold pre'. rewrite !length_app. cbn [length]. lia. }
    replace (u8 (Z.of_nat (length (pre ++ [Main.ucMain_getTransducerType (Z.of_nat i)])) + 1))
      with (Z.of_nat (length pre')).
    2:{ rewrite Hpre', length_app, u8_small; cbn [length]; lia. }
    replace (u8 (Z.of_nat i + 1)) with (Z.of_nat (S i)) by (rewrite u8_small; lia).
    rewrite (IH n (S i) pre' mid post s); [|lia|lia|lia|cbn [length] in Hmid; lia|lia].
    rewrite Hpre'. unfold pre'.
    replace (Main.ucMain_getTransducerType (Z.of_nat i)) with TYPE_IS_SENSOR.
    2:{ unfold Main.ucMain_getTransducerType.
        by rewrite (proj2 (Z.leb_le 1 _)), (proj2 (Z.leb_le _ 4)) by lia. }
    cbn [replicate concat Datatypes.app]. rewrite <- !app_assoc.
    cbn [Datatypes.app]. do 3 f_equal. lia.
Qed.

(** The flags byte of a reply: [ucMain_ShutdownAllowed] returns 1. *)
Lemma shutdown_flag_linked t len ver f rest (s : board * W) :
  shutdown_flag (Collaborators0 := linked drv p) (t :: len :: ver :: f :: rest) s
  = Returns (t :: len :: ver :: bis f Comm.SHUTDOWN_BIT :: rest, s).
Proof.
  unfold shutdown_flag. cbn [ucMain_ShutdownAllowed linked]. rewrite run_ret.
  change (Main.ucMain_ShutdownAllowed =? 1) with true. cbv iota.
  rewrite <- run_bind_ret. rewrite run_assoc.
  erewrite run_load by reflexivity.
  erewrite run_store by apply wr_header. reflexivity.
Qed.

(** X23 (vCORE_Run, case INTERROGATE, with ucMain_getNumTransducers,
    ucMain_getTransducerType and ucMain_getSampleDuration): the reply to an
    interrogation has the length byte 21 and, behind the header, the
    number of transducers 4, for each of them the type [TYPE_IS_SENSOR]
    and the sample duration 1, and the eight bytes of the board name:
    the 21 bytes the length byte announces; the rest of the array is as
    in the request. *)
Theorem Run_interrogate fresh l len ver f rest bd w b2 w2 :
  ucaMsg_Buff l = INTERROGATE :: len :: ver :: f :: rest →
  (17 ≤ length rest)%nat →
  let reply := [INTERROGATE; 21; SP_DATAMESSAGE_VERSION; bis f Comm.SHUTDOWN_BIT]
               ++ [4; TYPE_IS_SENSOR; 1; TYPE_IS_SENSOR; 1; TYPE_IS_SENSOR; 1;
                   TYPE_IS_SENSOR; 1]
               ++ ID_PKT_BYTES ++ drop 17 rest in
  send p reply 21 w = Returns (b2, w2) →
  vCORE_Run_switch (Collaborators0 := linked drv p) fresh l (bd, w)
  = Returns (set_Msg_Buff b2 l, (bd, w2)).
Proof.
  intros Hbuf Hlen reply Hsend.
  do 17 (destruct rest as [|? rest]; [cbn in Hlen; lia|]).
  unfold vCORE_Run_switch. rewrite Hbuf at 1.
  erewrite run_load by reflexivity.
  change (INTERROGATE =? COMMAND_PKT) with false.
  change (INTERROGATE =? REQUEST_DATA) with false.
  change (INTERROGATE =? REQUEST_LABEL) with false.
  change (INTERROGATE =? REQUEST_BSL_PW) with false.
  change (INTERROGATE =? INTERROGATE) with true. cbv iota.
  unfold case_INTERROGATE. rewrite Hbuf.
  erewrite run_store by apply wr_header.
  cbn [ucMain_getNumTransducers linked]. rewrite run_ret.
  erewrite run_store by apply wr_header.
  erewrite run_store by apply wr_header.
  erewrite run_Returns by apply shutdown_flag_linked.
  rewrite run_ret. unfold MSG_PAYLD_IDX.
  erewrite run_store by (apply (wr_insert _ 4%nat); cbn [length]; lia).
  cbn [insert list_insert]. change (u8 (4 + 1)) with (Z.of_nat 5).
  change (u8 (2 * Main.ucMain_getNumTransducers + 13)) with 21.
  erewrite run_Returns.
  2:{ apply (Interrogate_loop_linked 4 64 1
               [INTERROGATE; 21; SP_DATAMESSAGE_VERSION; bis f Comm.SHUTDOWN_BIT;
                Main.ucMain_getNumTransducers]
               [z0; z1; z2; z3; z4; z5; z6; z7]); cbn [length]; lia. }
  cbv beta iota. cbn [replicate concat Datatypes.app length Nat.add Nat.mul].
  erewrite run_Returns.
  2:{ apply (store_seq_spec ID_PKT_BYTES
               [INTERROGATE; 21; SP_DATAMESSAGE_VERSION; bis f Comm.SHUTDOWN_BIT;
                Main.ucMain_getNumTransducers; TYPE_IS_SENSOR; 1; TYPE_IS_SENSOR; 1;
                TYPE_IS_SENSOR; 1; TYPE_IS_SENSOR; 1]
               [z8; z9; z10; z11; z12; z13; z14; z15] rest).
      reflexivity. }
  erewrite run_load by reflexivity.
  cbn [vCOMM_SendMessage linked].
  erewrite run_on_world by exact Hsend. reflexivity.
Qed.

(** The two bytes taken from a word of the serial number are the two
    bytes it was made of. *)
Lemma HID_word_bytes lo hi :
  0 <= lo < 256 → 0 <= hi < 256 →
  u8 (HID_word lo hi) = lo ∧ u8 (Z.shiftr (HID_word lo hi) 8) = hi.
Proof.
  assert (Hall : forallb (λ lo, forallb (λ hi,
            (u8 (HID_word lo hi) =? lo) && (u8 (Z.shiftr (HID_word lo hi) 8) =? hi))
            (seqZ 0 256)) (seqZ 0 256) = true) by (vm_compute; reflexivity).
  intros Hlo Hhi.
  pose proof (proj1 (forallb_forall _ _) Hall lo) as H1.
  rewrite <- list_elem_of_In, elem_of_seqZ in H1. specialize (H1 ltac:(lia)).
  pose proof (proj1 (forallb_forall _ _) H1 hi) as H2.
  rewrite <- list_elem_of_In, elem_of_seqZ in H2. specialize (H2 ltac:(lia)).
  apply andb_true_iff in H2 as [E1 E2]. split; by apply Z.eqb_eq.
Qed.

(** X24 (vCORE_Run, case SET_SERIALNUM): the eight payload bytes of the
    request are packed two by two, low byte first, into the four words
    of [uiHID] and handed to the flash.  When the flash reports success
    and reads back the same words, the reply has the type
    [SET_SERIALNUM], the length 12 and the eight bytes of the request as
    its payload; when the flash reports a failure, the reply is a bare
    header of type [REPORT_ERROR] and length 4.  In both cases [uiHID]
    holds the new words afterwards. *)
Theorem Run_set_serialnum fresh l len ver f b0 b1 b2 b3 b4 b5 b6 b7 rest bd w r w1 :
  ucaMsg_Buff l = SET_SERIALNUM :: len :: ver :: f
                  :: b0 :: b1 :: b2 :: b3 :: b4 :: b5 :: b6 :: b7 :: rest →
  Forall (λ b, 0 <= b < 256) [b0; b1; b2; b3; b4; b5; b6; b7] →
  let hid := [HID_word b0 b1; HID_word b2 b3; HID_word b4 b5; HID_word b6 b7] in
  let payload := [b0; b1; b2; b3; b4; b5; b6; b7] ++ rest in
  let flags := bis f Comm.SHUTDOWN_BIT in
  set_hid p hid w = Returns (r, w1) →
  (r = 0 → ∀ w2 b' w3,
     get_hid p hid w1 = Returns (hid, w2) →
     send p ([SET_SERIALNUM; 12; SP_DATAMESSAGE_VERSION; flags] ++ payload) 12 w2
     = Returns (b', w3) →
     vCORE_Run_switch (Collaborators0 := linked drv p) fresh l (bd, w)
     = Returns (Locals b' (unTransducerReturn l) (ucParam l) hid, (bd, w3))) ∧
  (r ≠ 0 → ∀ b' w3,
     send p ([REPORT_ERROR; SP_HEADERSIZE; SP_DATAMESSAGE_VERSION; flags] ++ payload)
          SP_HEADERSIZE w1
     = Returns (b', w3) →
     vCORE_Run_switch (Collaborators0 := linked drv p) fresh l (bd, w)
     = Returns (Locals b' (unTransducerReturn l) (ucParam l) hid, (bd, w3))).
Proof.
  intros Hbuf Hbytes hid payload flags Hset.
  assert (Hpre : vCORE_Run_switch (Collaborators0 := linked drv p) fresh l (bd, w)
    = ('(buf, hid') ←
         (if negb (r =? 0) then
            buf ← store ([SET_SERIALNUM; 12; SP_DATAMESSAGE_VERSION; flags] ++ payload)
                    MSG_TYP_IDX REPORT_ERROR;
            buf ← store buf MSG_LEN_IDX SP_HEADERSIZE;
            mret (buf, hid)
          else
            hid' ← vFlash_GetHID (Collaborators := linked drv p) hid;
            buf ← store_seq ([SET_SERIALNUM; 12; SP_DATAMESSAGE_VERSION; flags] ++ payload)
                    MSG_PAYLD_IDX (HID_bytes hid');
            mret (buf, hid'));
       len ← load buf MSG_LEN_IDX;
       buf ← vCOMM_SendMessage (Collaborators := linked drv p) buf len;
       mret (Locals buf (unTransducerReturn l) (ucParam l) hid')) (bd, w1)).
  { unfold vCORE_Run_switch. rewrite Hbuf at 1.
    erewrite run_load by reflexivity.
    change (SET_SERIALNUM =? COMMAND_PKT) with false.
    change (SET_SERIALNUM =? REQUEST_DATA) with false.
    change (SET_SERIALNUM =? REQUEST_LABEL) with false.
    change (SET_SERIALNUM =? REQUEST_BSL_PW) with false.
    change (SET_SERIALNUM =? INTERROGATE) with false.
    change (SET_SERIALNUM =? SET_SERIALNUM) with true. cbv iota.
    unfold case_SET_SERIALNUM. rewrite Hbuf. cbv zeta.
    do 8 (erewrite run_load by reflexivity).
    erewrite run_store by apply wr_header.
    erewrite run_store by apply wr_header.
    erewrite run_store by apply wr_header.
    erewrite run_Returns by apply shutdown_flag_linked.
    cbn [ucFlash_SetHID linked].
    erewrite run_on_world by exact Hset. reflexivity. }
  apply Forall_cons in Hbytes as [H0 Hbytes]. apply Forall_cons in Hbytes as [H1 Hbytes].
  apply Forall_cons in Hbytes as [H2 Hbytes]. apply Forall_cons in Hbytes as [H3 Hbytes].
  apply Forall_cons in Hbytes as [H4 Hbytes]. apply Forall_cons in Hbytes as [H5 Hbytes].
  apply Forall_cons in Hbytes as [H6 Hbytes]. apply Forall_cons in Hbytes as [H7 _].
  split.
  - intros -> w2 b' w3 Hget Hsend. rewrite Hpre.
    change (negb (0 =? 0)) with false. cbv iota.
    rewrite !run_assoc. cbn [vFlash_GetHID linked].
    erewrite run_on_world by exact Hget.
    rewrite run_assoc.
    assert (Hecho : HID_bytes hid = [b0; b1; b2; b3; b4; b5; b6; b7]).
    { unfold HID_bytes, hid. cbn [flat_map Datatypes.app].
      destruct (HID_word_bytes b0 b1 H0 H1) as [-> ->].
      destruct (HID_word_bytes b2 b3 H2 H3) as [-> ->].
      destruct (HID_word_bytes b4 b5 H4 H5) as [-> ->].
      by destruct (HID_word_bytes b6 b7 H6 H7) as [-> ->]. }
    rewrite Hecho.
    erewrite run_Returns.
    2:{ apply (store_seq_spec [b0; b1; b2; b3; b4; b5; b6; b7]
                 [SET_SERIALNUM; 12; SP_DATAMESSAGE_VERSION; flags]
                 [b0; b1; b2; b3; b4; b5; b6; b7] rest). reflexivity. }
    rewrite run_ret. erewrite run_load by reflexivity.
    cbn [vCOMM_SendMessage linked].
    erewrite run_on_world by exact Hsend. reflexivity.
  - intros Hr b' w3 Hsend. rewrite Hpre.
    rewrite (proj2 (Z.eqb_neq r 0) Hr). cbn [negb]. cbv iota.
    rewrite !run_assoc. unfold payload. cbn [Datatypes.app].
    erewrite run_store by apply wr_header.
    rewrite run_assoc.
    erewrite run_store by apply wr_header.
    rewrite run_ret. erewrite run_load by reflexivity.
    cbn [vCOMM_SendMessage linked].
    erewrite run_on_world by exact Hsend. reflexivity.
Qed.

(** X25 (vCORE_Run, case REQUEST_SENSOR_TYPE): the types of the four
    channels are written behind the header, but the length byte of the
    reply and the length handed to the sender are 6: the message covers
    the header and the types of the channels 1 and 2 only. *)
Theorem Run_request_sensor_type fresh l len ver f p0 p1 p2 p3 rest bd w
    t1 t2 t3 t4 wa wb wc wd b' we :
  ucaMsg_Buff l = REQUEST_SENSOR_TYPE :: len :: ver :: f :: p0 :: p1 :: p2 :: p3 :: rest →
  return_type p 1 w = Returns (t1, wa) → return_type p 2 wa = Returns (t2, wb) →
  return_type p 3 wb = Returns (t3, wc) → return_type p 4 wc = Returns (t4, wd) →
  let reply := [REQUEST_SENSOR_TYPE; 6; SP_DATAMESSAGE_VERSION; bis f Comm.SHUTDOWN_BIT]
               ++ [t1; t2; t3; t4] ++ rest in
  send p reply 6 wd = Returns (b', we) →
  vCORE_Run_switch (Collaborators0 := linked drv p) fresh l (bd, w)
  = Returns (set_Msg_Buff b' l, (bd, we))
  ∧ take 6 reply
    = [REQUEST_SENSOR_TYPE; 6; SP_DATAMESSAGE_VERSION; bis f Comm.SHUTDOWN_BIT; t1; t2].
Proof.
  intros Hbuf Hr1 Hr2 Hr3 Hr4 reply Hsend. split; [|reflexivity].
  unfold vCORE_Run_switch. rewrite Hbuf at 1.
  erewrite run_load by reflexivity.
  change (REQUEST_SENSOR_TYPE =? COMMAND_PKT) with false.
  change (REQUEST_SENSOR_TYPE =? REQUEST_DATA) with false.
  change (REQUEST_SENSOR_TYPE =? REQUEST_LABEL) with false.
  change (REQUEST_SENSOR_TYPE =? REQUEST_BSL_PW) with false.
  change (REQUEST_SENSOR_TYPE =? INTERROGATE) with false.
  change (REQUEST_SENSOR_TYPE =? SET_SERIALNUM) with false.
  change (REQUEST_SENSOR_TYPE =? COMMAND_SENSOR_TYPE) with false.
  change (REQUEST_SENSOR_TYPE =? REQUEST_SENSOR_TYPE) with true. cbv iota.
  unfold case_REQUEST_SENSOR_TYPE. rewrite Hbuf.
  erewrite run_store by apply wr_header.
  erewrite run_store by apply wr_header.
  erewrite run_store by apply wr_header.
  erewrite run_Returns by apply shutdown_flag_linked.
  cbn [ucMAIN_ReturnSensorType linked].
  erewrite run_on_world by exact Hr1. erewrite run_on_world by exact Hr2.
  erewrite run_on_world by exact Hr3. erewrite run_on_world by exact Hr4.
  erewrite run_Returns.
  2:{ apply (store_seq_spec [t1; t2; t3; t4]
               [0x0D; SP_HEADERSIZE + 2; SP_DATAMESSAGE_VERSION; bis f Comm.SHUTDOWN_BIT]
               [p0; p1; p2; p3] rest). reflexivity. }
  erewrite run_load by reflexivity.
  cbn [vCOMM_SendMessage linked].
  erewrite run_on_world by exact Hsend. reflexivity.
Qed.

End Linked.


Lemma Run_interrogate_witness :
  let msg := [INTERROGATE; 4; 120; 0] ++ replicate 60 0 in
  let l := Locals msg 0 (replicate 20 0) [0; 0; 0; 0] in
  let reply := [INTERROGATE; 21; 120; 1; 4; 0x53; 1; 0x53; 1; 0x53; 1; 0x53; 1;
                0x53; 0x54; 0x4D; 0; 0; 0; 0; 0] ++ replicate 43 0 in
  let bd := Mk_board clean 0 (Stm [] 0 0 0) in
  vCORE_Run_switch (Collaborators0 := linked (stub 0 0 0) recorder)
    (replicate 64 0) l (bd, [])
  = Returns (set_Msg_Buff reply l, (bd, [(reply, 21)])).
Proof.
  intros msg l reply bd.
  refine (Run_interrogate (stub 0 0 0) recorder (replicate 64 0) l 4 120 0
            (replicate 60 0) bd [] reply [(reply, 21)] _ _ _).
  - reflexivity.
  - cbn. lia.
  - reflexivity.
Defined.

Lemma Run_set_serialnum_witness :
  let msg := [SET_SERIALNUM; 12; 120; 0; 1; 2; 3; 4; 5; 6; 7; 8] ++ replicate 52 0 in
  let l := Locals msg 0 (replicate 20 0) [0; 0; 0; 0] in
  let reply := [SET_SERIALNUM; 12; 120; 1; 1; 2; 3; 4; 5; 6; 7; 8] ++ replicate 52 0 in
  let bd := Mk_board clean 0 (Stm [] 0 0 0) in
  vCORE_Run_switch (Collaborators0 := linked (stub 0 0 0) recorder)
    (replicate 64 0) l (bd, [])
  = Returns (Locals reply 0 (replicate 20 0) [0x0201; 0x0403; 0x0605; 0x0807],
             (bd, [(reply, 12)])).
Proof.
  intros msg l reply bd.
  refine (proj1 (Run_set_serialnum (stub 0 0 0) recorder (replicate 64 0) l 12 120 0
                   1 2 3 4 5 6 7 8 (replicate 52 0) bd [] 0 [] _ _ _)
            eq_refl [] reply [(reply, 12)] _ _).
  - reflexivity.
  - repeat (apply Forall_cons; split; [lia|]). apply Forall_nil_2.
  - reflexivity.
  - reflexivity.
  - reflexivity.
Defined.

Lemma Run_request_sensor_type_witness :
  let msg := [REQUEST_SENSOR_TYPE; 4; 120; 0] ++ replicate 60 0 in
  let l := Locals msg 0 (replicate 20 0) [0; 0; 0; 0] in
  let reply := [REQUEST_SENSOR_TYPE; 6; 120; 1; 0x52; 0x52; 0x52; 0x52] ++ replicate 56 0 in
  let bd := Mk_board clean 0 (Stm [] 0 0 0) in
  vCORE_Run_switch (Collaborators0 := linked (stub 0 0 0) recorder)
    (replicate 64 0) l (bd, [])
  = Returns (set_Msg_Buff reply l, (bd, [(reply, 6)])).
Proof.
  intros msg l reply bd.
  refine (proj1 (Run_request_sensor_type (stub 0 0 0) recorder (replicate 64 0) l 4 120 0
                   0 0 0 0 (replicate 56 0) bd [] 0x52 0x52 0x52 0x52 [] [] [] []
                   reply [(reply, 6)] _ _ _ _ _ _)).
  all: reflexivity.
Defined.

End SystemFacts.

